(** * Index samplers of InternEvo's data pipeline

    A shallow embedding of
    - [internlm/data/lumina_pickle/sampler.py]
      ([LuminaPickleSampler], [LuminaPickleBatchSampler]) and
    - [internlm/data/mocked/batch_sampler.py]
      ([MockedSequentialBatchSampler]),
    followed by the properties of the samplers.

    Python integers are [Z]; Python floats are the kernel's binary64
    floats; a Python exception is a value of [py_error] carried by the
    [result] monad; a [dict] is an association list in insertion order
    (the order in which Python iterates it).  numpy's random generator is
    an interface ([Generator]): a seeded state that hands out position
    permutations and position samples; what the properties need of it
    is [lawful]. *)

From Stdlib Require Import String Floats QArith Qround ZArith List Permutation Sorted Bool Lia.
Import ListNotations.
Open Scope Z_scope.

(** ** Exceptions and the error monad *)

Inductive py_error : Set :=
| AssertionError
| ValueError
| ZeroDivisionError
| OverflowError
| NotImplementedError
| RuntimeError.

Inductive result (A : Type) : Type :=
| Ok (a : A)
| Raise (e : py_error).
Arguments Ok {A} a.
Arguments Raise {A} e.

Definition bind {A B} (c : result A) (k : A -> result B) : result B :=
  match c with
  | Ok a => k a
  | Raise e => Raise e
  end.

Definition py_assert (b : bool) : result unit :=
  if b then Ok tt else Raise AssertionError.

Declare Scope py_scope.
Delimit Scope py_scope with py.
Notation "x <- c ;; k" := (bind c (fun x => k))
  (at level 61, c at next level, right associativity) : py_scope.
Notation "' p <- c ;; k" := (bind c (fun p => k))
  (at level 61, p pattern, c at next level, right associativity) : py_scope.
Notation "c ;;; k" := (bind c (fun _ => k))
  (at level 61, right associativity) : py_scope.
Open Scope py_scope.

Definition is_ok {A} (c : result A) : bool :=
  match c with Ok _ => true | Raise _ => false end.

Definition result_map {A B} (f : A -> B) (c : result A) : result B :=
  match c with Ok a => Ok (f a) | Raise e => Raise e end.

(** ** Python built-ins used by the samplers *)

Module Py.

Definition len {A} (l : list A) : Z := Z.of_nat (length l).

(** [a // b] and [a % b]: floor division, the remainder takes the sign of
    the divisor (as [Z.div] and [Z.modulo] do); a zero divisor raises. *)
Definition floordiv (a b : Z) : result Z :=
  if b =? 0 then Raise ZeroDivisionError else Ok (a / b).

Definition modulo (a b : Z) : result Z :=
  if b =? 0 then Raise ZeroDivisionError else Ok (a mod b).

(** The elements of [range(start, stop, step)] for a non-zero step. *)
Definition range_len (start stop step : Z) : Z :=
  if 0 <? step then
    if start <? stop then (stop - start - 1) / step + 1 else 0
  else if step <? 0 then
    if stop <? start then (start - stop - 1) / (- step) + 1 else 0
  else 0.

Definition range_list (start stop step : Z) : list Z :=
  map (fun i => start + Z.of_nat i * step)
      (seq 0 (Z.to_nat (range_len start stop step))).

(** [range(start, stop, step)]: a zero step raises [ValueError]. *)
Definition range3 (start stop step : Z) : result (list Z) :=
  if step =? 0 then Raise ValueError else Ok (range_list start stop step).

(** [range(start, stop)] *)
Definition range2 (start stop : Z) : list Z := range_list start stop 1.

(** A slice bound: negative bounds count from the end, and every bound is
    clamped into [0, len]. *)
Definition clamp (n i : Z) : Z :=
  if i <? 0 then Z.max (i + n) 0 else Z.min i n.

(** [l[a:b]], either bound possibly omitted. *)
Definition slice {A} (l : list A) (a b : option Z) : list A :=
  let n := len l in
  let lo := match a with Some i => clamp n i | None => 0 end in
  let hi := match b with Some i => clamp n i | None => n end in
  firstn (Z.to_nat (hi - lo)) (skipn (Z.to_nat lo) l).

(** [float(n)] as done by [n * x] for an int [n] and a float [x]: the
    nearest binary64 (ties to even); an int beyond the float range
    raises [OverflowError]. *)
Definition float_of_int (n : Z) : result float :=
  let f := SF2Prim (binary_normalize prec emax n 0 false) in
  if is_infinity f then Raise OverflowError else Ok f.

(** [int(x)] for a float [x]: truncation toward zero. *)
Definition int_of_float (x : float) : result Z :=
  match Prim2SF x with
  | S754_zero _ => Ok 0
  | S754_finite s m e =>
      let a := if 0 <=? e then Z.pos m * 2 ^ e else Z.pos m / 2 ^ (- e) in
      Ok (if s then - a else a)
  | S754_infinity _ => Raise OverflowError
  | S754_nan => Raise ValueError
  end.

(** [sum(l)] for a list of ints. *)
Definition sum (l : list Z) : Z := fold_left Z.add l 0.

End Py.

(** ** Dictionaries in insertion order *)

Definition dict (V : Type) : Type := list (string * V).

(** [d[k] = f(d[k])] on a [defaultdict] whose default value is [dflt]: an
    existing key keeps its place, a new key goes to the end. *)
Fixpoint dict_upd {V} (k : string) (f : V -> V) (dflt : V) (d : dict V) : dict V :=
  match d with
  | [] => [(k, f dflt)]
  | (k', v) :: d' =>
      if String.eqb k k' then (k', f v) :: d'
      else (k', v) :: dict_upd k f dflt d'
  end.

Definition dict_get {V} (k : string) (d : dict V) : option V :=
  match find (fun kv => String.eqb k (fst kv)) d with
  | Some kv => Some (snd kv)
  | None => None
  end.

Definition keys {V} (d : dict V) : list string := map fst d.
Definition values {V} (d : dict V) : list V := map snd d.

(** The same keys in the same order, every value through [h]. *)
Definition map_values {V W} (h : V -> W) (d : dict V) : dict W :=
  map (fun kv => (fst kv, h (snd kv))) d.

(** A loop over [d.items()] that rebuilds every value and may raise. *)
Fixpoint dict_mapM {V W} (f : V -> result W) (d : dict V) : result (dict W) :=
  match d with
  | [] => Ok []
  | (k, v) :: d' =>
      w <- f v ;;
      r <- dict_mapM f d' ;;
      Ok ((k, w) :: r)
  end.

(** The same loop threading a state (the random generator). *)
Fixpoint dict_mapM_st {S V W} (f : S -> V -> result (W * S)) (s : S) (d : dict V)
  : result (dict W * S) :=
  match d with
  | [] => Ok ([], s)
  | (k, v) :: d' =>
      '(w, s1) <- f s v ;;
      '(r, s2) <- dict_mapM_st f s1 d' ;;
      Ok ((k, w) :: r, s2)
  end.

(** ** The dataset and the distributed context *)

(** One entry of [dataset.meta_list]: [meta["type"]], [meta["len"]],
    [meta["item_len_list"]] and the optional [meta["ratio"]]. *)
Record GroupMeta : Set := {
  meta_type : string;
  meta_len : Z;
  meta_item_len_list : list Z;
  meta_ratio : option float
}.

(** The dataset as the samplers see it: [len(dataset)] and
    [dataset.meta_list]. *)
Record Dataset : Set := {
  dataset_len : Z;
  meta_list : list GroupMeta
}.

(** [gpc.get_world_size(ParallelMode.DATA)] and
    [gpc.get_local_rank(ParallelMode.DATA)]. *)
Record ParallelContext : Set := {
  world_size : Z;
  local_rank : Z
}.

(** ** The random generator *)

(** What the sampler uses of a numpy [Generator]: a state built from a
    seed, [permutation] (the positions [0..n-1] in a random order, behind
    [rng.shuffle]) and [sample] ([k] distinct positions below [n], behind
    [rng.choice(..., replace=False)]); both return the advanced state. *)
Record Generator : Type := {
  rng_state : Type;
  seed_rng : Z -> rng_state;
  rng_permutation : rng_state -> nat -> list nat * rng_state;
  rng_sample : rng_state -> nat -> nat -> list nat * rng_state
}.

(** What makes these operations a generator: [permutation] returns a
    permutation of the positions, and [sample] returns [k] different
    positions below [n]. *)
Record lawful (G : Generator) : Prop := {
  rng_permutation_perm :
    forall g n, Permutation (fst (rng_permutation G g n)) (seq 0 n);
  rng_sample_distinct :
    forall g n k, (k <= n)%nat ->
      length (fst (rng_sample G g n k)) = k /\
      NoDup (fst (rng_sample G g n k)) /\
      Forall (fun i => (i < n)%nat) (fst (rng_sample G g n k))
}.

(** The elements of [l] at the positions [p], in the order of [p]. *)
Definition pick {A} (p : list nat) (l : list A) : list A :=
  flat_map (fun i => match nth_error l i with Some x => [x] | None => [] end) p.

(** ** numpy's generator operations *)

Section Numpy.
Variable G : Generator.

(** [np.random.default_rng(seed)]: a negative seed raises [ValueError]. *)
Definition default_rng (seed : Z) : result (rng_state G) :=
  if seed <? 0 then Raise ValueError else Ok (seed_rng G seed).

(** [rng.shuffle(l)]: the shuffled list and the advanced generator. *)
Definition rng_shuffle {A} (rng : rng_state G) (l : list A) : list A * rng_state G :=
  let '(p, rng') := rng_permutation G rng (length l) in (pick p l, rng').

(** [list(rng.choice(l, k, replace=False))]: a negative [k] or one larger
    than the population raises [ValueError]. *)
Definition rng_choice {A} (rng : rng_state G) (l : list A) (k : Z)
  : result (list A * rng_state G) :=
  if (k <? 0) || (Py.len l <? k) then Raise ValueError
  else
    let '(p, rng') := rng_sample G rng (length l) (Z.to_nat k) in
    Ok (pick p l, rng').
End Numpy.
Arguments rng_shuffle {G A} rng l.
Arguments rng_choice {G A} rng l k.

(** ** [LuminaPickleSampler] *)

Record LuminaPickleSampler : Set := {
  dataset : Dataset;
  num_replicas : Z;
  rank : Z;
  shuffle : bool;
  seed : Z;
  micro_batch_size : Z;
  acc_grad : Z;
  length_clustering : bool;
  allow_mixed_task_among_acc : bool;
  epoch : Z;
  start_iter : Z;
  total_size : Z;
  num_samples : Z
}.

(** [meta.get("ratio", 1.0)] *)
Definition ratio_of (meta : GroupMeta) : float :=
  match meta_ratio meta with Some r => r | None => 1%float end.

(** [int(meta["len"] * meta.get("ratio", 1.0))], the expression of
    [__init__] (line 91) and, under the guard of line 116, of [__iter__]
    (line 117). *)
Definition scaled_len (meta : GroupMeta) : result Z :=
  f <- Py.float_of_int (meta_len meta) ;;
  Py.int_of_float (PrimFloat.mul f (ratio_of meta)).

(** The loop of lines 90-91: [group_len[meta["type"]] += int(...)]. *)
Fixpoint count_groups (metas : list GroupMeta) (group_len : dict Z) : result (dict Z) :=
  match metas with
  | [] => Ok group_len
  | meta :: rest =>
      c <- scaled_len meta ;;
      count_groups rest (dict_upd (meta_type meta) (fun v => v + c) 0 group_len)
  end.

(** The sum of the counts recorded for group [g] in a list of
    (label, count) pairs. *)
Definition group_sum (g : string) (counts : list (string * Z)) : Z :=
  Py.sum (map snd (filter (fun kc => String.eqb g (fst kc)) counts)).

(** [group_len[label] += count] for every (label, count) pair in turn. *)
Definition tally (counts : list (string * Z)) (group_len : dict Z) : dict Z :=
  fold_left (fun d kc => dict_upd (fst kc) (fun v => v + snd kc) 0 d) counts group_len.

(** Line 93: [{key: val // global_bsz_acc * global_bsz_acc ...}]. *)
Definition align_groups (global_bsz_acc : Z) (group_len : dict Z) : result (dict Z) :=
  dict_mapM (fun val => q <- Py.floordiv val global_bsz_acc ;; Ok (q * global_bsz_acc))
            group_len.

(** Lines 87-93: the aligned [group_len] of [__init__]. *)
Definition aligned_group_len (num_replicas : Z) (metas : list GroupMeta)
    (micro_batch_size acc_grad : Z) : result (dict Z) :=
  let global_bsz_acc := micro_batch_size * num_replicas * acc_grad in
  group_len <- count_groups metas [] ;;
  align_groups global_bsz_acc group_len.

(** [LuminaPickleSampler.__init__]; [None] for a missing
    [micro_batch_size] or [acc_grad]. *)
Definition LuminaPickleSampler_init (gpc : ParallelContext) (ds : Dataset)
    (micro_batch_size acc_grad : option Z) (shuffle : bool) (seed : Z)
    (length_clustering allow_mixed_task_among_acc : bool)
  : result LuminaPickleSampler :=
  match micro_batch_size, acc_grad with
  | Some mbs, Some acc =>
      let num_replicas := world_size gpc in
      group_len <- aligned_group_len num_replicas (meta_list ds) mbs acc ;;
      let total_size := Py.sum (values group_len) in
      r <- Py.modulo total_size num_replicas ;;
      py_assert (r =? 0) ;;;
      q <- Py.floordiv total_size num_replicas ;;
      Ok {| dataset := ds; num_replicas := num_replicas; rank := local_rank gpc;
            shuffle := shuffle; seed := seed; micro_batch_size := mbs;
            acc_grad := acc; length_clustering := length_clustering;
            allow_mixed_task_among_acc := allow_mixed_task_among_acc;
            epoch := 0; start_iter := 0;
            total_size := total_size; num_samples := q |}
  | _, _ => Raise AssertionError
  end.

(** [set_epoch(epoch, start_iter)] *)
Definition set_epoch (s : LuminaPickleSampler) (epoch start_iter : Z) : LuminaPickleSampler :=
  {| dataset := dataset s; num_replicas := num_replicas s; rank := rank s;
     shuffle := shuffle s; seed := seed s; micro_batch_size := micro_batch_size s;
     acc_grad := acc_grad s; length_clustering := length_clustering s;
     allow_mixed_task_among_acc := allow_mixed_task_among_acc s;
     epoch := epoch; start_iter := start_iter;
     total_size := total_size s; num_samples := num_samples s |}.

(** [__len__] *)
Definition LuminaPickleSampler_len (s : LuminaPickleSampler) : Z := num_samples s.

(** A stable insertion sort on the second component, as
    [indices_and_len.sort(key=lambda x: x[1])]. *)
Fixpoint insert_by_len (x : Z * Z) (l : list (Z * Z)) : list (Z * Z) :=
  match l with
  | [] => [x]
  | y :: l' => if snd x <=? snd y then x :: l else y :: insert_by_len x l'
  end.

Definition sort_by_len (l : list (Z * Z)) : list (Z * Z) :=
  fold_right insert_by_len [] l.

(** [[l[i : i + n] for i in range(0, len(l), n)]] *)
Definition batched {A} (l : list A) (n : Z) : result (list (list A)) :=
  starts <- Py.range3 0 (Py.len l) n ;;
  Ok (map (fun i => Py.slice l (Some i) (Some (i + n))) starts).

Section Iteration.
Variable G : Generator.
Let rng_t : Type := rng_state G.

(** The body of the loop of lines 110-119 for one [meta]: the (index,
    length) pairs it adds to its group. *)
Definition partition_pairs (rng : rng_t) (start_idx : Z) (meta : GroupMeta)
  : result (list (Z * Z) * rng_t) :=
  let end_idx := start_idx + meta_len meta in
  let indices := Py.range2 start_idx end_idx in
  py_assert (Py.len indices =? Py.len (meta_item_len_list meta)) ;;;
  let indices_and_len := combine indices (meta_item_len_list meta) in
  if negb (PrimFloat.eqb (ratio_of meta) 1%float) then
    k <- scaled_len meta ;;
    rng_choice rng indices_and_len k
  else Ok (indices_and_len, rng).

(** Lines 107-122. *)
Fixpoint gather_groups (metas : list GroupMeta) (start_idx : Z) (rng : rng_t)
    (group_indices_and_len : dict (list (Z * Z)))
  : result (dict (list (Z * Z)) * rng_t) :=
  match metas with
  | [] => Ok (group_indices_and_len, rng)
  | meta :: rest =>
      '(indices_and_len, rng1) <- partition_pairs rng start_idx meta ;;
      gather_groups rest (start_idx + meta_len meta) rng1
        (dict_upd (meta_type meta) (fun v => v ++ indices_and_len) []
                  group_indices_and_len)
  end.

(** Lines 124-127. *)
Definition truncate_groups (global_bsz_acc : Z) (groups : dict (list (Z * Z)))
  : result (dict (list (Z * Z))) :=
  dict_mapM (fun indices_and_len =>
               q <- Py.floordiv (Py.len indices_and_len) global_bsz_acc ;;
               Ok (Py.slice indices_and_len None (Some (q * global_bsz_acc))))
            groups.

(** Lines 138-142: shuffle among neighbouring items, block by block. *)
Fixpoint shuffle_blocks (rng : rng_t) (indices : list Z) (block : Z)
    (positions : list Z) (result : list Z) : list Z * rng_t :=
  match positions with
  | [] => (result, rng)
  | pos :: rest =>
      let '(sublist, rng1) :=
        rng_shuffle rng (Py.slice indices (Some pos) (Some (pos + block))) in
      shuffle_blocks rng1 indices block rest (result ++ sublist)
  end.

(** Lines 131-151: the order of the indices of every group. *)
Definition order_groups (s : LuminaPickleSampler) (rng : rng_t)
    (groups : dict (list (Z * Z))) : result (dict (list Z) * rng_t) :=
  let global_batch_size := micro_batch_size s * num_replicas s in
  if length_clustering s then
    let group_indices :=
      map (fun kv => (fst kv, map fst (sort_by_len (snd kv)))) groups in
    dict_mapM_st
      (fun rng indices =>
         positions <- Py.range3 0 (Py.len indices) (global_batch_size * 500) ;;
         Ok (shuffle_blocks rng indices (global_batch_size * 500) positions []))
      rng group_indices
  else
    dict_mapM_st
      (fun rng indices_and_len =>
         let '(shuffled, rng1) := rng_shuffle rng indices_and_len in
         Ok (map fst shuffled, rng1))
      rng groups.

(** Lines 156-160: every group's micro-batches pooled. *)
Fixpoint mixed_batches (global_batch_size : Z) (group_indices : dict (list Z))
  : result (list (list Z)) :=
  match group_indices with
  | [] => Ok []
  | (_, indices) :: rest =>
      b <- batched indices global_batch_size ;;
      r <- mixed_batches global_batch_size rest ;;
      Ok (b ++ r)
  end.

(** Lines 162-172: per group, shuffled micro-batches joined into
    accumulation units. *)
Fixpoint grouped_batches (global_batch_size acc_grad : Z) (rng : rng_t)
    (group_indices : dict (list Z)) (global_batched_indices : list (list Z))
  : result (list (list Z) * rng_t) :=
  match group_indices with
  | [] => Ok (global_batched_indices, rng)
  | (_, indices) :: rest =>
      group_batched_indices <- batched indices global_batch_size ;;
      let '(group_batched_indices, rng1) := rng_shuffle rng group_batched_indices in
      runs <- batched group_batched_indices acc_grad ;;
      let group_batched_indices := map (@concat Z) runs in
      grouped_batches global_batch_size acc_grad rng1 rest
                      (global_batched_indices ++ group_batched_indices)
  end.

(** Lines 100-178: the global flat sequence [indices], checked against
    [total_size]. *)
Definition global_indices (s : LuminaPickleSampler) : result (list Z) :=
  let global_batch_size := micro_batch_size s * num_replicas s in
  let global_bsz_acc := micro_batch_size s * num_replicas s * acc_grad s in
  rng <- default_rng G (seed s + epoch s) ;;
  '(groups, rng) <- gather_groups (meta_list (dataset s)) 0 rng [] ;;
  groups <- truncate_groups global_bsz_acc groups ;;
  indices <-
    (if shuffle s then
       '(group_indices, rng) <- order_groups s rng groups ;;
       '(global_batched_indices, rng) <-
         (if allow_mixed_task_among_acc s then
            b <- mixed_batches global_batch_size group_indices ;; Ok (b, rng)
          else grouped_batches global_batch_size (acc_grad s) rng group_indices []) ;;
       let '(global_batched_indices, _) := rng_shuffle rng global_batched_indices in
       Ok (concat global_batched_indices)
     else Raise NotImplementedError) ;;
  py_assert (Py.len indices =? total_size s) ;;;
  Ok indices.

(** Lines 180-182: the share of this rank. *)
Definition own_indices (s : LuminaPickleSampler) (indices : list Z) : result (list Z) :=
  starts <- Py.range3 (rank s * micro_batch_size s) (Py.len indices)
                      (num_replicas s * micro_batch_size s) ;;
  Ok (fold_left
        (fun own start_pos =>
           own ++ Py.slice indices (Some start_pos)
                           (Some (start_pos + micro_batch_size s)))
        starts []).

(** Lines 187-190: the resume cursor. *)
Definition resume (s : LuminaPickleSampler) (own : list Z) : list Z :=
  if Py.len own <? start_iter s * micro_batch_size s then []
  else Py.slice own (Some (start_iter s * micro_batch_size s)) None.

(** [LuminaPickleSampler.__iter__]: the indices the returned iterator
    yields, or the exception raised. *)
Definition LuminaPickleSampler_iter (s : LuminaPickleSampler) : result (list Z) :=
  indices <- global_indices s ;;
  own <- own_indices s indices ;;
  py_assert (Py.len own =? num_samples s) ;;;
  Ok (resume s own).

(** ** [LuminaPickleBatchSampler] *)

Record LuminaPickleBatchSampler : Set := {
  single_sampler : LuminaPickleSampler;
  num_batches : Z;
  batch_micro_batch_size : Z
}.

(** [LuminaPickleBatchSampler.__init__] (lines 27-29); the required
    [micro_batch_size] divides [len(dataset)] there, so it is an int. *)
Definition LuminaPickleBatchSampler_init (gpc : ParallelContext) (ds : Dataset)
    (micro_batch_size : Z) (acc_grad : option Z) (shuffle : bool) (seed : Z)
    (length_clustering allow_mixed_task_among_acc : bool)
  : result LuminaPickleBatchSampler :=
  single <- LuminaPickleSampler_init gpc ds (Some micro_batch_size) acc_grad shuffle seed
              length_clustering allow_mixed_task_among_acc ;;
  q <- Py.floordiv (dataset_len ds) micro_batch_size ;;
  n <- Py.floordiv q (world_size gpc) ;;
  Ok {| single_sampler := single; num_batches := n;
        batch_micro_batch_size := micro_batch_size |}.

(** [[next(it) for _ in range(n)]]: the list and the rest of the
    iterator, or [None] when the iterator stops early. *)
Fixpoint take_next (n : nat) (it : list Z) : option (list Z * list Z) :=
  match n with
  | O => Some ([], it)
  | S n' =>
      match it with
      | [] => None
      | x :: it' =>
          match take_next n' it' with
          | Some (ret, rest) => Some (x :: ret, rest)
          | None => None
          end
      end
  end.

(** The loop of lines 33-35 for [count] more rounds: the batches yielded
    and the exception, if any, that ends the generator.  A
    [StopIteration] escaping the inner [next] ends the generator with
    [RuntimeError]. *)
Fixpoint batch_loop (count : nat) (micro_batch_size : Z) (single_iter : list Z)
  : list (list Z) * option py_error :=
  match count with
  | O => ([], None)
  | S count' =>
      match take_next (Z.to_nat micro_batch_size) single_iter with
      | None => ([], Some RuntimeError)
      | Some (ret, rest) =>
          let '(more, e) := batch_loop count' micro_batch_size rest in
          (ret :: more, e)
      end
  end.

(** [LuminaPickleBatchSampler.__iter__], run to its end. *)
Definition LuminaPickleBatchSampler_iter (b : LuminaPickleBatchSampler)
  : list (list Z) * option py_error :=
  match LuminaPickleSampler_iter (single_sampler b) with
  | Raise e => ([], Some e)
  | Ok single_iter =>
      batch_loop (Z.to_nat (num_batches b)) (batch_micro_batch_size b) single_iter
  end.

(** [LuminaPickleBatchSampler.__len__] *)
Definition LuminaPickleBatchSampler_len (b : LuminaPickleBatchSampler) : Z :=
  num_batches b.

End Iteration.

(** ** [MockedSequentialBatchSampler] *)

Record MockedSequentialBatchSampler : Set := {
  train_ds : Dataset;
  micro_num : Z;
  batch_count : Z;
  num_consumed_samples_in_epoch : Z
}.

Definition MockedSequentialBatchSampler_init (train_ds : Dataset) (micro_num : Z)
  : MockedSequentialBatchSampler :=
  {| train_ds := train_ds; micro_num := micro_num;
     batch_count := 0; num_consumed_samples_in_epoch := 0 |}.

(** One round of the loop of lines 15-19: the batch yielded and the
    sampler with its counters advanced. *)
Definition mocked_step (s : MockedSequentialBatchSampler) (start : Z)
  : list Z * MockedSequentialBatchSampler :=
  let num_samples := dataset_len (train_ds s) in
  let end_ := Z.min (start + micro_num s) num_samples in
  (Py.range2 start end_,
   {| train_ds := train_ds s; micro_num := micro_num s;
      batch_count := batch_count s + 1;
      num_consumed_samples_in_epoch := num_consumed_samples_in_epoch s + (end_ - start) |}).

Fixpoint mocked_loop (s : MockedSequentialBatchSampler) (starts : list Z)
  : list (list Z) * MockedSequentialBatchSampler :=
  match starts with
  | [] => ([], s)
  | start :: rest =>
      let '(batch, s1) := mocked_step s start in
      let '(more, s2) := mocked_loop s1 rest in
      (batch :: more, s2)
  end.

(** [MockedSequentialBatchSampler.__iter__], run to its end: the batches
    yielded and the sampler afterwards. *)
Definition MockedSequentialBatchSampler_iter (s : MockedSequentialBatchSampler)
  : result (list (list Z) * MockedSequentialBatchSampler) :=
  starts <- Py.range3 0 (dataset_len (train_ds s)) (micro_num s) ;;
  Ok (mocked_loop s starts).

(** [MockedSequentialBatchSampler.__len__] *)
Definition MockedSequentialBatchSampler_len (s : MockedSequentialBatchSampler) : result Z :=
  Py.floordiv (dataset_len (train_ds s) + micro_num s - 1) (micro_num s).

(** [state_dict()]: the two counters under their keys. *)
Definition MockedSequentialBatchSampler_state_dict (s : MockedSequentialBatchSampler)
  : dict Z :=
  [("batch_count"%string, batch_count s);
   ("num_consumed_samples_in_epoch"%string, num_consumed_samples_in_epoch s)].

(** How [load_state_dict] ends: normally, or with the [KeyError] of the
    key it did not find; either way with the sampler as the call left
    it. *)
Inductive load_outcome : Set :=
| Loaded (s : MockedSequentialBatchSampler)
| KeyError (key : string) (s : MockedSequentialBatchSampler).

(** [load_state_dict(states)] (lines 31-33): the two assignments in
    turn, each reading its key. *)
Definition MockedSequentialBatchSampler_load_state_dict
    (s : MockedSequentialBatchSampler) (states : dict Z) : load_outcome :=
  match dict_get "batch_count" states with
  | None => KeyError "batch_count" s
  | Some bc =>
      let s1 := {| train_ds := train_ds s; micro_num := micro_num s;
                   batch_count := bc;
                   num_consumed_samples_in_epoch := num_consumed_samples_in_epoch s |} in
      match dict_get "num_consumed_samples_in_epoch" states with
      | None => KeyError "num_consumed_samples_in_epoch" s1
      | Some n =>
          Loaded {| train_ds := train_ds s1; micro_num := micro_num s1;
                    batch_count := batch_count s1;
                    num_consumed_samples_in_epoch := n |}
      end
  end.

(** [copy()] (lines 35-38): a fresh sampler on the same dataset, loaded
    with this one's state. *)
Definition MockedSequentialBatchSampler_copy (s : MockedSequentialBatchSampler)
  : load_outcome :=
  MockedSequentialBatchSampler_load_state_dict
    (MockedSequentialBatchSampler_init (train_ds s) (micro_num s))
    (MockedSequentialBatchSampler_state_dict s).

(** ** A concrete generator

    A linear congruential state with an inside-out shuffle: position [n]
    is inserted at a drawn place among the shuffled positions below it.
    It stands for numpy's generator wherever a property is evaluated on a
    concrete dataset; no property below depends on its draws. *)

Module Lcg.

Definition next (s : Z) : Z :=
  (s * 6364136223846793005 + 1442695040888963407) mod 2 ^ 64.

Fixpoint insert_at {A} (j : nat) (x : A) (l : list A) : list A :=
  match j, l with
  | S j', y :: l' => y :: insert_at j' x l'
  | _, _ => x :: l
  end.

Fixpoint permutation (s : Z) (n : nat) : list nat * Z :=
  match n with
  | O => ([], s)
  | S n' =>
      let '(p, s1) := permutation s n' in
      let s2 := next s1 in
      (insert_at (Z.to_nat ((s2 / 2 ^ 33) mod Z.of_nat n)) n' p, s2)
  end.

Definition sample (s : Z) (n k : nat) : list nat * Z :=
  let '(p, s1) := permutation s n in (firstn k p, s1).

End Lcg.

(** The concrete generator. *)
Definition lcg : Generator :=
  {| rng_state := Z;
     seed_rng := fun seed => seed;
     rng_permutation := Lcg.permutation;
     rng_sample := Lcg.sample |}.

(** ** The quantities the specification names

    Two definitions that follow the specification's words rather than the
    code, to compare the code with: the group length "summed as exact
    rational products, then truncated to a multiple of A", and
    "round(len * ratio)". *)

(** The exact rational value of a finite float (zero otherwise). *)
Definition Q_of_float (x : float) : Q :=
  match Prim2SF x with
  | S754_finite s m e =>
      let q := if 0 <=? e then inject_Z (Z.pos m * 2 ^ e)
               else Qmake (Z.pos m) (Pos.pow 2 (Z.to_pos (- e))) in
      if s then Qopp q else q
  | _ => 0%Q
  end.

(** [len_i * ratio_i], exactly. *)
Definition exact_product (meta : GroupMeta) : Q :=
  Qmult (inject_Z (meta_len meta)) (Q_of_float (ratio_of meta)).

(** [floor(sum(len_i*ratio_i for partitions i in g) / A) * A] *)
Definition spec_group_len (metas : list GroupMeta) (A : Z) (g : string) : Z :=
  Qfloor (Qdiv (fold_right Qplus 0%Q
                  (map exact_product
                       (filter (fun m => String.eqb (meta_type m) g) metas)))
               (inject_Z A)) * A.

(** Truncation toward zero of an exact value. *)
Definition Qtrunc (q : Q) : Z := if Qle_bool 0 q then Qfloor q else Qceiling q.

(** Python's [round] on an exact value: to the nearest integer, ties to
    the even one. *)
Definition spec_round (q : Q) : Z :=
  let f := Qfloor q in
  match Qcompare (Qminus q (inject_Z f)) (Qmake 1 2) with
  | Lt => f
  | Gt => f + 1
  | Eq => if Z.even f then f else f + 1
  end.

(** ** Notions used by the statements *)

(** [n] elements of [l] from position [a] on (fewer at the end). *)
Definition sub {A} (l : list A) (a n : nat) : list A := firstn n (skipn a l).

(** The first [c] consecutive runs of [n] elements of [l]. *)
Definition chunks {A} (n c : nat) (l : list A) : list (list A) :=
  map (fun i => sub l (i * n) n) (seq 0 c).

(** The group label of a global index: the [type] of the partition whose
    range [start_idx, start_idx + len) holds it, the ranges laid out in
    the order of [meta_list] as lines 107-122 do. *)
Fixpoint type_of_index (metas : list GroupMeta) (start_idx : Z) (i : Z) : option string :=
  match metas with
  | [] => None
  | meta :: rest =>
      if (start_idx <=? i) && (i <? start_idx + meta_len meta)
      then Some (meta_type meta)
      else type_of_index rest (start_idx + meta_len meta) i
  end.

(** A well-formed partition: [item_len_list] has [len] entries, and
    [int(len * ratio)] is [len] for a ratio equal to 1.0 (or none) and
    lies between 0 and [len] otherwise. *)
Definition valid_meta (meta : GroupMeta) : bool :=
  (Py.len (meta_item_len_list meta) =? meta_len meta) &&
  match scaled_len meta with
  | Ok c =>
      if PrimFloat.eqb (ratio_of meta) 1%float then c =? meta_len meta
      else (0 <=? c) && (c <=? meta_len meta)
  | Raise _ => false
  end.

(** All the elements of [l] carry the group label [g]. *)
Definition of_group (metas : list GroupMeta) (g : string) (l : list Z) : Prop :=
  Forall (fun i => type_of_index metas 0 i = Some g) l.

(** The [i]-th batch of the sequential sampler over [N] samples in runs
    of [m]. *)
Definition mocked_batch (N m : Z) (i : nat) : list Z :=
  Py.range2 (Z.of_nat i * m) (Z.min ((Z.of_nat i + 1) * m) N).

(** The share of the rank before the resume cursor is applied. *)
Definition unresumed (G : Generator) (s : LuminaPickleSampler) : result (list Z) :=
  indices <- global_indices G s ;;
  own <- own_indices s indices ;;
  py_assert (Py.len own =? num_samples s) ;;;
  Ok own.


(** The [mbs] indices that rank [r] takes from the [j]-th global batch. *)
Definition piece (mbs ws : Z) (indices : list Z) (j r : nat) : list Z :=
  sub indices (j * Z.to_nat (ws * mbs) + r * Z.to_nat mbs) (Z.to_nat mbs).

(** What holds of the groups gathered from the partitions before
    [start_idx]: no index twice, every index below [start_idx], every
    index under the label of its group. *)
Definition gathered (label : Z -> option string) (start_idx : Z) (groups : dict (list (Z * Z))) : Prop :=
  NoDup (map fst (concat (values groups))) /\
  Forall (fun p => fst p < start_idx) (concat (values groups)) /\
  Forall (fun kv => Forall (fun p => label (fst p) = Some (fst kv)) (snd kv)) groups.

(** The truncation of line 125-127 applied to one group. *)
Definition truncated (A : Z) (l : list (Z * Z)) : list (Z * Z) :=
  Py.slice l None (Some (Py.len l / A * A)).

(** Two dictionaries with the same keys whose values are rearrangements
    of each other's indices. *)
Definition reordered (groups : dict (list (Z * Z))) (group_indices : dict (list Z)) : Prop :=
  Forall2 (fun kv kw => fst kv = fst kw /\ Permutation (snd kw) (map fst (snd kv)))
          groups group_indices.

(** An accumulation unit: [n] indices of one group. *)
Definition unit_of (label : Z -> option string) (n : nat) (u : list Z) : Prop :=
  length u = n /\ exists g, Forall (fun i => label i = Some g) u.

(** A group ready for batching: a whole number of accumulation units,
    all its indices under its label. *)
Definition batchable (label : Z -> option string) (gbs acc : Z)
    (kv : string * list Z) : Prop :=
  (exists q, length (snd kv) = (q * Z.to_nat acc * Z.to_nat gbs)%nat) /\
  Forall (fun i => label i = Some (fst kv)) (snd kv).

(** The rows of the rank: its [m] indices of every global batch. *)
Definition rank_rows (indices : list Z) (units : list (list Z))
    (m a W r : nat) : list (list Z) :=
  map (fun j => sub indices (j * W + r * m) m) (seq 0 (length units * a)).

(** ** A small dataset

    Two groups over three partitions: 13 and 7 text samples, and 10 image
    samples kept at ratio 0.5; global indices 0-12, 13-22 and 23-29. *)

Module Example.
Open Scope string_scope.

Definition text_a : GroupMeta :=
  {| meta_type := "text"; meta_len := 13;
     meta_item_len_list := [0; 2; 4; 1; 3; 0; 2; 4; 1; 3; 0; 2; 4];
     meta_ratio := None |}.

Definition image_a : GroupMeta :=
  {| meta_type := "image"; meta_len := 10;
     meta_item_len_list := [0; 2; 4; 1; 3; 0; 2; 4; 1; 3];
     meta_ratio := Some 0.5%float |}.

Definition text_b : GroupMeta :=
  {| meta_type := "text"; meta_len := 7;
     meta_item_len_list := [0; 2; 4; 1; 3; 0; 2];
     meta_ratio := None |}.

Definition ds : Dataset :=
  {| dataset_len := 30; meta_list := [text_a; image_a; text_b] |}.

Definition gpc (r : Z) : ParallelContext := {| world_size := 2; local_rank := r |}.

(** The sampler [__init__] builds on rank [r] of two for
    [micro_batch_size = 2], [acc_grad = 1], seed 0 and the default
    flags. *)
Definition sampler (r : Z) : LuminaPickleSampler :=
  {| dataset := ds; num_replicas := 2; rank := r; shuffle := true; seed := 0;
     micro_batch_size := 2; acc_grad := 1; length_clustering := true;
     allow_mixed_task_among_acc := false; epoch := 0; start_iter := 0;
     total_size := 24; num_samples := 12 |}.

Definition mocked_ds : Dataset := {| dataset_len := 10; meta_list := [] |}.

(** Four samples kept at ratio 0.4375 = 7/16: the product is 1.75. *)
Definition seven_sixteenths : GroupMeta :=
  {| meta_type := "image"; meta_len := 4;
     meta_item_len_list := [5; 6; 7; 8];
     meta_ratio := Some 0.4375%float |}.

(** Two partitions of one group, three samples each at ratio 0.5: each
    product is 1.5, their sum is 3. *)
Definition half_of_three : GroupMeta :=
  {| meta_type := "text"; meta_len := 3;
     meta_item_len_list := [1; 2; 3];
     meta_ratio := Some 0.5%float |}.

Definition halves : Dataset :=
  {| dataset_len := 6; meta_list := [half_of_three; half_of_three] |}.

(** Seven text samples: with [micro_batch_size = 2], [acc_grad = 2] on
    one rank the alignment keeps four of them. *)
Definition seven : Dataset :=
  {| dataset_len := 7;
     meta_list := [{| meta_type := "text"; meta_len := 7;
                      meta_item_len_list := [3; 1; 4; 1; 5; 9; 2];
                      meta_ratio := None |}] |}.

(** The sampler of rank 0 built with [shuffle = False]. *)
Definition unshuffled : LuminaPickleSampler :=
  {| dataset := ds; num_replicas := 2; rank := 0; shuffle := false; seed := 0;
     micro_batch_size := 2; acc_grad := 1; length_clustering := true;
     allow_mixed_task_among_acc := false; epoch := 0; start_iter := 0;
     total_size := 24; num_samples := 12 |}.

(** The dataset [ds] reported with another length, and the sampler of
    rank 1 built on it. *)
Definition ds_relabelled : Dataset :=
  {| dataset_len := 1000; meta_list := [text_a; image_a; text_b] |}.


(** A single process. *)
Definition solo : ParallelContext := {| world_size := 1; local_rank := 0 |}.

(** Two text samples and two image samples: global indices 0-1 and
    2-3. *)
Definition two_by_two : Dataset :=
  {| dataset_len := 4;
     meta_list := [{| meta_type := "text"; meta_len := 2;
                      meta_item_len_list := [7; 5]; meta_ratio := None |};
                   {| meta_type := "image"; meta_len := 2;
                      meta_item_len_list := [6; 4]; meta_ratio := None |}] |}.
End Example.

(** ** Datasets with a faulty partition

    After the eight text samples of [sound]: a partition whose
    [item_len_list] has two entries for [len = 3]; one kept at ratio 1.5;
    one kept at ratio -0.5. *)

Module Faulty.
Open Scope string_scope.

Definition sound : GroupMeta :=
  {| meta_type := "text"; meta_len := 8;
     meta_item_len_list := [5; 3; 8; 1; 9; 2; 7; 4];
     meta_ratio := None |}.

Definition short_lengths : GroupMeta :=
  {| meta_type := "image"; meta_len := 3;
     meta_item_len_list := [6; 7];
     meta_ratio := None |}.

Definition oversampled : GroupMeta :=
  {| meta_type := "image"; meta_len := 4;
     meta_item_len_list := [6; 7; 8; 9];
     meta_ratio := Some 1.5%float |}.

Definition negative_ratio : GroupMeta :=
  {| meta_type := "image"; meta_len := 4;
     meta_item_len_list := [6; 7; 8; 9];
     meta_ratio := Some (-0.5)%float |}.

Definition ds (bad : GroupMeta) : Dataset :=
  {| dataset_len := 12; meta_list := [sound; bad; sound] |}.

Definition gpc : ParallelContext := {| world_size := 2; local_rank := 0 |}.

(** The sampler [__init__] builds over [ds bad] for
    [micro_batch_size = 2], [acc_grad = 1], seed 0 and the default
    flags, when the groups sum up to [total] after alignment. *)
Definition sampler (bad : GroupMeta) (total : Z) : LuminaPickleSampler :=
  {| dataset := ds bad; num_replicas := 2; rank := 0; shuffle := true; seed := 0;
     micro_batch_size := 2; acc_grad := 1; length_clustering := true;
     allow_mixed_task_among_acc := false; epoch := 0; start_iter := 0;
     total_size := total; num_samples := total / 2 |}.
End Faulty.

(** * Properties *)

(** ** The concrete generator is a generator *)

Lemma insert_at_perm {A} (j : nat) (x : A) (l : list A) :
  Permutation (Lcg.insert_at j x l) (x :: l).
Proof.
  revert j; induction l as [|y l IH]; intros [|j]; simpl; auto.
  rewrite IH. apply perm_swap.
Qed.

Lemma lcg_permutation_perm (s : Z) (n : nat) :
  Permutation (fst (Lcg.permutation s n)) (seq 0 n).
Proof.
  induction n as [|n IH]; simpl; auto.
  destruct (Lcg.permutation s n) as [p s1]; simpl in *.
  rewrite insert_at_perm, IH.
  change (n :: seq 0 n) with ([n] ++ seq 0 n).
  rewrite Permutation_app_comm.
  replace (0%nat :: seq 1 n) with (seq 0 (S n)) by reflexivity.
  rewrite seq_S. reflexivity.
Qed.

Lemma lcg_sample_distinct (s : Z) (n k : nat) :
  (k <= n)%nat ->
  length (fst (Lcg.sample s n k)) = k /\
  NoDup (fst (Lcg.sample s n k)) /\
  Forall (fun i => (i < n)%nat) (fst (Lcg.sample s n k)).
Proof.
  intros Hk. unfold Lcg.sample.
  pose proof (lcg_permutation_perm s n) as Hp.
  destruct (Lcg.permutation s n) as [p s1]; simpl in *.
  assert (Hlen : length p = n).
  { rewrite (Permutation_length Hp). apply length_seq. }
  assert (Hnd : NoDup p).
  { apply (Permutation_NoDup (Permutation_sym Hp)), seq_NoDup. }
  repeat split.
  - rewrite length_firstn. lia.
  - rewrite <- (firstn_skipn k p) in Hnd. now apply NoDup_app_remove_r in Hnd.
  - apply Forall_forall. intros i Hi.
    apply (In_nth_error) in Hi. destruct Hi as [j Hj].
    assert (In i p).
    { apply nth_error_In in Hj. rewrite <- (firstn_skipn k p). apply in_or_app. now left. }
    apply (Permutation_in _ Hp) in H. apply in_seq in H. lia.
Qed.

Lemma lcg_lawful : lawful lcg.
Proof.
  constructor; [exact lcg_permutation_perm | exact lcg_sample_distinct].
Qed.

(** ** Python built-ins *)

Lemma bind_ok {A B} (c : result A) (k : A -> result B) (b : B) :
  bind c k = Ok b -> exists a, c = Ok a /\ k a = Ok b.
Proof. destruct c as [a|e]; simpl; [eauto | discriminate]. Qed.

Lemma py_assert_ok (b : bool) (u : unit) : py_assert b = Ok u -> b = true.
Proof. destruct b; simpl; [reflexivity | discriminate]. Qed.

Lemma range_len_pos (start stop step : Z) :
  0 < step -> start <= stop ->
  Py.range_len start stop step = (stop - start + step - 1) / step.
Proof.
  intros Hs Hle. unfold Py.range_len.
  destruct (0 <? step) eqn:E; [|lia].
  destruct (start <? stop) eqn:E1.
  - replace (stop - start + step - 1) with (stop - start - 1 + 1 * step) by lia.
    rewrite Z.div_add by lia. reflexivity.
  - assert (stop = start) by lia. subst.
    replace (start - start + step - 1) with (step - 1) by lia.
    symmetry. apply Z.div_small. lia.
Qed.

Lemma range2_eq (a b : Z) :
  Py.range2 a b = map (fun i => a + Z.of_nat i) (seq 0 (Z.to_nat (b - a))).
Proof.
  unfold Py.range2, Py.range_list.
  assert (Hn : Z.to_nat (Py.range_len a b 1) = Z.to_nat (b - a)).
  { unfold Py.range_len. simpl. destruct (a <? b) eqn:E.
    - rewrite Z.div_1_r. f_equal. lia.
    - lia. }
  rewrite Hn. apply map_ext. intros i. lia.
Qed.

Lemma range2_length (a b : Z) : length (Py.range2 a b) = Z.to_nat (b - a).
Proof. rewrite range2_eq, length_map, length_seq. reflexivity. Qed.

Lemma range2_In (a b i : Z) : In i (Py.range2 a b) <-> a <= i < b.
Proof.
  rewrite range2_eq, in_map_iff. split.
  - intros (k & <- & Hk). apply in_seq in Hk. lia.
  - intros H. exists (Z.to_nat (i - a)). split; [lia|]. apply in_seq. lia.
Qed.

Lemma range2_NoDup (a b : Z) : NoDup (Py.range2 a b).
Proof.
  rewrite range2_eq. apply Finite.Injective_map_NoDup; [|apply seq_NoDup].
  intros x y H. lia.
Qed.

Lemma seq_from (k n : nat) : seq k n = map (Nat.add k) (seq 0 n).
Proof.
  induction k as [|k IH]; simpl.
  - symmetry. apply map_id.
  - rewrite <- seq_shift, IH, map_map. reflexivity.
Qed.

Lemma range2_app (a b c : Z) :
  a <= b <= c -> Py.range2 a b ++ Py.range2 b c = Py.range2 a c.
Proof.
  intros H. rewrite !range2_eq.
  replace (Z.to_nat (c - a)) with (Z.to_nat (b - a) + Z.to_nat (c - b))%nat by lia.
  rewrite seq_app, map_app. f_equal. simpl.
  rewrite (seq_from (Z.to_nat (b - a))), map_map.
  apply map_ext. intros i. lia.
Qed.

Lemma ceil_div_bounds (n m : Z) :
  0 < m -> (((n + m - 1) / m) - 1) * m < n <= ((n + m - 1) / m) * m.
Proof.
  intros Hm.
  pose proof (Z.div_mod (n + m - 1) m ltac:(lia)) as Hd.
  pose proof (Z.mod_pos_bound (n + m - 1) m Hm) as Hb.
  nia.
Qed.

Lemma range_list_0 (n step : Z) :
  0 < step -> 0 <= n ->
  Py.range_list 0 n step
  = map (fun i => Z.of_nat i * step) (seq 0 (Z.to_nat ((n + step - 1) / step))).
Proof.
  intros Hs Hn. unfold Py.range_list.
  rewrite range_len_pos by lia. rewrite Z.sub_0_r.
  apply map_ext. intros i. lia.
Qed.

(** ** [MockedSequentialBatchSampler] *)

Lemma mocked_loop_spec (N m : Z) (starts : list nat) :
  forall s, dataset_len (train_ds s) = N -> micro_num s = m ->
    0 < m ->
    Forall (fun i => Z.of_nat i * m < N) starts ->
    exists s',
      mocked_loop s (map (fun i => Z.of_nat i * m) starts) = (map (mocked_batch N m) starts, s') /\
      train_ds s' = train_ds s /\ micro_num s' = m /\
      batch_count s' = batch_count s + Py.len starts /\
      num_consumed_samples_in_epoch s'
      = num_consumed_samples_in_epoch s
        + Py.sum (map (fun i => Z.min ((Z.of_nat i + 1) * m) N - Z.of_nat i * m) starts).
Proof.
  assert (Hf : forall l a b, fold_left Z.add l (a + b) = a + fold_left Z.add l b).
  { induction l as [|x l IH]; intros a b; simpl; [lia|].
    rewrite <- IH. f_equal. lia. }
  unfold Py.sum.
  induction starts as [|i starts IH]; intros s HN Hm Hpos Hlt.
  - exists s. unfold Py.len; simpl. repeat split; lia.
  - apply Forall_cons_iff in Hlt. destruct Hlt as [Hi Hrest].
    cbn [map mocked_loop]. unfold mocked_step. rewrite HN, Hm.
    set (s1 := Build_MockedSequentialBatchSampler _ _ _ _).
    destruct (IH s1 HN eq_refl Hpos Hrest) as (s' & Hl & Hds & Hm' & Hbc & Hnc).
    rewrite Hl. exists s'. unfold mocked_batch at 1.
    replace (Z.of_nat i * m + m) with ((Z.of_nat i + 1) * m) in * by lia.
    repeat split; auto.
    + rewrite Hbc. subst s1. unfold Py.len. cbn [batch_count length]. lia.
    + rewrite Hnc. subst s1. cbn [num_consumed_samples_in_epoch map fold_left].
      rewrite (Z.add_comm 0), Hf.
      replace (Z.of_nat i * m + m) with ((Z.of_nat i + 1) * m) by lia. lia.
Qed.

Lemma mocked_batches_concat (N m : Z) (c : nat) :
  0 < m -> (Z.of_nat c - 1) * m < N ->
  concat (map (mocked_batch N m) (seq 0 c)) = Py.range2 0 (Z.min (Z.of_nat c * m) N).
Proof.
  intros Hm. induction c as [|c IH]; intros Hc.
  - simpl. rewrite range2_eq.
    replace (Z.to_nat (Z.min 0 N - 0)) with 0%nat by lia. reflexivity.
  - rewrite seq_S, map_app, concat_app, IH by lia. cbn [map concat Nat.add].
    rewrite app_nil_r. unfold mocked_batch.
    replace (Z.min (Z.of_nat c * m) N) with (Z.of_nat c * m) by lia.
    replace (Z.of_nat c + 1) with (Z.of_nat (S c)) by lia.
    rewrite range2_app by lia. reflexivity.
Qed.

Lemma mocked_consumed_sum (N m : Z) (c : nat) :
  0 < m -> 0 <= N -> (Z.of_nat c - 1) * m < N ->
  Py.sum (map (fun i => Z.min ((Z.of_nat i + 1) * m) N - Z.of_nat i * m) (seq 0 c))
  = Z.min (Z.of_nat c * m) N.
Proof.
  intros Hm HN. unfold Py.sum. induction c as [|c IH]; intros Hc.
  - simpl. lia.
  - rewrite seq_S, map_app, fold_left_app, IH by lia. cbn [map fold_left Nat.add].
    replace (Z.of_nat c + 1) with (Z.of_nat (S c)) by lia. lia.
Qed.

(** C9.  For a dataset of [N >= 0] samples and a micro-count
    [micro_num > 0], one full iteration of the sequential fallback sampler
    yields [c] batches where [c] is the ceiling of [N / micro_num] (the
    least [c] with [N <= c * micro_num]); the [i]-th batch is the ascending
    run from [i * micro_num] up to [min ((i+1) * micro_num) N]; the batches
    concatenate to [0 .. N-1]; [__len__] reports [c]; and the counters have
    advanced by [c] batches and [N] samples. *)
Theorem mocked_sequential_batches (s : MockedSequentialBatchSampler) :
  0 <= dataset_len (train_ds s) -> 0 < micro_num s ->
  exists batches s',
    MockedSequentialBatchSampler_iter s = Ok (batches, s') /\
    MockedSequentialBatchSampler_len s = Ok (Py.len batches) /\
    (Py.len batches - 1) * micro_num s < dataset_len (train_ds s)
      <= Py.len batches * micro_num s /\
    (forall i, (i < length batches)%nat ->
       nth i batches []
       = Py.range2 (Z.of_nat i * micro_num s)
                   (Z.min ((Z.of_nat i + 1) * micro_num s) (dataset_len (train_ds s)))) /\
    concat batches = Py.range2 0 (dataset_len (train_ds s)) /\
    batch_count s' = batch_count s + Py.len batches /\
    num_consumed_samples_in_epoch s'
    = num_consumed_samples_in_epoch s + dataset_len (train_ds s).
Proof.
  intros HN Hm.
  set (N := dataset_len (train_ds s)) in *. set (m := micro_num s) in *.
  set (c := Z.to_nat ((N + m - 1) / m)).
  pose proof (ceil_div_bounds N m Hm) as Hc.
  assert (Hc0 : 0 <= (N + m - 1) / m) by (apply Z.div_pos; lia).
  assert (Hlt : Forall (fun i => Z.of_nat i * m < N) (seq 0 c)).
  { apply Forall_forall. intros i Hi. apply in_seq in Hi. nia. }
  destruct (mocked_loop_spec N m (seq 0 c) s eq_refl eq_refl Hm Hlt)
    as (s' & Hloop & _ & _ & Hbc & Hnc).
  exists (map (mocked_batch N m) (seq 0 c)), s'.
  assert (Hlen : Py.len (map (mocked_batch N m) (seq 0 c)) = (N + m - 1) / m).
  { unfold Py.len. rewrite length_map, length_seq. lia. }
  rewrite Hlen. repeat split.
  - unfold MockedSequentialBatchSampler_iter, Py.range3. fold N m.
    destruct (m =? 0) eqn:E; [lia|]. simpl.
    rewrite range_list_0 by lia. fold c. rewrite Hloop. reflexivity.
  - unfold MockedSequentialBatchSampler_len, Py.floordiv. fold N m.
    destruct (m =? 0) eqn:E; [lia|]. reflexivity.
  - lia.
  - lia.
  - intros i Hi. rewrite length_map, length_seq in Hi.
    rewrite nth_indep with (d' := mocked_batch N m 0%nat)
      by (rewrite length_map, length_seq; lia).
    rewrite map_nth, seq_nth by lia. reflexivity.
  - rewrite mocked_batches_concat by lia. f_equal. lia.
  - rewrite Hbc. unfold Py.len. rewrite length_seq. lia.
  - rewrite Hnc, mocked_consumed_sum by lia. lia.
Qed.

Lemma mocked_sequential_batches_witness :
  exists batches s',
    MockedSequentialBatchSampler_iter (MockedSequentialBatchSampler_init Example.mocked_ds 4)
    = Ok (batches, s') /\
    batches = [[0; 1; 2; 3]; [4; 5; 6; 7]; [8; 9]] /\
    MockedSequentialBatchSampler_len (MockedSequentialBatchSampler_init Example.mocked_ds 4) = Ok 3.
Proof.
  destruct (mocked_sequential_batches (MockedSequentialBatchSampler_init Example.mocked_ds 4))
    as (batches & s' & Hiter & Hlen & _); [simpl; lia | simpl; lia |].
  exists batches, s'. split; [exact Hiter|].
  split.
  - vm_compute in Hiter. now inversion Hiter.
  - vm_compute. reflexivity.
Defined.

(** ** Slices *)

Lemma slice_from {A} (l : list A) (a : Z) :
  Py.slice l (Some a) None = skipn (Z.to_nat (Py.clamp (Py.len l) a)) l.
Proof.
  unfold Py.slice. apply firstn_all2. rewrite length_skipn. unfold Py.len. lia.
Qed.

Lemma slice_from_nonneg {A} (l : list A) (a : Z) :
  0 <= a -> Py.slice l (Some a) None = skipn (Z.to_nat a) l.
Proof.
  intros Ha. rewrite slice_from. unfold Py.clamp, Py.len.
  destruct (a <? 0) eqn:E; [lia|].
  destruct (Z.le_gt_cases a (Z.of_nat (length l))) as [Hle|Hgt].
  - rewrite Z.min_l by lia. reflexivity.
  - rewrite Z.min_r by lia. rewrite Nat2Z.id.
    rewrite !skipn_all2; auto; lia.
Qed.

Lemma slice_from_neg {A} (l : list A) (a : Z) :
  a < 0 -> - a <= Py.len l ->
  Py.slice l (Some a) None = skipn (length l - Z.to_nat (- a)) l.
Proof.
  intros Ha Hle. rewrite slice_from. unfold Py.clamp, Py.len in *.
  destruct (a <? 0) eqn:E; [|lia].
  f_equal. lia.
Qed.

(** ** The resume cursor *)

Lemma iter_unresumed (G : Generator) (s : LuminaPickleSampler) :
  LuminaPickleSampler_iter G s = result_map (resume s) (unresumed G s).
Proof.
  unfold LuminaPickleSampler_iter, unresumed.
  destruct (global_indices G s) as [indices|]; simpl; auto.
  destruct (own_indices s indices) as [own|]; simpl; auto.
  destruct (py_assert _); reflexivity.
Qed.

Lemma unresumed_set_epoch (G : Generator) (s : LuminaPickleSampler) (e k : Z) :
  unresumed G (set_epoch s e k) = unresumed G (set_epoch s e 0).
Proof. reflexivity. Qed.

Lemma unresumed_length (G : Generator) (s : LuminaPickleSampler) (own : list Z) :
  unresumed G s = Ok own -> Py.len own = num_samples s.
Proof.
  unfold unresumed. intros H.
  apply bind_ok in H. destruct H as (indices & _ & H).
  apply bind_ok in H. destruct H as (own' & _ & H).
  apply bind_ok in H. destruct H as (u & Ha & H).
  apply py_assert_ok in Ha. apply Z.eqb_eq in Ha. inversion H; subst. exact Ha.
Qed.

Lemma iter_start_0 (G : Generator) (s : LuminaPickleSampler) (e : Z) :
  LuminaPickleSampler_iter G (set_epoch s e 0) = unresumed G (set_epoch s e 0).
Proof.
  rewrite iter_unresumed.
  destruct (unresumed G (set_epoch s e 0)) as [own|]; simpl; auto.
  unfold resume. cbn [start_iter set_epoch micro_batch_size].
  rewrite Z.mul_0_l.
  destruct (Z.ltb_spec (Py.len own) 0) as [E|E]; [unfold Py.len in E; lia|].
  rewrite slice_from_nonneg by lia. reflexivity.
Qed.

(** C7.  With a positive micro-batch size and a non-negative
    [start_iter = k], iterating yields the rank's un-resumed share (the
    share of lines 180-185, before the cursor of lines 187-190 is
    applied) with exactly its first [k * micro_batch_size] elements
    removed, that is [share[k * micro_batch_size :]]; an exception raised
    while the share is computed is the exception of the iteration.  With
    [k = 0] the whole share is yielded; and when [k * micro_batch_size]
    is at least the length of the share, the iteration is empty and
    raises nothing. *)
Theorem resume_skips_prefix (G : Generator) (s : LuminaPickleSampler) (e k : Z) :
  0 < micro_batch_size s -> 0 <= k ->
  LuminaPickleSampler_iter G (set_epoch s e k)
  = result_map (skipn (Z.to_nat (k * micro_batch_size s)))
               (unresumed G (set_epoch s e k))
  /\ (forall share,
        unresumed G (set_epoch s e k) = Ok share ->
        LuminaPickleSampler_iter G (set_epoch s e k)
        = Ok (Py.slice share (Some (k * micro_batch_size s)) None) /\
        (k = 0 -> LuminaPickleSampler_iter G (set_epoch s e k) = Ok share) /\
        (Py.len share <= k * micro_batch_size s ->
         LuminaPickleSampler_iter G (set_epoch s e k) = Ok [])).
Proof.
  intros Hm Hk.
  assert (Hmain : LuminaPickleSampler_iter G (set_epoch s e k)
                  = result_map (skipn (Z.to_nat (k * micro_batch_size s)))
                               (unresumed G (set_epoch s e k))).
  { rewrite iter_unresumed.
    destruct (unresumed G (set_epoch s e k)) as [own|]; simpl; auto.
    unfold resume. cbn [start_iter set_epoch micro_batch_size].
    destruct (Z.ltb_spec (Py.len own) (k * micro_batch_size s)) as [E|E].
    - rewrite skipn_all2; auto. unfold Py.len in E. lia.
    - rewrite slice_from_nonneg by nia. reflexivity. }
  split; [exact Hmain|].
  intros share Hshare. rewrite Hmain, Hshare. cbn [result_map].
  split; [|split].
  - rewrite slice_from_nonneg by nia. reflexivity.
  - intros ->. reflexivity.
  - intros Hlen. rewrite skipn_all2; auto. unfold Py.len in Hlen. lia.
Qed.

Lemma example_sampler_init (r : Z) :
  LuminaPickleSampler_init (Example.gpc r) Example.ds (Some 2) (Some 1) true 0 true false
  = Ok (Example.sampler r).
Proof. reflexivity. Qed.

Lemma resume_skips_prefix_witness :
  unresumed lcg (set_epoch (Example.sampler 0) 0 2)
  = Ok [17; 21; 23; 12; 4; 8; 0; 27; 6; 29; 3; 28] /\
  LuminaPickleSampler_iter lcg (set_epoch (Example.sampler 0) 0 2)
  = Ok [4; 8; 0; 27; 6; 29; 3; 28].
Proof.
  assert (Hshare : unresumed lcg (set_epoch (Example.sampler 0) 0 2)
                   = Ok [17; 21; 23; 12; 4; 8; 0; 27; 6; 29; 3; 28])
    by (vm_compute; reflexivity).
  split; [exact Hshare|].
  destruct (resume_skips_prefix lcg (Example.sampler 0) 0 2) as [_ Hk];
    [simpl; lia | lia |].
  exact (proj1 (Hk _ Hshare)).
Defined.

(** C10, as stated, fails at the boundary: with
    [|k| * micro_batch_size = num_samples] the negative slice start reaches
    the head of the share, and the full share is yielded. *)
Lemma negative_start_iter_full_share :
  exists share,
    LuminaPickleSampler_iter lcg (set_epoch (Example.sampler 0) 0 0) = Ok share /\
    Z.abs (-6) * micro_batch_size (Example.sampler 0) <= num_samples (Example.sampler 0) /\
    LuminaPickleSampler_iter lcg (set_epoch (Example.sampler 0) 0 (-6)) = Ok share.
Proof.
  eexists. split; [vm_compute; reflexivity|].
  split; [vm_compute; discriminate | vm_compute; reflexivity].
Qed.

(** C10, amended.  With a positive micro-batch size and a negative
    [start_iter = k] such that [|k| * micro_batch_size <= num_samples],
    iterating raises nothing and yields exactly the last
    [|k| * micro_batch_size] elements of the rank's un-resumed share; this
    is a proper suffix, not the full share, when
    [|k| * micro_batch_size < num_samples]. *)
Theorem negative_start_iter_suffix (G : Generator) (s : LuminaPickleSampler)
    (e k : Z) (share : list Z) :
  0 < micro_batch_size s -> k < 0 ->
  Z.abs k * micro_batch_size s <= num_samples s ->
  LuminaPickleSampler_iter G (set_epoch s e 0) = Ok share ->
  LuminaPickleSampler_iter G (set_epoch s e k)
  = Ok (skipn (length share - Z.to_nat (Z.abs k * micro_batch_size s)) share)
  /\ Py.len (skipn (length share - Z.to_nat (Z.abs k * micro_batch_size s)) share)
     = Z.abs k * micro_batch_size s
  /\ (Z.abs k * micro_batch_size s < num_samples s ->
      LuminaPickleSampler_iter G (set_epoch s e k) <> Ok share).
Proof.
  intros Hm Hk Hle Hshare.
  rewrite iter_start_0 in Hshare.
  pose proof (unresumed_length G _ _ Hshare) as Hlen.
  cbn [num_samples set_epoch] in Hlen.
  assert (Hiter : LuminaPickleSampler_iter G (set_epoch s e k)
                  = Ok (skipn (length share - Z.to_nat (Z.abs k * micro_batch_size s)) share)).
  { rewrite iter_unresumed, unresumed_set_epoch, Hshare. simpl.
    unfold resume. cbn [start_iter set_epoch micro_batch_size].
    destruct (Z.ltb_spec (Py.len share) (k * micro_batch_size s)) as [E|E];
      [unfold Py.len in E; nia|].
    rewrite slice_from_neg by nia.
    do 2 f_equal. f_equal. f_equal. lia. }
  assert (Hsuf : Py.len (skipn (length share - Z.to_nat (Z.abs k * micro_batch_size s)) share)
                 = Z.abs k * micro_batch_size s).
  { unfold Py.len in *. rewrite length_skipn. lia. }
  repeat split; auto.
  intros Hlt Heq. rewrite Hiter in Heq. inversion Heq as [Heq'].
  rewrite Heq' in Hsuf. lia.
Qed.

Lemma negative_start_iter_suffix_witness :
  LuminaPickleSampler_iter lcg (set_epoch (Example.sampler 0) 0 (-2))
  = Ok [6; 29; 3; 28].
Proof.
  refine (proj1 (negative_start_iter_suffix lcg (Example.sampler 0) 0 (-2)
                   [17; 21; 23; 12; 4; 8; 0; 27; 6; 29; 3; 28] _ _ _ _)).
  - simpl; lia.
  - lia.
  - simpl; lia.
  - vm_compute. reflexivity.
Defined.

(** ** Picking positions *)

Lemma pick_cons {A} (i : nat) (p : list nat) (l : list A) :
  pick (i :: p) l
  = match nth_error l i with Some x => [x] | None => [] end ++ pick p l.
Proof. reflexivity. Qed.

Lemma pick_app {A} (p q : list nat) (l : list A) :
  pick (p ++ q) l = pick p l ++ pick q l.
Proof. unfold pick. apply flat_map_app. Qed.

Lemma pick_map {A B} (f : A -> B) (p : list nat) (l : list A) :
  map f (pick p l) = pick p (map f l).
Proof.
  induction p as [|i p IH]; [reflexivity|].
  rewrite !pick_cons, map_app, IH, nth_error_map.
  destruct (nth_error l i); reflexivity.
Qed.

Lemma pick_In {A} (p : list nat) (l : list A) (x : A) :
  In x (pick p l) <-> exists i, In i p /\ nth_error l i = Some x.
Proof.
  unfold pick. rewrite in_flat_map. split.
  - intros (i & Hi & Hx). exists i. split; auto.
    destruct (nth_error l i); simpl in Hx; [|tauto].
    destruct Hx as [->|[]]. reflexivity.
  - intros (i & Hi & Hx). exists i. split; auto. rewrite Hx. now left.
Qed.

Lemma pick_incl {A} (p : list nat) (l : list A) : incl (pick p l) l.
Proof.
  intros x Hx. apply pick_In in Hx. destruct Hx as (i & _ & Hx).
  eapply nth_error_In; eauto.
Qed.

Lemma pick_length {A} (p : list nat) (l : list A) :
  Forall (fun i => (i < length l)%nat) p -> length (pick p l) = length p.
Proof.
  induction 1 as [|i p Hi _ IH]; [reflexivity|].
  rewrite pick_cons, length_app, IH.
  apply nth_error_Some in Hi. destruct (nth_error l i); [reflexivity|congruence].
Qed.

Lemma pick_NoDup {A} (p : list nat) (l : list A) :
  NoDup p -> NoDup l -> NoDup (pick p l).
Proof.
  intros Hp Hl. induction Hp as [|i p Hi Hp IH]; [constructor|].
  rewrite pick_cons. destruct (nth_error l i) as [x|] eqn:E; simpl; auto.
  constructor; auto. intros Hx. apply pick_In in Hx.
  destruct Hx as (j & Hj & Hx).
  assert (i = j); [|subst; contradiction].
  rewrite NoDup_nth_error in Hl. apply Hl; [|congruence].
  apply nth_error_Some. congruence.
Qed.

Lemma pick_seq {A} (l : list A) : pick (seq 0 (length l)) l = l.
Proof.
  induction l as [|x l IH] using rev_ind; [reflexivity|].
  rewrite length_app, Nat.add_comm. cbn [length Nat.add].
  rewrite seq_S, pick_app. cbn [Nat.add].
  rewrite pick_cons, nth_error_app2, Nat.sub_diag by lia. cbn.
  f_equal. etransitivity; [|exact IH].
  unfold pick. rewrite !flat_map_concat_map. f_equal.
  apply map_ext_in. intros i Hi. apply in_seq in Hi.
  rewrite nth_error_app1 by lia. reflexivity.
Qed.

Lemma pick_perm {A} (p : list nat) (l : list A) :
  Permutation p (seq 0 (length l)) -> Permutation (pick p l) l.
Proof.
  intros Hp. rewrite <- (pick_seq l) at 2.
  unfold pick. apply Permutation_flat_map. exact Hp.
Qed.

(** ** The generator operations *)

Section NumpyFacts.
Variable G : Generator.
Hypothesis HG : lawful G.

Lemma rng_shuffle_perm {A} (rng : rng_state G) (l : list A) :
  Permutation (fst (rng_shuffle rng l)) l.
Proof.
  unfold rng_shuffle.
  pose proof (rng_permutation_perm G HG rng (length l)) as Hp.
  destruct (rng_permutation G rng (length l)) as [p rng']. simpl in *.
  now apply pick_perm.
Qed.

Lemma rng_choice_ok {A} (rng : rng_state G) (l : list A) (k : Z) :
  0 <= k <= Py.len l ->
  exists picked rng',
    rng_choice rng l k = Ok (picked, rng') /\
    Py.len picked = k /\ incl picked l /\
    (forall B (f : A -> B), NoDup (map f l) -> NoDup (map f picked)).
Proof.
  intros Hk. unfold rng_choice.
  destruct (Z.ltb_spec k 0) as [E|_]; [lia|].
  destruct (Z.ltb_spec (Py.len l) k) as [E|_]; [lia|]. simpl.
  destruct (rng_sample_distinct G HG rng (length l) (Z.to_nat k)) as (Hlen & Hnd & Hlt).
  { unfold Py.len in Hk. lia. }
  destruct (rng_sample G rng (length l) (Z.to_nat k)) as [p rng']. simpl in *.
  exists (pick p l), rng'. repeat split.
  - unfold Py.len. rewrite pick_length by assumption. lia.
  - apply pick_incl.
  - intros B f Hf. rewrite pick_map. apply pick_NoDup; auto.
Qed.

Lemma rng_choice_raises {A} (rng : rng_state G) (l : list A) (k : Z) :
  k < 0 \/ Py.len l < k -> rng_choice rng l k = Raise ValueError.
Proof.
  intros Hk. unfold rng_choice.
  destruct (Z.ltb_spec k 0); destruct (Z.ltb_spec (Py.len l) k); simpl; auto; lia.
Qed.
End NumpyFacts.

(** ** Ratio subsampling *)

(** [int(x)] is the exact value of the float [x] truncated toward
    zero. *)
Lemma int_of_float_truncates (x : float) (z : Z) :
  Py.int_of_float x = Ok z -> z = Qtrunc (Q_of_float x).
Proof.
  unfold Py.int_of_float, Q_of_float, Qtrunc.
  destruct (Prim2SF x) as [s|s| |s m e]; try discriminate.
  - intros H. injection H as <-. reflexivity.
  - destruct (Z.leb_spec 0 e) as [He|He].
    + assert (Ha : 0 < Z.pos m * 2 ^ e)
        by (apply Z.mul_pos_pos; [lia | apply Z.pow_pos_nonneg; lia]).
      generalize dependent (Z.pos m * 2 ^ e). intros n Hn H.
      injection H as <-.
      destruct s; unfold Qle_bool, Qceiling, Qfloor, Qopp, inject_Z; cbn [Qnum Qden].
      * destruct (Z.leb_spec (0 * 1) (- n * 1)); [lia|].
        rewrite Z.opp_involutive, Z.div_1_r. reflexivity.
      * destruct (Z.leb_spec (0 * 1) (n * 1)); [|lia].
        rewrite Z.div_1_r. reflexivity.
    + assert (Hd : Z.pos (2 ^ Z.to_pos (- e)) = 2 ^ (- e)).
      { rewrite Pos2Z.inj_pow, Z2Pos.id by lia. reflexivity. }
      generalize dependent (2 ^ (- e)). intros k Hk H.
      injection H as <-.
      destruct s; unfold Qle_bool, Qceiling, Qfloor, Qopp; cbn [Qnum Qden].
      * destruct (Z.leb_spec (0 * Z.pos (2 ^ Z.to_pos (- e))) (- Z.pos m * 1)); [lia|].
        rewrite Z.opp_involutive, Hk. reflexivity.
      * destruct (Z.leb_spec (0 * Z.pos (2 ^ Z.to_pos (- e))) (Z.pos m * 1)); [|lia].
        rewrite Hk. reflexivity.
Qed.

Lemma scaled_len_truncates (meta : GroupMeta) (c : Z) :
  scaled_len meta = Ok c ->
  exists f, Py.float_of_int (meta_len meta) = Ok f /\
            c = Qtrunc (Q_of_float (PrimFloat.mul f (ratio_of meta))).
Proof.
  unfold scaled_len. intros H. apply bind_ok in H. destruct H as (f & Hf & H).
  exists f. split; [exact Hf|]. now apply int_of_float_truncates.
Qed.

Lemma fst_combine {A B} (xs : list A) (ys : list B) :
  length xs = length ys -> map fst (combine xs ys) = xs.
Proof.
  revert ys. induction xs as [|x xs IH]; intros [|y ys] H; simpl in *;
    try discriminate; auto.
  f_equal. apply IH. lia.
Qed.

(** C6, as stated, fails: the partition of four samples at ratio 0.4375
    contributes [int(1.75) = 1] pair, not [round(1.75) = 2]. *)
Lemma ratio_count_is_not_rounded :
  exists pairs rng',
    partition_pairs lcg (seed_rng lcg 0) 0 Example.seven_sixteenths = Ok (pairs, rng') /\
    Py.len pairs = 1 /\
    spec_round (exact_product Example.seven_sixteenths) = 2.
Proof.
  eexists. eexists. split; [vm_compute; reflexivity|].
  split; vm_compute; reflexivity.
Qed.

(** C6, amended.  For a partition whose [item_len_list] has [len] entries
    and that starts at global index [start_idx]:
    - with a ratio equal to 1.0 (or none), it contributes all its [len]
      (index, length) pairs, in order, and the generator is not used;
    - with a ratio different from 1.0, it contributes exactly
      [int(len * ratio)] pairs (the float product truncated toward zero,
      whenever that count lies between 0 and [len]), sampled without
      replacement from its own pairs: no index is repeated and every pair
      is one of the partition's own, its index within
      [start_idx, start_idx + len). *)
Theorem ratio_subsampling (G : Generator) (rng : rng_state G) (start_idx : Z)
    (meta : GroupMeta) :
  lawful G ->
  Py.len (meta_item_len_list meta) = meta_len meta ->
  (PrimFloat.eqb (ratio_of meta) 1 = true ->
   partition_pairs G rng start_idx meta
   = Ok (combine (Py.range2 start_idx (start_idx + meta_len meta))
                 (meta_item_len_list meta), rng)
   /\ Py.len (combine (Py.range2 start_idx (start_idx + meta_len meta))
                      (meta_item_len_list meta)) = meta_len meta)
  /\
  (PrimFloat.eqb (ratio_of meta) 1 = false ->
   forall c, scaled_len meta = Ok c -> 0 <= c <= meta_len meta ->
   exists pairs rng',
     partition_pairs G rng start_idx meta = Ok (pairs, rng') /\
     Py.len pairs = c /\
     NoDup (map fst pairs) /\
     incl pairs (combine (Py.range2 start_idx (start_idx + meta_len meta))
                         (meta_item_len_list meta)) /\
     Forall (fun p => start_idx <= fst p < start_idx + meta_len meta) pairs).
Proof.
  intros HG Hlen.
  assert (Hr : Py.len (Py.range2 start_idx (start_idx + meta_len meta))
               = Py.len (meta_item_len_list meta)).
  { unfold Py.len in *. rewrite range2_length. lia. }
  assert (Hfst : map fst (combine (Py.range2 start_idx (start_idx + meta_len meta))
                                  (meta_item_len_list meta))
                 = Py.range2 start_idx (start_idx + meta_len meta)).
  { apply fst_combine. unfold Py.len in Hr. lia. }
  unfold partition_pairs. rewrite Hr, Z.eqb_refl. cbn [py_assert bind].
  split; intros Hratio; rewrite Hratio; cbn [negb].
  - split; [reflexivity|].
    unfold Py.len in *. rewrite length_combine, range2_length. lia.
  - intros c Hc Hbound. rewrite Hc. cbn [bind].
    destruct (rng_choice_ok G HG rng
                (combine (Py.range2 start_idx (start_idx + meta_len meta))
                         (meta_item_len_list meta)) c)
      as (pairs & rng' & Hchoice & Hk & Hincl & Hnd).
    { unfold Py.len in *. rewrite length_combine, range2_length. lia. }
    exists pairs, rng'. repeat split; auto.
    + apply Hnd. rewrite Hfst. apply range2_NoDup.
    + apply Forall_forall. intros p Hp. apply Hincl in Hp.
      apply (in_map fst) in Hp. rewrite Hfst in Hp. now apply range2_In in Hp.
Qed.

Lemma ratio_subsampling_witness :
  exists pairs rng',
    partition_pairs lcg (seed_rng lcg 0) 13 Example.image_a = Ok (pairs, rng') /\
    Py.len pairs = 5.
Proof.
  destruct (ratio_subsampling lcg (seed_rng lcg 0) 13 Example.image_a
              lcg_lawful eq_refl)
    as [_ H].
  destruct (H eq_refl 5 eq_refl) as (pairs & rng' & Hp & Hl & _).
  { simpl; lia. }
  exists pairs, rng'. split; assumption.
Defined.

(** ** Dictionaries *)

Lemma sum_cons (x : Z) (l : list Z) : Py.sum (x :: l) = x + Py.sum l.
Proof.
  unfold Py.sum. cbn [fold_left]. rewrite Z.add_0_l. revert x.
  induction l as [|y l IH]; intros x; cbn [fold_left]; [lia|].
  rewrite (IH (x + y)), (IH (0 + y)). lia.
Qed.

Lemma sum_app (l1 l2 : list Z) : Py.sum (l1 ++ l2) = Py.sum l1 + Py.sum l2.
Proof.
  induction l1 as [|x l1 IH]; [reflexivity|].
  simpl app. rewrite !sum_cons, IH. lia.
Qed.

Lemma dict_get_cons {V} (g k : string) (v : V) (d : dict V) :
  dict_get g ((k, v) :: d) = if String.eqb g k then Some v else dict_get g d.
Proof. unfold dict_get. simpl. destruct (String.eqb g k); reflexivity. Qed.

Lemma dict_get_upd {V} (g k : string) (f : V -> V) (dflt : V) (d : dict V) :
  dict_get g (dict_upd k f dflt d)
  = if String.eqb g k
    then Some (f (match dict_get k d with Some v => v | None => dflt end))
    else dict_get g d.
Proof.
  induction d as [|[k' v] d IH]; simpl.
  - rewrite dict_get_cons. destruct (String.eqb g k); reflexivity.
  - rewrite (dict_get_cons k k').
    destruct (String.eqb_spec k k') as [->|Hk]; rewrite !dict_get_cons.
    + destruct (String.eqb g k'); reflexivity.
    + rewrite IH. destruct (String.eqb_spec g k) as [->|Hg]; auto.
      destruct (String.eqb_spec k k'); [contradiction|reflexivity].
Qed.

Lemma dict_get_None {V} (g : string) (d : dict V) :
  dict_get g d = None <-> ~ In g (keys d).
Proof.
  induction d as [|[k v] d IH]; simpl.
  - unfold dict_get. simpl. tauto.
  - rewrite dict_get_cons. destruct (String.eqb_spec g k) as [->|Hg].
    + split; [discriminate|]. intros H. exfalso. apply H. now left.
    + rewrite IH. split; intros H; [intros [E|E]; [congruence|auto] | tauto].
Qed.

Lemma keys_upd_In {V} (g k : string) (f : V -> V) (dflt : V) (d : dict V) :
  In g (keys (dict_upd k f dflt d)) <-> g = k \/ In g (keys d).
Proof.
  induction d as [|[k' v] d IH]; simpl.
  - intuition.
  - destruct (String.eqb_spec k k') as [->|Hk]; simpl.
    + intuition.
    + rewrite IH. intuition.
Qed.

Lemma keys_upd_NoDup {V} (k : string) (f : V -> V) (dflt : V) (d : dict V) :
  NoDup (keys d) -> NoDup (keys (dict_upd k f dflt d)).
Proof.
  induction d as [|[k' v] d IH]; simpl; intros H.
  - constructor; [simpl; tauto | constructor].
  - destruct (String.eqb_spec k k') as [->|Hk]; simpl; auto.
    inversion H; subst. constructor; auto.
    rewrite keys_upd_In. intros [E|E]; [congruence|contradiction].
Qed.

Lemma map_values_upd {V W} (h : V -> W) (f : V -> V) (f' : W -> W) (dflt : V)
    (k : string) (d : dict V) :
  (forall v, h (f v) = f' (h v)) ->
  map_values h (dict_upd k f dflt d) = dict_upd k f' (h dflt) (map_values h d).
Proof.
  intros Hf. induction d as [|[k' v] d IH]; simpl.
  - rewrite Hf. reflexivity.
  - destruct (String.eqb k k'); simpl; [rewrite Hf | rewrite IH]; reflexivity.
Qed.

Lemma dict_get_map_values {V W} (h : V -> W) (g : string) (d : dict V) :
  dict_get g (map_values h d) = option_map h (dict_get g d).
Proof.
  induction d as [|[k v] d IH]; [reflexivity|].
  simpl. rewrite !dict_get_cons, IH. destruct (String.eqb g k); reflexivity.
Qed.

Lemma keys_map_values {V W} (h : V -> W) (d : dict V) :
  keys (map_values h d) = keys d.
Proof. unfold keys, map_values. rewrite map_map. reflexivity. Qed.

Lemma values_map_values {V W} (h : V -> W) (d : dict V) :
  values (map_values h d) = map h (values d).
Proof. unfold values, map_values. rewrite !map_map. reflexivity. Qed.

(** A loop over the items that never raises is [map_values]. *)
Lemma dict_mapM_total {V W} (f : V -> result W) (h : V -> W) (d : dict V) :
  (forall v, In v (values d) -> f v = Ok (h v)) ->
  dict_mapM f d = Ok (map_values h d).
Proof.
  induction d as [|[k v] d IH]; intros Hf; [reflexivity|].
  simpl. rewrite Hf by (now left). simpl.
  rewrite IH by (intros; apply Hf; now right). reflexivity.
Qed.

Lemma dict_mapM_ok {V W} (f : V -> result W) (d : dict V) (d' : dict W) :
  dict_mapM f d = Ok d' ->
  Forall2 (fun kv kw => fst kv = fst kw /\ f (snd kv) = Ok (snd kw)) d d'.
Proof.
  revert d'. induction d as [|[k v] d IH]; simpl; intros d' H.
  - inversion H. constructor.
  - apply bind_ok in H. destruct H as (w & Hw & H).
    apply bind_ok in H. destruct H as (r & Hr & H).
    inversion H; subst. constructor; auto.
Qed.

(** ** The aggregated group lengths *)

Lemma group_sum_cons (g k : string) (c : Z) (tc : list (string * Z)) :
  group_sum g ((k, c) :: tc)
  = if String.eqb g k then c + group_sum g tc else group_sum g tc.
Proof.
  unfold group_sum. simpl. destruct (String.eqb g k); [|reflexivity].
  simpl. apply sum_cons.
Qed.

Lemma dict_get_tally (g : string) (tc : list (string * Z)) :
  forall d,
    dict_get g (tally tc d)
    = match dict_get g d with
      | Some v => Some (v + group_sum g tc)
      | None => if existsb (String.eqb g) (map fst tc)
                then Some (group_sum g tc) else None
      end.
Proof.
  induction tc as [|[k c] tc IH]; intros d.
  - simpl. destruct (dict_get g d); [|reflexivity]. f_equal.
    unfold group_sum, Py.sum. simpl. lia.
  - change (tally ((k, c) :: tc) d)
      with (tally tc (dict_upd k (fun v => v + c) 0 d)).
    rewrite IH, dict_get_upd, group_sum_cons. simpl.
    destruct (String.eqb_spec g k) as [->|Hg]; simpl.
    + destruct (dict_get k d); f_equal; lia.
    + reflexivity.
Qed.

Lemma keys_tally_In (g : string) (tc : list (string * Z)) :
  forall d, In g (keys (tally tc d)) <-> In g (keys d) \/ In g (map fst tc).
Proof.
  induction tc as [|[k c] tc IH]; intros d.
  - simpl. tauto.
  - change (tally ((k, c) :: tc) d)
      with (tally tc (dict_upd k (fun v => v + c) 0 d)).
    rewrite IH, keys_upd_In. simpl. intuition.
Qed.

Lemma keys_tally_NoDup (tc : list (string * Z)) :
  forall d, NoDup (keys d) -> NoDup (keys (tally tc d)).
Proof.
  induction tc as [|[k c] tc IH]; intros d Hd; [exact Hd|].
  change (tally ((k, c) :: tc) d)
    with (tally tc (dict_upd k (fun v => v + c) 0 d)).
  apply IH. now apply keys_upd_NoDup.
Qed.

Lemma count_groups_tally (metas : list GroupMeta) (counts : list Z) :
  Forall2 (fun meta c => scaled_len meta = Ok c) metas counts ->
  forall d, count_groups metas d = Ok (tally (combine (map meta_type metas) counts) d).
Proof.
  induction 1 as [|meta c metas counts Hc _ IH]; intros d; [reflexivity|].
  simpl. rewrite Hc. simpl. apply IH.
Qed.

Lemma count_groups_ok (metas : list GroupMeta) :
  forall d d', count_groups metas d = Ok d' ->
    exists counts, Forall2 (fun meta c => scaled_len meta = Ok c) metas counts.
Proof.
  induction metas as [|meta metas IH]; intros d d' H.
  - exists []. constructor.
  - simpl in H. apply bind_ok in H. destruct H as (c & Hc & H).
    destruct (IH _ _ H) as (counts & Hcounts).
    exists (c :: counts). constructor; assumption.
Qed.

Lemma align_groups_ok (A : Z) (d d' : dict Z) :
  align_groups A d = Ok d' -> d' = map_values (fun v => v / A * A) d.
Proof.
  unfold align_groups. revert d'.
  induction d as [|[k v] d IH]; simpl; intros d' H.
  - now inversion H.
  - apply bind_ok in H. destruct H as (w & Hw & H).
    apply bind_ok in H. destruct H as (r & Hr & H).
    inversion H; subst. rewrite (IH r Hr).
    unfold Py.floordiv in Hw. destruct (A =? 0); [discriminate|].
    simpl in Hw. inversion Hw. reflexivity.
Qed.

Lemma align_groups_nonzero (A : Z) (d : dict Z) :
  A <> 0 -> align_groups A d = Ok (map_values (fun v => v / A * A) d).
Proof.
  intros HA. apply dict_mapM_total. intros v _.
  unfold Py.floordiv. destruct (Z.eqb_spec A 0); [contradiction|reflexivity].
Qed.

Lemma init_ok (gpc : ParallelContext) (ds : Dataset) (mbs acc : option Z)
    (sh : bool) (sd : Z) (lc mixed : bool) (s : LuminaPickleSampler) :
  LuminaPickleSampler_init gpc ds mbs acc sh sd lc mixed = Ok s ->
  exists m a group_len,
    mbs = Some m /\ acc = Some a /\
    aligned_group_len (world_size gpc) (meta_list ds) m a = Ok group_len /\
    world_size gpc <> 0 /\
    Py.sum (values group_len) mod world_size gpc = 0 /\
    s = {| dataset := ds; num_replicas := world_size gpc; rank := local_rank gpc;
           shuffle := sh; seed := sd; micro_batch_size := m; acc_grad := a;
           length_clustering := lc; allow_mixed_task_among_acc := mixed;
           epoch := 0; start_iter := 0;
           total_size := Py.sum (values group_len);
           num_samples := Py.sum (values group_len) / world_size gpc |}.
Proof.
  unfold LuminaPickleSampler_init. intros H.
  destruct mbs as [m|]; [|discriminate]. destruct acc as [a|]; [|discriminate].
  apply bind_ok in H. destruct H as (gl & Hgl & H).
  unfold Py.modulo, Py.floordiv in H.
  destruct (Z.eqb_spec (world_size gpc) 0) as [|Hw]; [discriminate|].
  cbn [bind] in H. apply bind_ok in H. destruct H as (u & Ha & H).
  apply py_assert_ok in Ha. apply Z.eqb_eq in Ha.
  inversion H. exists m, a, gl. repeat split; auto.
Qed.

(** C5, as stated, fails: two partitions of one group with three samples
    each at ratio 0.5 give [int(1.5) + int(1.5) = 2] in the code, while the
    exact products sum to 3. *)
Lemma group_len_truncates_each_product :
  aligned_group_len 1 (meta_list Example.halves) 1 1 = Ok [("text"%string, 2)] /\
  spec_group_len (meta_list Example.halves) (1 * 1 * 1) "text" = 3.
Proof. split; vm_compute; reflexivity. Qed.

(** C5, amended.  After construction, with
    [A = micro_batch_size * world_size * acc_grad] and [c_i] the value of
    [int(len_i * ratio_i)] for partition [i] (each product truncated toward
    zero on its own, before any summing): the labels of [group_len] are
    the labels of the partitions, each once; for every label [g],
    [group_len[g] = floor((sum of c_i for the partitions i in g) / A) * A];
    and [total_size] is the sum of these per-group values. *)
Theorem group_len_aligned (gpc : ParallelContext) (ds : Dataset) (mbs acc : Z)
    (sh : bool) (sd : Z) (lc mixed : bool) (s : LuminaPickleSampler) :
  LuminaPickleSampler_init gpc ds (Some mbs) (Some acc) sh sd lc mixed = Ok s ->
  exists counts group_len,
    Forall2 (fun meta c => scaled_len meta = Ok c) (meta_list ds) counts /\
    aligned_group_len (world_size gpc) (meta_list ds) mbs acc = Ok group_len /\
    NoDup (keys group_len) /\
    (forall g, In g (keys group_len) <-> In g (map meta_type (meta_list ds))) /\
    (forall g, In g (keys group_len) ->
       dict_get g group_len
       = Some (group_sum g (combine (map meta_type (meta_list ds)) counts)
               / (mbs * world_size gpc * acc) * (mbs * world_size gpc * acc))) /\
    total_size s = Py.sum (values group_len).
Proof.
  intros H. apply init_ok in H.
  destruct H as (m & a & gl & Hm & Ha & Hgl & _ & _ & Hs).
  inversion Hm; inversion Ha; subst m a. clear Hm Ha.
  pose proof Hgl as Hgl'. unfold aligned_group_len in Hgl'.
  apply bind_ok in Hgl'. destruct Hgl' as (cg & Hcg & Hal).
  destruct (count_groups_ok _ _ _ Hcg) as (counts & Hcounts).
  rewrite (count_groups_tally _ _ Hcounts) in Hcg. inversion Hcg as [Hcg'].
  apply align_groups_ok in Hal.
  assert (Hlen : length (map meta_type (meta_list ds)) = length counts).
  { rewrite length_map. eapply Forall2_length; eauto. }
  assert (Hkeys : forall g, In g (keys gl) <-> In g (map meta_type (meta_list ds))).
  { intros g. rewrite Hal, keys_map_values, <- Hcg', keys_tally_In.
    rewrite fst_combine by assumption. simpl. tauto. }
  exists counts, gl. repeat split; auto; try apply Hkeys.
  - rewrite Hal, keys_map_values, <- Hcg'. apply keys_tally_NoDup. constructor.
  - intros g Hg. apply Hkeys in Hg.
    rewrite Hal, dict_get_map_values, <- Hcg', dict_get_tally.
    rewrite fst_combine by assumption.
    replace (dict_get g []) with (@None Z) by reflexivity.
    destruct (existsb (String.eqb g) (map meta_type (meta_list ds))) eqn:E.
    + reflexivity.
    + exfalso. assert (Hex : existsb (String.eqb g) (map meta_type (meta_list ds)) = true).
      { apply existsb_exists. exists g. split; auto. apply String.eqb_refl. }
      congruence.
  - rewrite Hs. reflexivity.
Qed.

Lemma group_len_aligned_witness :
  exists counts group_len,
    Forall2 (fun meta c => scaled_len meta = Ok c) (meta_list Example.ds) counts /\
    aligned_group_len 2 (meta_list Example.ds) 2 1 = Ok group_len /\
    total_size (Example.sampler 0) = Py.sum (values group_len).
Proof.
  destruct (group_len_aligned (Example.gpc 0) Example.ds 2 1 true 0 true false
              (Example.sampler 0) eq_refl)
    as (counts & gl & Hc & Hgl & _ & _ & _ & Ht).
  exists counts, gl. repeat split; assumption.
Defined.

(** ** Runs of consecutive elements *)

Lemma firstn_plus {A} (a b : nat) (l : list A) :
  firstn (a + b) l = firstn a l ++ firstn b (skipn a l).
Proof.
  revert l. induction a as [|a IH]; intros l; [reflexivity|].
  destruct l as [|x l]; simpl.
  - now rewrite firstn_nil.
  - now rewrite IH.
Qed.

Lemma sub_app {A} (l : list A) (a n m : nat) :
  sub l a n ++ sub l (a + n) m = sub l a (n + m).
Proof.
  unfold sub. rewrite firstn_plus, skipn_skipn.
  now rewrite (Nat.add_comm n a).
Qed.

Lemma sub_length {A} (l : list A) (a n : nat) :
  (a + n <= length l)%nat -> length (sub l a n) = n.
Proof. intros H. unfold sub. rewrite length_firstn, length_skipn. lia. Qed.

Lemma sub_incl {A} (l : list A) (a n : nat) : incl (sub l a n) l.
Proof.
  intros x Hx. unfold sub in Hx.
  rewrite <- (firstn_skipn a l). apply in_or_app. right.
  rewrite <- (firstn_skipn n (skipn a l)). apply in_or_app. now left.
Qed.

Lemma sub_nested {A} (l : list A) (a n b m : nat) :
  (b + m <= n)%nat -> sub (sub l a n) b m = sub l (a + b) m.
Proof.
  intros H. unfold sub.
  rewrite skipn_firstn_comm, firstn_firstn, skipn_skipn.
  rewrite Nat.min_l by lia. now rewrite (Nat.add_comm b a).
Qed.

Lemma sub_all {A} (l : list A) (n : nat) : (length l <= n)%nat -> sub l 0 n = l.
Proof. intros H. unfold sub. simpl. now apply firstn_all2. Qed.

Lemma chunks_length {A} (n c : nat) (l : list A) : length (chunks n c l) = c.
Proof. unfold chunks. now rewrite length_map, length_seq. Qed.

Lemma chunks_S {A} (n c : nat) (l : list A) :
  chunks n (S c) l = chunks n c l ++ [sub l (c * n) n].
Proof. unfold chunks. now rewrite seq_S, map_app. Qed.

Lemma concat_chunks {A} (n c : nat) (l : list A) :
  concat (chunks n c l) = firstn (c * n) l.
Proof.
  induction c as [|c IH]; [reflexivity|].
  rewrite chunks_S, concat_app, IH. cbn [concat]. rewrite app_nil_r.
  replace (S c * n)%nat with (c * n + n)%nat by lia.
  rewrite firstn_plus. reflexivity.
Qed.

Lemma concat_chunks_all {A} (n c : nat) (l : list A) :
  (length l <= c * n)%nat -> concat (chunks n c l) = l.
Proof. intros H. rewrite concat_chunks. now apply firstn_all2. Qed.

Lemma chunks_exact {A} (n c : nat) (l : list A) :
  length l = (c * n)%nat -> Forall (fun b => length b = n) (chunks n c l).
Proof.
  intros H. unfold chunks. apply Forall_map, Forall_forall.
  intros i Hi. apply in_seq in Hi. apply sub_length. nia.
Qed.

Lemma chunks_incl {A} (n c : nat) (l : list A) :
  Forall (fun b => incl b l) (chunks n c l).
Proof.
  unfold chunks. apply Forall_map, Forall_forall. intros i _. apply sub_incl.
Qed.

(** Slices with bounds inside the natural numbers. *)
Lemma slice_sub {A} (l : list A) (a n : Z) :
  0 <= a -> 0 <= n ->
  Py.slice l (Some a) (Some (a + n)) = sub l (Z.to_nat a) (Z.to_nat n).
Proof.
  intros Ha Hn. unfold Py.slice, Py.clamp, sub, Py.len.
  destruct (Z.ltb_spec a 0); [lia|]. destruct (Z.ltb_spec (a + n) 0); [lia|].
  destruct (Z.le_gt_cases a (Z.of_nat (length l))) as [Hle|Hgt].
  - rewrite (Z.min_l a) by lia.
    destruct (Z.le_gt_cases (a + n) (Z.of_nat (length l))) as [Hle'|Hgt'].
    + rewrite Z.min_l by lia. f_equal. lia.
    + rewrite Z.min_r by lia.
      rewrite !firstn_all2; auto; rewrite length_skipn; lia.
  - rewrite (Z.min_r a) by lia. rewrite Nat2Z.id.
    rewrite !skipn_all2 by lia. now rewrite !firstn_nil.
Qed.

Lemma slice_to {A} (l : list A) (b : Z) :
  0 <= b -> Py.slice l None (Some b) = firstn (Z.to_nat b) l.
Proof.
  intros Hb. unfold Py.slice, Py.clamp, Py.len.
  destruct (Z.ltb_spec b 0); [lia|]. cbn [skipn Z.to_nat]. rewrite Z.sub_0_r.
  destruct (Z.le_gt_cases b (Z.of_nat (length l))) as [Hle|Hgt].
  - now rewrite Z.min_l by lia.
  - rewrite Z.min_r by lia. rewrite Nat2Z.id.
    rewrite !firstn_all2; auto; lia.
Qed.

Lemma batched_chunks {A} (l : list A) (n : Z) :
  0 < n ->
  batched l n
  = Ok (chunks (Z.to_nat n) (Z.to_nat ((Py.len l + n - 1) / n)) l).
Proof.
  intros Hn. unfold batched, Py.range3.
  destruct (Z.eqb_spec n 0); [lia|]. cbn [bind].
  rewrite range_list_0 by (unfold Py.len; lia).
  unfold chunks. rewrite map_map. f_equal. apply map_ext. intros i.
  rewrite slice_sub by lia. f_equal. nia.
Qed.

Lemma batched_exact {A} (l : list A) (n : Z) (c : nat) :
  0 < n -> length l = (c * Z.to_nat n)%nat ->
  batched l n = Ok (chunks (Z.to_nat n) c l).
Proof.
  intros Hn Hl. rewrite batched_chunks by assumption. do 2 f_equal.
  unfold Py.len. rewrite Hl.
  replace (Z.of_nat (c * Z.to_nat n) + n - 1) with (n - 1 + Z.of_nat c * n) by nia.
  rewrite Z.div_add, Z.div_small by lia. lia.
Qed.

(** ** Concatenations and permutations *)

Lemma concat_map_nil {A B} (ys : list B) :
  concat (map (fun _ => @nil A) ys) = [].
Proof. induction ys; simpl; auto. Qed.

Lemma concat_map_app_perm {A B} (g h : B -> list A) (ys : list B) :
  Permutation (concat (map (fun y => g y ++ h y) ys))
              (concat (map g ys) ++ concat (map h ys)).
Proof.
  induction ys as [|y ys IH]; simpl; [constructor|].
  rewrite IH, <- !app_assoc. apply Permutation_app_head.
  rewrite !app_assoc. apply Permutation_app_tail, Permutation_app_comm.
Qed.

Lemma concat_transpose {A X Y} (f : X -> Y -> list A) (xs : list X) (ys : list Y) :
  Permutation (concat (map (fun x => concat (map (f x) ys)) xs))
              (concat (map (fun y => concat (map (fun x => f x y) xs)) ys)).
Proof.
  induction xs as [|x xs IH]; simpl.
  - now rewrite concat_map_nil.
  - rewrite (concat_map_app_perm (f x)). now apply Permutation_app_head.
Qed.

Lemma Permutation_concat {A} (ls ls' : list (list A)) :
  Permutation ls ls' -> Permutation (concat ls) (concat ls').
Proof.
  intros H. induction H; simpl; auto.
  - now apply Permutation_app_head.
  - rewrite !app_assoc. apply Permutation_app_tail, Permutation_app_comm.
  - etransitivity; eauto.
Qed.

Lemma Forall2_Permutation_concat {A} (ls ls' : list (list A)) :
  Forall2 (@Permutation A) ls ls' -> Permutation (concat ls) (concat ls').
Proof.
  induction 1; simpl; auto. now apply Permutation_app.
Qed.

Lemma fold_left_app_concat {A B} (f : B -> list A) (xs : list B) (init : list A) :
  fold_left (fun own x => own ++ f x) xs init = init ++ concat (map f xs).
Proof.
  revert init. induction xs as [|x xs IH]; intros init; simpl.
  - now rewrite app_nil_r.
  - now rewrite IH, app_assoc.
Qed.

Lemma len_app {A} (l1 l2 : list A) : Py.len (l1 ++ l2) = Py.len l1 + Py.len l2.
Proof. unfold Py.len. rewrite length_app. lia. Qed.

Lemma len_concat {A} (ls : list (list A)) :
  Py.len (concat ls) = Py.sum (map Py.len ls).
Proof.
  induction ls as [|l ls IH]; [reflexivity|].
  simpl. now rewrite len_app, sum_cons, IH.
Qed.

Lemma concat_length_exact {A} (n : nat) (ls : list (list A)) :
  Forall (fun b => length b = n) ls -> length (concat ls) = (length ls * n)%nat.
Proof.
  induction 1 as [|b ls Hb _ IH]; [reflexivity|].
  simpl. rewrite length_app, IH, Hb. lia.
Qed.

(** The [u]-th of equally long lists is a run of their concatenation. *)
Lemma sub_concat {A} (n : nat) (ls : list (list A)) (u : nat) :
  Forall (fun b => length b = n) ls -> (u < length ls)%nat ->
  sub (concat ls) (u * n) n = nth u ls [].
Proof.
  intros H. revert u. induction H as [|b ls Hb _ IH]; intros u Hu; simpl in Hu; [lia|].
  destruct u as [|u]; simpl.
  - unfold sub. simpl. rewrite firstn_app, Hb, Nat.sub_diag, firstn_O, app_nil_r.
    apply firstn_all2. lia.
  - rewrite <- IH by lia. unfold sub. f_equal.
    rewrite skipn_app, Hb, skipn_all2 by lia. simpl. f_equal. lia.
Qed.

(** ** The share of a rank *)

Lemma range_list_from (start stop step : Z) (B : nat) :
  0 < step -> 0 <= start < step -> stop = Z.of_nat B * step ->
  Py.range_list start stop step
  = map (fun j => start + Z.of_nat j * step) (seq 0 B).
Proof.
  intros Hstep Hstart Hstop. unfold Py.range_list. do 2 f_equal.
  unfold Py.range_len.
  destruct (Z.ltb_spec 0 step); [|lia].
  destruct (Z.ltb_spec start stop) as [Hlt|Hge].
  - assert (HB : (1 <= B)%nat) by nia.
    replace (stop - start - 1) with (step - start - 1 + (Z.of_nat B - 1) * step) by nia.
    rewrite Z.div_add, Z.div_small by lia. lia.
  - assert (B = 0%nat) by nia. subst. reflexivity.
Qed.

Section Ranks.
Variables (mbs ws : Z).
Hypothesis Hmbs : 0 < mbs.
Hypothesis Hws : 0 < ws.

Lemma own_indices_rows (s : LuminaPickleSampler) (indices : list Z) (B : nat) :
  micro_batch_size s = mbs -> num_replicas s = ws -> 0 <= rank s < ws ->
  length indices = (B * Z.to_nat (ws * mbs))%nat ->
  own_indices s indices
  = Ok (concat (map (fun j => piece mbs ws indices j (Z.to_nat (rank s))) (seq 0 B))).
Proof.
  intros Hm Hw Hr Hlen. unfold own_indices, Py.range3. rewrite Hm, Hw.
  destruct (Z.eqb_spec (ws * mbs) 0); [nia|]. cbn [bind].
  rewrite (range_list_from _ _ _ B); [| nia | nia | unfold Py.len; rewrite Hlen; nia].
  rewrite fold_left_app_concat. cbn [app]. rewrite map_map. do 2 f_equal.
  apply map_ext. intros j. rewrite slice_sub by nia.
  unfold piece. f_equal. nia.
Qed.

Lemma piece_length (indices : list Z) (B j r : nat) :
  length indices = (B * Z.to_nat (ws * mbs))%nat ->
  (j < B)%nat -> (Z.of_nat r < ws) ->
  length (piece mbs ws indices j r) = Z.to_nat mbs.
Proof.
  intros Hlen Hj Hr. apply sub_length. rewrite Hlen.
  assert (Z.to_nat (ws * mbs) = (Z.to_nat ws * Z.to_nat mbs)%nat) as -> by nia.
  assert (r < Z.to_nat ws)%nat by lia. nia.
Qed.

(** A global batch is the pieces of all the ranks, in rank order. *)
Lemma global_batch_pieces (indices : list Z) (j : nat) :
  sub indices (j * Z.to_nat (ws * mbs)) (Z.to_nat (ws * mbs))
  = concat (map (piece mbs ws indices j) (seq 0 (Z.to_nat ws))).
Proof.
  assert (Hgen : forall w,
             sub indices (j * Z.to_nat (ws * mbs)) (w * Z.to_nat mbs)
             = concat (map (piece mbs ws indices j) (seq 0 w))).
  { induction w as [|w IH].
    - unfold sub. reflexivity.
    - rewrite seq_S, map_app, concat_app, <- IH. cbn [map concat Nat.add].
      rewrite app_nil_r. unfold piece. rewrite sub_app. f_equal. lia. }
  rewrite <- Hgen. f_equal. nia.
Qed.

(** The shares of all the ranks are a rearrangement of the global
    sequence. *)
Lemma shares_permutation (indices : list Z) (B : nat) :
  length indices = (B * Z.to_nat (ws * mbs))%nat ->
  Permutation
    (concat (map (fun r => concat (map (fun j => piece mbs ws indices j r) (seq 0 B)))
                 (seq 0 (Z.to_nat ws))))
    indices.
Proof.
  intros Hlen.
  rewrite <- (concat_transpose (piece mbs ws indices)).
  transitivity (concat (chunks (Z.to_nat (ws * mbs)) B indices)).
  - unfold chunks. apply Permutation_concat.
    erewrite map_ext; [reflexivity|]. intros j. cbn beta.
    symmetry. apply global_batch_pieces.
  - rewrite concat_chunks_all by lia. reflexivity.
Qed.
End Ranks.

(** ** Gathering the groups (lines 107-122) *)

Lemma valid_meta_inv (meta : GroupMeta) :
  valid_meta meta = true ->
  Py.len (meta_item_len_list meta) = meta_len meta /\
  exists c, scaled_len meta = Ok c /\
            (PrimFloat.eqb (ratio_of meta) 1 = true -> c = meta_len meta) /\
            (PrimFloat.eqb (ratio_of meta) 1 = false -> 0 <= c <= meta_len meta).
Proof.
  unfold valid_meta. intros H. apply andb_true_iff in H. destruct H as [Hl H].
  apply Z.eqb_eq in Hl. split; [exact Hl|].
  destruct (scaled_len meta) as [c|]; [|discriminate].
  exists c. split; [reflexivity|].
  destruct (PrimFloat.eqb (ratio_of meta) 1).
  - apply Z.eqb_eq in H. split; [auto|discriminate].
  - apply andb_true_iff in H. destruct H as [H1 H2].
    apply Z.leb_le in H1, H2. split; [discriminate|auto].
Qed.

Lemma values_upd_app_perm {A} (k : string) (ps : list A) (d : dict (list A)) :
  Permutation (concat (values (dict_upd k (fun v => v ++ ps) [] d)))
              (concat (values d) ++ ps).
Proof.
  induction d as [|[k' v] d IH]; simpl.
  - now rewrite app_nil_r.
  - destruct (String.eqb k k'); simpl.
    + rewrite <- !app_assoc. apply Permutation_app_head, Permutation_app_comm.
    + rewrite IH. now rewrite app_assoc.
Qed.

Lemma Forall_dict_upd {V} (P : string -> V -> Prop) (k : string) (f : V -> V)
    (dflt : V) (d : dict V) :
  Forall (fun kv => P (fst kv) (snd kv)) d ->
  (forall v, P k v -> P k (f v)) -> P k (f dflt) ->
  Forall (fun kv => P (fst kv) (snd kv)) (dict_upd k f dflt d).
Proof.
  intros Hd Hf Hdflt. induction Hd as [|[k' v] d Hkv Hd IH]; simpl.
  - constructor; auto.
  - destruct (String.eqb_spec k k') as [<-|Hk]; constructor; auto.
    simpl in *. auto.
Qed.

Section Gather.
Variable G : Generator.
Hypothesis HG : lawful G.
Variable label : Z -> option string.

Lemma partition_pairs_valid (rng : rng_state G) (start_idx : Z) (meta : GroupMeta) :
  valid_meta meta = true ->
  exists c pairs rng',
    scaled_len meta = Ok c /\
    partition_pairs G rng start_idx meta = Ok (pairs, rng') /\
    Py.len pairs = c /\ 0 <= meta_len meta /\
    NoDup (map fst pairs) /\
    Forall (fun p => start_idx <= fst p < start_idx + meta_len meta) pairs.
Proof.
  intros Hv. apply valid_meta_inv in Hv.
  destruct Hv as (Hlen & c & Hc & Hone & Hother).
  set (indices := Py.range2 start_idx (start_idx + meta_len meta)).
  assert (Hr : Py.len indices = Py.len (meta_item_len_list meta)).
  { unfold Py.len in *. unfold indices. rewrite range2_length. lia. }
  assert (Hfst : map fst (combine indices (meta_item_len_list meta)) = indices).
  { apply fst_combine. unfold Py.len in Hr. lia. }
  assert (Hall : Py.len (combine indices (meta_item_len_list meta)) = meta_len meta).
  { unfold Py.len in *. rewrite length_combine. lia. }
  assert (Hin : forall p, In p (combine indices (meta_item_len_list meta)) ->
                          start_idx <= fst p < start_idx + meta_len meta).
  { intros p Hp. apply (in_map fst) in Hp. rewrite Hfst in Hp.
    now apply range2_In in Hp. }
  assert (Hpos : 0 <= meta_len meta) by (unfold Py.len in Hlen; lia).
  exists c. unfold partition_pairs. fold indices. rewrite Hr, Z.eqb_refl.
  cbn [py_assert bind].
  destruct (PrimFloat.eqb (ratio_of meta) 1) eqn:E; cbn [negb].
  - exists (combine indices (meta_item_len_list meta)), rng.
    pose proof (Hone eq_refl) as Hcl. subst c.
    split; [exact Hc|]. split; [reflexivity|]. split; [exact Hall|].
    split; [exact Hpos|]. split.
    + rewrite Hfst. apply range2_NoDup.
    + apply Forall_forall. exact Hin.
  - rewrite Hc. cbn [bind].
    destruct (rng_choice_ok G HG rng (combine indices (meta_item_len_list meta)) c)
      as (pairs & rng' & Hchoice & Hk & Hincl & Hnd).
    { rewrite Hall. now apply Hother. }
    exists pairs, rng'.
    split; [reflexivity|]. split; [exact Hchoice|]. split; [exact Hk|].
    split; [exact Hpos|]. split.
    + apply Hnd. rewrite Hfst. apply range2_NoDup.
    + apply Forall_forall. intros p Hp. now apply Hin, Hincl.
Qed.

Lemma gathered_step (start_idx : Z) (meta : GroupMeta) (pairs : list (Z * Z))
    (groups : dict (list (Z * Z))) :
  gathered label start_idx groups ->
  0 <= meta_len meta ->
  NoDup (map fst pairs) ->
  Forall (fun p => start_idx <= fst p < start_idx + meta_len meta) pairs ->
  (forall i, start_idx <= i < start_idx + meta_len meta -> label i = Some (meta_type meta)) ->
  gathered label (start_idx + meta_len meta)
           (dict_upd (meta_type meta) (fun v => v ++ pairs) [] groups).
Proof.
  intros (Hnd & Hlt & Hlab) Hpos Hndp Hrange Hlabel.
  pose proof (values_upd_app_perm (meta_type meta) pairs groups) as Hperm.
  rewrite Forall_forall in Hlt, Hrange.
  repeat split.
  - apply (Permutation_NoDup (Permutation_map fst (Permutation_sym Hperm))).
    rewrite map_app. apply NoDup_app; auto.
    intros i Hi Hi'. apply in_map_iff in Hi, Hi'.
    destruct Hi as (p & <- & Hp). destruct Hi' as (p' & Heq & Hp').
    apply Hlt in Hp. apply Hrange in Hp'. lia.
  - apply (Permutation_Forall (Permutation_sym Hperm)).
    apply Forall_app. split; apply Forall_forall; intros p Hp.
    + apply Hlt in Hp. lia.
    + apply Hrange in Hp. lia.
  - apply (Forall_dict_upd
             (fun k v => Forall (fun p => label (fst p) = Some k) v)); auto.
    + intros v Hv. apply Forall_app. split; auto.
      apply Forall_forall. intros p Hp. apply Hlabel. now apply Hrange.
    + apply Forall_forall. intros p Hp. apply Hlabel. now apply Hrange.
Qed.

Lemma gather_groups_spec (metas : list GroupMeta) :
  forall start_idx rng groups,
    forallb valid_meta metas = true ->
    (forall i, start_idx <= i -> type_of_index metas start_idx i = label i) ->
    gathered label start_idx groups ->
    exists groups' rng' group_len' stop,
      gather_groups G metas start_idx rng groups = Ok (groups', rng') /\
      count_groups metas (map_values Py.len groups) = Ok group_len' /\
      map_values Py.len groups' = group_len' /\
      gathered label stop groups'.
Proof.
  induction metas as [|meta metas IH]; intros start_idx rng groups Hv Hlabel Hg.
  - exists groups, rng, (map_values Py.len groups), start_idx.
    split; [|split; [|split]]; auto.
  - cbn [forallb] in Hv. apply andb_true_iff in Hv. destruct Hv as [Hv Hvs].
    destruct (partition_pairs_valid rng start_idx meta Hv)
      as (c & pairs & rng1 & Hc & Hp & Hlen & Hpos & Hnd & Hrange).
    assert (Hstep : gathered label (start_idx + meta_len meta)
                      (dict_upd (meta_type meta) (fun v => v ++ pairs) [] groups)).
    { apply gathered_step; auto. intros i Hi. rewrite <- Hlabel by lia.
      cbn [type_of_index].
      destruct (Z.leb_spec start_idx i); [|lia].
      destruct (Z.ltb_spec i (start_idx + meta_len meta)); [reflexivity|lia]. }
    assert (Hrest : forall i, start_idx + meta_len meta <= i ->
                      type_of_index metas (start_idx + meta_len meta) i = label i).
    { intros i Hi. rewrite <- Hlabel by lia. cbn [type_of_index].
      destruct (Z.ltb_spec i (start_idx + meta_len meta)); [lia|].
      now rewrite andb_false_r. }
    destruct (IH (start_idx + meta_len meta) rng1 _ Hvs Hrest Hstep)
      as (groups' & rng' & gl' & stop & Hgather & Hcount & Hmap & Hfinal).
    exists groups', rng', gl', stop. split; [|split; [|split]]; auto.
    + cbn [gather_groups]. rewrite Hp. cbn [bind]. exact Hgather.
    + cbn [count_groups]. rewrite Hc. cbn [bind].
      rewrite <- Hcount. f_equal.
      rewrite (map_values_upd Py.len _ (fun v => v + c)).
      * reflexivity.
      * intros v. rewrite len_app. lia.
Qed.
End Gather.

(** ** Truncating and ordering the groups (lines 124-151) *)

Lemma sort_by_len_perm (l : list (Z * Z)) : Permutation (sort_by_len l) l.
Proof.
  assert (Hins : forall x l, Permutation (insert_by_len x l) (x :: l)).
  { intros x l0. induction l0 as [|y l0 IH]; simpl; auto.
    destruct (snd x <=? snd y); auto.
    rewrite IH. apply perm_swap. }
  induction l as [|x l IH]; simpl; auto.
  now rewrite Hins, IH.
Qed.

Lemma range3_slices {A} (l : list A) (n : Z) :
  0 < n ->
  exists positions,
    Py.range3 0 (Py.len l) n = Ok positions /\
    concat (map (fun pos => Py.slice l (Some pos) (Some (pos + n))) positions) = l.
Proof.
  intros Hn. pose proof (batched_chunks l n Hn) as Hb.
  unfold batched, Py.range3 in *.
  destruct (Z.eqb_spec n 0); [lia|]. cbn [bind] in Hb.
  eexists. split; [reflexivity|].
  inversion Hb as [Hb']. rewrite Hb'. apply concat_chunks_all.
  pose proof (ceil_div_bounds (Py.len l) n Hn) as Hc.
  unfold Py.len in *. nia.
Qed.

Lemma truncated_firstn (A : Z) (l : list (Z * Z)) :
  0 < A -> truncated A l = firstn (Z.to_nat (Py.len l / A * A)) l.
Proof.
  intros HA. unfold truncated. apply slice_to.
  assert (0 <= Py.len l / A) by (apply Z.div_pos; unfold Py.len; lia). nia.
Qed.

Lemma truncated_len (A : Z) (l : list (Z * Z)) :
  0 < A -> Py.len (truncated A l) = Py.len l / A * A.
Proof.
  intros HA. rewrite truncated_firstn by assumption.
  pose proof (Z.mul_div_le (Py.len l) A HA).
  assert (0 <= Py.len l / A) by (apply Z.div_pos; unfold Py.len; lia).
  unfold Py.len in *. rewrite length_firstn. nia.
Qed.

Lemma truncate_groups_ok (A : Z) (groups : dict (list (Z * Z))) :
  A <> 0 -> truncate_groups A groups = Ok (map_values (truncated A) groups).
Proof.
  intros HA. apply dict_mapM_total. intros v _.
  unfold Py.floordiv. destruct (Z.eqb_spec A 0); [contradiction|reflexivity].
Qed.

Section Order.
Variable G : Generator.
Hypothesis HG : lawful G.
Variable label : Z -> option string.

Lemma shuffle_blocks_perm (indices : list Z) (block : Z) (positions : list Z) :
  forall rng result,
    Permutation
      (fst (shuffle_blocks G rng indices block positions result))
      (result ++ concat (map (fun pos => Py.slice indices (Some pos) (Some (pos + block)))
                             positions)).
Proof.
  induction positions as [|pos positions IH]; intros rng result; simpl.
  - now rewrite app_nil_r.
  - pose proof (rng_shuffle_perm G HG rng
                  (Py.slice indices (Some pos) (Some (pos + block)))) as Hs.
    destruct (rng_shuffle rng (Py.slice indices (Some pos) (Some (pos + block))))
      as [sublist rng1]. simpl in Hs.
    rewrite IH, Hs, app_assoc. reflexivity.
Qed.

Lemma order_groups_spec (s : LuminaPickleSampler) (groups : dict (list (Z * Z))) :
  0 < micro_batch_size s * num_replicas s ->
  forall rng, exists group_indices rng',
    order_groups G s rng groups = Ok (group_indices, rng') /\
    reordered groups group_indices.
Proof.
  intros Hgbs. unfold order_groups, reordered.
  destruct (length_clustering s).
  - induction groups as [|[k v] groups IH]; intros rng; cbn [map dict_mapM_st].
    + exists [], rng. split; [reflexivity|constructor].
    + cbn [fst snd].
      destruct (range3_slices (map fst (sort_by_len v))
                  (micro_batch_size s * num_replicas s * 500))
        as (positions & Hpos & Hcat); [lia|].
      rewrite Hpos. cbn [bind].
      pose proof (shuffle_blocks_perm (map fst (sort_by_len v))
                    (micro_batch_size s * num_replicas s * 500) positions rng [])
        as Hperm.
      destruct (shuffle_blocks G rng _ _ positions []) as [w rng1].
      cbn [fst app] in Hperm. rewrite Hcat in Hperm.
      destruct (IH rng1) as (og & rng' & Hog & Hall).
      rewrite Hog. cbn [bind]. exists ((k, w) :: og), rng'.
      split; [reflexivity|]. constructor; auto. cbn [fst snd]. split; auto.
      rewrite Hperm. apply Permutation_map, sort_by_len_perm.
  - induction groups as [|[k v] groups IH]; intros rng; cbn [dict_mapM_st].
    + exists [], rng. split; [reflexivity|constructor].
    + pose proof (rng_shuffle_perm G HG rng v) as Hperm.
      destruct (rng_shuffle rng v) as [w rng1]. cbn [fst] in Hperm. cbn [bind].
      destruct (IH rng1) as (og & rng' & Hog & Hall).
      rewrite Hog. cbn [bind]. exists ((k, map fst w) :: og), rng'.
      split; [reflexivity|]. constructor; auto. cbn [fst snd]. split; auto.
      now apply Permutation_map.
Qed.

Lemma reordered_concat (groups : dict (list (Z * Z))) (group_indices : dict (list Z)) :
  reordered groups group_indices ->
  Permutation (concat (values group_indices)) (map fst (concat (values groups))).
Proof.
  induction 1 as [|[k v] [k' w] groups og [_ Hp] _ IH]; simpl; auto.
  simpl in Hp. rewrite map_app. now apply Permutation_app.
Qed.

Lemma reordered_len (groups : dict (list (Z * Z))) (group_indices : dict (list Z)) :
  reordered groups group_indices ->
  map_values Py.len group_indices = map_values Py.len groups.
Proof.
  induction 1 as [|[k v] [k' w] groups og [Hk Hp] _ IH]; simpl; auto.
  simpl in Hk, Hp. subst k'. rewrite IH. do 2 f_equal.
  unfold Py.len. now rewrite (Permutation_length Hp), length_map.
Qed.

Lemma reordered_label (groups : dict (list (Z * Z))) (group_indices : dict (list Z)) :
  reordered groups group_indices ->
  Forall (fun kv => Forall (fun p => label (fst p) = Some (fst kv)) (snd kv)) groups ->
  Forall (fun kv => Forall (fun i => label i = Some (fst kv)) (snd kv)) group_indices.
Proof.
  induction 1 as [|[k v] [k' w] groups og [Hk Hp] _ IH]; intros Hl; auto.
  simpl in Hk, Hp. subst k'. inversion Hl as [|? ? Hv Hrest]; subst.
  constructor; auto. cbn [fst snd] in *.
  apply (Permutation_Forall (Permutation_sym Hp)). now apply Forall_map.
Qed.

Lemma truncated_gathered (A stop : Z) (groups : dict (list (Z * Z))) :
  0 < A -> gathered label stop groups ->
  NoDup (map fst (concat (values (map_values (truncated A) groups)))) /\
  Forall (fun kv => Forall (fun p => label (fst p) = Some (fst kv)) (snd kv))
         (map_values (truncated A) groups) /\
  map_values Py.len (map_values (truncated A) groups)
  = map_values (fun v => v / A * A) (map_values Py.len groups).
Proof.
  intros HA (Hnd & _ & Hlab). repeat split.
  - rewrite values_map_values.
    assert (Hsplit : Permutation (concat (values groups))
              (concat (map (truncated A) (values groups))
               ++ concat (map (fun l => skipn (Z.to_nat (Py.len l / A * A)) l)
                              (values groups)))).
    { rewrite <- concat_map_app_perm. apply Permutation_concat.
      erewrite map_ext; [rewrite map_id; reflexivity|].
      intros l. cbn beta. rewrite truncated_firstn by assumption.
      apply firstn_skipn. }
    apply (Permutation_map fst) in Hsplit.
    apply (Permutation_NoDup Hsplit) in Hnd.
    rewrite map_app in Hnd. now apply NoDup_app_remove_r in Hnd.
  - unfold map_values. apply Forall_map.
    eapply Forall_impl; [|exact Hlab]. intros [k v] Hv. cbn [fst snd] in *.
    rewrite truncated_firstn by assumption.
    apply Forall_forall. intros p Hp. rewrite Forall_forall in Hv. apply Hv.
    apply (sub_incl v 0 (Z.to_nat (Py.len v / A * A))). exact Hp.
  - unfold map_values. rewrite !map_map. apply map_ext. intros [k v].
    cbn [fst snd]. now rewrite truncated_len.
Qed.
End Order.

(** ** Batches and accumulation units (lines 155-174) *)

Lemma concat_map_concat {A} (lss : list (list (list A))) :
  concat (map (@concat A) lss) = concat (concat lss).
Proof.
  induction lss as [|ls lss IH]; simpl; auto.
  now rewrite concat_app, IH.
Qed.

Section Batches.
Variable G : Generator.
Hypothesis HG : lawful G.
Variable label : Z -> option string.
Variables (gbs acc : Z).
Hypothesis Hgbs : 0 < gbs.
Hypothesis Hacc : 0 < acc.

Lemma group_units (rng : rng_state G) (k : string) (indices : list Z) :
  batchable label gbs acc (k, indices) ->
  exists batches shuffled rng1 runs,
    batched indices gbs = Ok batches /\
    rng_shuffle rng batches = (shuffled, rng1) /\
    batched shuffled acc = Ok runs /\
    Permutation (concat (map (@concat Z) runs)) indices /\
    Forall (unit_of label (Z.to_nat acc * Z.to_nat gbs)) (map (@concat Z) runs).
Proof.
  intros [[q Hq] Hlab]. cbn [fst snd] in *.
  set (g := Z.to_nat gbs) in *. set (a := Z.to_nat acc) in *.
  exists (chunks g (q * a) indices).
  pose proof (rng_shuffle_perm G HG rng (chunks g (q * a) indices)) as Hperm.
  destruct (rng_shuffle rng (chunks g (q * a) indices)) as [shuffled rng1].
  cbn [fst] in Hperm.
  assert (Hlen : length shuffled = (q * a)%nat).
  { now rewrite (Permutation_length Hperm), chunks_length. }
  assert (Hsize : Forall (fun b => length b = g) shuffled).
  { apply (Permutation_Forall (Permutation_sym Hperm)).
    apply chunks_exact. lia. }
  assert (Hgrp : Forall (fun b => Forall (fun i => label i = Some k) b) shuffled).
  { apply (Permutation_Forall (Permutation_sym Hperm)).
    eapply Forall_impl; [|apply chunks_incl]. intros b Hb.
    apply Forall_forall. intros i Hi. rewrite Forall_forall in Hlab. auto. }
  exists shuffled, rng1, (chunks a q shuffled).
  split; [apply batched_exact; [assumption | fold g; lia]|].
  split; [reflexivity|].
  split; [apply batched_exact; [assumption | fold a; lia]|].
  split.
  - rewrite concat_map_concat, concat_chunks_all by lia.
    rewrite (Permutation_concat _ _ Hperm). rewrite concat_chunks_all by lia.
    reflexivity.
  - apply Forall_map. unfold chunks. apply Forall_map, Forall_forall.
    intros i Hi. apply in_seq in Hi. split.
    + rewrite (concat_length_exact g).
      * rewrite sub_length by nia. reflexivity.
      * rewrite Forall_forall in *. intros b Hb. apply Hsize.
        eapply sub_incl; eauto.
    + exists k. apply Forall_concat. rewrite Forall_forall in *.
      intros b Hb. apply Forall_forall. apply Forall_forall.
      apply Hgrp. eapply sub_incl; eauto.
Qed.

Lemma grouped_batches_spec (group_indices : dict (list Z)) :
  Forall (batchable label gbs acc) group_indices ->
  forall rng before, exists units rng',
    grouped_batches G gbs acc rng group_indices before = Ok (before ++ units, rng') /\
    Permutation (concat units) (concat (values group_indices)) /\
    Forall (unit_of label (Z.to_nat acc * Z.to_nat gbs)) units.
Proof.
  induction 1 as [|[k indices] rest Hkv _ IH]; intros rng before.
  - exists [], rng. rewrite app_nil_r. repeat split; auto.
  - destruct (group_units rng k indices Hkv)
      as (batches & shuffled & rng1 & runs & Hb & Hs & Hr & Hperm & Hunits).
    destruct (IH rng1 (before ++ map (@concat Z) runs))
      as (units & rng' & Hrest & Hperm' & Hunits').
    exists (map (@concat Z) runs ++ units), rng'. repeat split.
    + cbn [grouped_batches]. rewrite Hb. cbn [bind]. rewrite Hs, Hr. cbn [bind].
      rewrite Hrest, <- app_assoc. reflexivity.
    + cbn [values map snd concat]. rewrite concat_app.
      now apply Permutation_app.
    + apply Forall_app. split; assumption.
Qed.

Lemma mixed_batches_spec (group_indices : dict (list Z)) :
  exists batches,
    mixed_batches gbs group_indices = Ok batches /\
    concat batches = concat (values group_indices).
Proof.
  induction group_indices as [|[k indices] rest IH].
  - exists []. split; reflexivity.
  - destruct IH as (r & Hr & Hcat).
    pose proof (batched_chunks indices gbs Hgbs) as Hb.
    eexists. cbn [mixed_batches]. rewrite Hb, Hr. cbn [bind].
    split; [reflexivity|].
    rewrite concat_app, Hcat. cbn [values map snd concat]. f_equal.
    apply concat_chunks_all.
    pose proof (ceil_div_bounds (Py.len indices) gbs Hgbs).
    unfold Py.len in *. nia.
Qed.
End Batches.

(** ** The global sequence (lines 100-178) *)

Lemma valid_metas_counted (metas : list GroupMeta) :
  forallb valid_meta metas = true ->
  exists counts, Forall2 (fun meta c => scaled_len meta = Ok c) metas counts.
Proof.
  induction metas as [|meta metas IH]; intros Hv.
  - exists []. constructor.
  - cbn [forallb] in Hv. apply andb_true_iff in Hv. destruct Hv as [Hv Hvs].
    apply valid_meta_inv in Hv. destruct Hv as (_ & c & Hc & _).
    destruct (IH Hvs) as (counts & Hcounts).
    exists (c :: counts). now constructor.
Qed.

Lemma sum_aligned (A : Z) (l : list Z) :
  exists B, Py.sum (map (fun v => v / A * A) l) = B * A.
Proof.
  induction l as [|v l [B IH]].
  - exists 0. reflexivity.
  - exists (v / A + B). cbn [map]. rewrite sum_cons, IH. lia.
Qed.

Lemma concat_length_multiple {V} (n : nat) (d : dict (list V)) :
  Forall (fun kv => exists q, length (snd kv) = (q * n)%nat) d ->
  exists B, length (concat (values d)) = (B * n)%nat.
Proof.
  induction 1 as [|[k v] d [q Hq] _ [B IH]].
  - exists 0%nat. reflexivity.
  - exists (q + B)%nat. unfold values in *. cbn [map snd concat] in *.
    rewrite length_app, IH, Hq. lia.
Qed.

Lemma aligned_lengths (A : Z) (group_len : dict Z) (group_indices : dict (list Z)) :
  0 < A ->
  map_values Py.len group_indices = map_values (fun v => v / A * A) group_len ->
  Forall (fun kv => exists q, length (snd kv) = (q * Z.to_nat A)%nat) group_indices.
Proof.
  intros HA. revert group_len.
  induction group_indices as [|[k l] og IH]; intros [|[k' v] gl] H;
    try discriminate; constructor.
  - cbn in H. inversion H as [[Hk Hl Hrest]].
    exists (Z.to_nat (v / A)). cbn [snd].
    assert (0 <= v / A).
    { unfold Py.len in Hl. destruct (Z.le_gt_cases 0 (v / A)); [assumption|nia]. }
    unfold Py.len in Hl. nia.
  - cbn in H. inversion H. eapply IH; eauto.
Qed.

Section Pipeline.
Variable G : Generator.
Hypothesis HG : lawful G.
Variable s : LuminaPickleSampler.
Variable group_len : dict Z.
Hypothesis Hshuffle : shuffle s = true.
Hypothesis Hmbs : 0 < micro_batch_size s.
Hypothesis Hws : 0 < num_replicas s.
Hypothesis Hacc : 0 < acc_grad s.
Hypothesis Hseed : 0 <= seed s + epoch s.
Hypothesis Hvalid : forallb valid_meta (meta_list (dataset s)) = true.
Hypothesis Hgl :
  aligned_group_len (num_replicas s) (meta_list (dataset s))
                    (micro_batch_size s) (acc_grad s) = Ok group_len.
Hypothesis Htotal : total_size s = Py.sum (values group_len).

Lemma ordered_groups_exist :
  exists rng0 groups rng1 group_indices rng2,
    default_rng G (seed s + epoch s) = Ok rng0 /\
    gather_groups G (meta_list (dataset s)) 0 rng0 [] = Ok (groups, rng1) /\
    order_groups G s rng1
      (map_values (truncated (micro_batch_size s * num_replicas s * acc_grad s)) groups)
    = Ok (group_indices, rng2) /\
    NoDup (concat (values group_indices)) /\
    Forall (batchable (type_of_index (meta_list (dataset s)) 0)
                      (micro_batch_size s * num_replicas s) (acc_grad s))
           group_indices /\
    map_values Py.len group_indices = group_len.
Proof.
  set (label := type_of_index (meta_list (dataset s)) 0).
  set (A := micro_batch_size s * num_replicas s * acc_grad s).
  assert (HA : 0 < A) by (unfold A; nia).
  exists (seed_rng G (seed s + epoch s)).
  destruct (gather_groups_spec G HG label (meta_list (dataset s)) 0
              (seed_rng G (seed s + epoch s)) [] Hvalid)
    as (groups & rng1 & cg & stop & Hgather & Hcount & Hmap & Hinv).
  { intros i _. reflexivity. }
  { repeat split; constructor. }
  destruct (truncated_gathered label A stop groups HA Hinv) as (Hnd & Hlab & Hlen).
  destruct (order_groups_spec G HG s (map_values (truncated A) groups)) with (rng := rng1)
    as (og & rng2 & Horder & Hre); [nia|].
  assert (Hlens : map_values Py.len og = map_values (fun v => v / A * A) cg).
  { rewrite (reordered_len _ _ Hre), Hlen, Hmap. reflexivity. }
  exists groups, rng1, og, rng2.
  split. { unfold default_rng. destruct (Z.ltb_spec (seed s + epoch s) 0); [lia|reflexivity]. }
  split; [exact Hgather|]. split; [exact Horder|]. split; [|split].
  - apply (Permutation_NoDup (Permutation_sym (reordered_concat _ _ Hre))). exact Hnd.
  - pose proof (reordered_label label _ _ Hre Hlab) as Hlab'.
    pose proof (aligned_lengths A cg og HA Hlens) as Hmul.
    rewrite Forall_forall in *. intros kv Hkv. split; [|now apply Hlab'].
    destruct (Hmul kv Hkv) as [q Hq]. exists q. rewrite Hq. unfold A. nia.
  - rewrite Hlens. unfold aligned_group_len in Hgl.
    cbn [map_values map] in Hcount. rewrite Hcount in Hgl. cbn [bind] in Hgl.
    fold A in Hgl. rewrite align_groups_nonzero in Hgl by lia.
    now inversion Hgl.
Qed.

Lemma global_indices_spec :
  exists indices,
    global_indices G s = Ok indices /\
    Py.len indices = total_size s /\
    NoDup indices /\
    (exists B, length indices
               = (B * (Z.to_nat (acc_grad s)
                       * Z.to_nat (micro_batch_size s * num_replicas s)))%nat) /\
    (allow_mixed_task_among_acc s = false ->
     exists units,
       indices = concat units /\
       Forall (unit_of (type_of_index (meta_list (dataset s)) 0)
                       (Z.to_nat (acc_grad s)
                        * Z.to_nat (micro_batch_size s * num_replicas s)))
              units).
Proof.
  destruct ordered_groups_exist
    as (rng0 & groups & rng1 & og & rng2 & Hrng & Hgather & Horder & Hnd & Hbat & Hlens).
  set (label := type_of_index (meta_list (dataset s)) 0) in *.
  set (gbs := micro_batch_size s * num_replicas s) in *.
  assert (Hgbs : 0 < gbs) by (unfold gbs; nia).
  assert (Hmul : exists B, length (concat (values og))
                           = (B * (Z.to_nat (acc_grad s) * Z.to_nat gbs))%nat).
  { apply concat_length_multiple. eapply Forall_impl; [|exact Hbat].
    intros kv [[q Hq] _]. exists q. rewrite Hq. lia. }
  assert (Hsum : Py.len (concat (values og)) = total_size s).
  { rewrite len_concat, Htotal, <- Hlens, values_map_values. reflexivity. }
  assert (Hbatches :
            exists batches rng3,
              (if allow_mixed_task_among_acc s
               then b <- mixed_batches gbs og ;; Ok (b, rng2)
               else grouped_batches G gbs (acc_grad s) rng2 og [])
              = Ok (batches, rng3) /\
              Permutation (concat batches) (concat (values og)) /\
              (allow_mixed_task_among_acc s = false ->
               Forall (unit_of label (Z.to_nat (acc_grad s) * Z.to_nat gbs)) batches)).
  { destruct (allow_mixed_task_among_acc s).
    - destruct (mixed_batches_spec gbs Hgbs og) as (b & Hb & Hcat).
      exists b, rng2. rewrite Hb. cbn [bind]. split; [reflexivity|].
      split; [now rewrite Hcat | discriminate].
    - destruct (grouped_batches_spec G HG label gbs (acc_grad s) Hgbs Hacc og Hbat rng2 [])
        as (units & rng3 & Hu & Hperm & Hunits).
      exists units, rng3. cbn [app] in Hu. auto. }
  destruct Hbatches as (batches & rng3 & Hb & Hperm & Hunits).
  pose proof (rng_shuffle_perm G HG rng3 batches) as Hfinal.
  destruct (rng_shuffle rng3 batches) as [shuffled rng4] eqn:Hshuf.
  cbn [fst] in Hfinal.
  assert (Hall : Permutation (concat shuffled) (concat (values og))).
  { rewrite (Permutation_concat _ _ Hfinal). exact Hperm. }
  assert (Hlen : Py.len (concat shuffled) = total_size s).
  { rewrite <- Hsum. unfold Py.len. now rewrite (Permutation_length Hall). }
  exists (concat shuffled). split; [|split; [|split; [|split]]].
  - unfold global_indices. unfold gbs in *.
    rewrite Hrng. cbn [bind]. rewrite Hgather. cbn [bind].
    rewrite truncate_groups_ok by nia. cbn [bind]. rewrite Hshuffle, Horder.
    cbn [bind]. rewrite Hb. cbn [bind]. rewrite Hshuf. cbn [bind].
    rewrite Hlen, Z.eqb_refl. reflexivity.
  - exact Hlen.
  - apply (Permutation_NoDup (Permutation_sym Hall)). exact Hnd.
  - destruct Hmul as [B HB]. exists B. now rewrite (Permutation_length Hall).
  - intros Hmixed. exists shuffled. split; [reflexivity|].
    apply (Permutation_Forall (Permutation_sym Hfinal)). auto.
Qed.
End Pipeline.

(** ** Construction and the un-resumed share *)

Lemma init_valid (gpc : ParallelContext) (ds : Dataset) (mbs acc : Z)
    (sh : bool) (sd : Z) (lc mixed : bool) :
  0 < mbs -> 0 < acc -> 0 < world_size gpc ->
  forallb valid_meta (meta_list ds) = true ->
  exists group_len B,
    aligned_group_len (world_size gpc) (meta_list ds) mbs acc = Ok group_len /\
    Py.sum (values group_len) = B * (mbs * world_size gpc * acc) /\
    LuminaPickleSampler_init gpc ds (Some mbs) (Some acc) sh sd lc mixed
    = Ok {| dataset := ds; num_replicas := world_size gpc; rank := local_rank gpc;
            shuffle := sh; seed := sd; micro_batch_size := mbs; acc_grad := acc;
            length_clustering := lc; allow_mixed_task_among_acc := mixed;
            epoch := 0; start_iter := 0;
            total_size := Py.sum (values group_len);
            num_samples := Py.sum (values group_len) / world_size gpc |}.
Proof.
  intros Hmbs Hacc Hws Hv.
  destruct (valid_metas_counted _ Hv) as (counts & Hcounts).
  set (A := mbs * world_size gpc * acc).
  set (cg := tally (combine (map meta_type (meta_list ds)) counts) []).
  exists (map_values (fun v => v / A * A) cg).
  destruct (sum_aligned A (values cg)) as [B HB].
  exists B.
  assert (Hgl : aligned_group_len (world_size gpc) (meta_list ds) mbs acc
                = Ok (map_values (fun v => v / A * A) cg)).
  { unfold aligned_group_len. rewrite (count_groups_tally _ _ Hcounts).
    cbn [bind]. apply align_groups_nonzero. unfold A. nia. }
  assert (Hsum : Py.sum (values (map_values (fun v => v / A * A) cg)) = B * A).
  { rewrite values_map_values. exact HB. }
  split; [exact Hgl|]. split; [exact Hsum|].
  unfold LuminaPickleSampler_init. rewrite Hgl. cbn [bind].
  rewrite Hsum. unfold Py.modulo, Py.floordiv.
  destruct (Z.eqb_spec (world_size gpc) 0); [lia|]. cbn [bind].
  replace (B * A) with (B * mbs * acc * world_size gpc) by (unfold A; lia).
  rewrite Z.mod_mul by lia. reflexivity.
Qed.

Lemma sub_nil {A} (a n : nat) : sub (@nil A) a n = [].
Proof. unfold sub. now rewrite skipn_nil, firstn_nil. Qed.

(** A run of whole rows of a concatenation of equally long rows. *)
Lemma sub_concat_rows {A} (m : nat) (rows : list (list A)) :
  Forall (fun b => length b = m) rows ->
  forall i n, sub (concat rows) (i * m) (n * m) = concat (sub rows i n).
Proof.
  induction 1 as [|b rows Hb _ IH]; intros i n.
  - cbn [concat]. now rewrite !sub_nil.
  - destruct i as [|i].
    + destruct n as [|n]; [reflexivity|].
      unfold sub. cbn [skipn Nat.mul concat firstn].
      rewrite <- Hb at 1. rewrite firstn_app_2. f_equal.
      apply (IH 0%nat n).
    + unfold sub. cbn [skipn Nat.mul concat].
      rewrite skipn_app, Hb, skipn_all2 by lia. cbn [app].
      replace (m + i * m - m)%nat with (i * m)%nat by lia.
      apply (IH i n).
Qed.

Lemma sub_map_seq {A} (f : nat -> A) (B i n : nat) :
  (i + n <= B)%nat -> sub (map f (seq 0 B)) i n = map f (seq i n).
Proof.
  intros H. unfold sub. rewrite skipn_map, firstn_map, skipn_seq. f_equal.
  replace (B - i)%nat with (n + (B - i - n))%nat by lia.
  rewrite seq_app, firstn_app, length_seq, Nat.sub_diag, firstn_O, app_nil_r.
  apply firstn_all2. rewrite length_seq. lia.
Qed.

Lemma sub_within {A} (l : list A) (a n b m : nat) :
  (a <= b)%nat -> (b + m <= a + n)%nat -> incl (sub l b m) (sub l a n).
Proof.
  intros H1 H2. replace b with (a + (b - a))%nat by lia.
  rewrite <- (sub_nested l a n) by lia. apply sub_incl.
Qed.

Lemma share_spec (G : Generator) (HG : lawful G) (s : LuminaPickleSampler)
    (group_len : dict Z) :
  shuffle s = true ->
  0 < micro_batch_size s -> 0 < num_replicas s -> 0 < acc_grad s ->
  0 <= seed s + epoch s ->
  forallb valid_meta (meta_list (dataset s)) = true ->
  aligned_group_len (num_replicas s) (meta_list (dataset s))
                    (micro_batch_size s) (acc_grad s) = Ok group_len ->
  total_size s = Py.sum (values group_len) ->
  num_samples s = total_size s / num_replicas s ->
  0 <= rank s < num_replicas s ->
  exists indices U,
    global_indices G s = Ok indices /\
    Py.len indices = total_size s /\
    NoDup indices /\
    length indices
    = (U * Z.to_nat (acc_grad s) * Z.to_nat (num_replicas s * micro_batch_size s))%nat /\
    unresumed G s
    = Ok (concat (map (fun j => piece (micro_batch_size s) (num_replicas s) indices j
                                      (Z.to_nat (rank s)))
                      (seq 0 (U * Z.to_nat (acc_grad s))))) /\
    Py.len (concat (map (fun j => piece (micro_batch_size s) (num_replicas s) indices j
                                        (Z.to_nat (rank s)))
                        (seq 0 (U * Z.to_nat (acc_grad s)))))
    = num_samples s /\
    (allow_mixed_task_among_acc s = false ->
     exists units,
       indices = concat units /\ length units = U /\
       Forall (unit_of (type_of_index (meta_list (dataset s)) 0)
                       (Z.to_nat (acc_grad s)
                        * Z.to_nat (num_replicas s * micro_batch_size s)))
              units).
Proof.
  intros Hsh Hmbs Hws Hacc Hseed Hv Hgl Htot Hns Hrank.
  destruct (global_indices_spec G HG s group_len Hsh Hmbs Hws Hacc Hseed Hv Hgl Htot)
    as (indices & Hgi & Hlen & Hnd & [U HU] & Hunits).
  rewrite (Z.mul_comm (micro_batch_size s)) in HU, Hunits.
  set (m := Z.to_nat (micro_batch_size s)) in *.
  set (a := Z.to_nat (acc_grad s)) in *.
  set (W := Z.to_nat (num_replicas s * micro_batch_size s)) in *.
  assert (HW : W = (Z.to_nat (num_replicas s) * m)%nat) by (unfold W, m; nia).
  assert (HU' : length indices = (U * a * W)%nat) by lia.
  set (rows := map (fun j => piece (micro_batch_size s) (num_replicas s) indices j
                                   (Z.to_nat (rank s))) (seq 0 (U * a))).
  assert (Hrows : Forall (fun b => length b = m) rows).
  { unfold rows. apply Forall_map, Forall_forall. intros j Hj. apply in_seq in Hj.
    apply (piece_length _ _ Hmbs Hws indices (U * a)); fold W; try lia. }
  assert (Hown : Py.len (concat rows) = num_samples s).
  { unfold Py.len. rewrite (concat_length_exact m) by assumption.
    unfold rows. rewrite length_map, length_seq.
    rewrite Hns, <- Hlen. unfold Py.len. rewrite HU', HW.
    replace (Z.of_nat (U * a * (Z.to_nat (num_replicas s) * m)))
      with (Z.of_nat (U * a * m) * num_replicas s) by nia.
    rewrite Z.div_mul; lia. }
  exists indices, U. split; [exact Hgi|]. split; [exact Hlen|].
  split; [exact Hnd|]. split; [exact HU'|]. split; [|split; [exact Hown|]].
  - unfold unresumed. rewrite Hgi. cbn [bind].
    rewrite (own_indices_rows _ _ Hmbs Hws s indices (U * a)); auto.
    cbn [bind]. fold rows. rewrite Hown, Z.eqb_refl. reflexivity.
  - intros Hmixed. destruct (Hunits Hmixed) as (units & Heq & Hall).
    exists units. split; [exact Heq|]. split; [|exact Hall].
    assert (Hsz : Forall (fun u => length u = (a * W)%nat) units).
    { eapply Forall_impl; [|exact Hall]. intros u [Hu _]. exact Hu. }
    pose proof (concat_length_exact _ _ Hsz) as Hc. rewrite <- Heq, HU' in Hc.
    assert (0 < a * W)%nat by (unfold a, W; nia). nia.
Qed.

(** ** Rank partitioning *)

(** C2.  For a valid configuration (positive [micro_batch_size],
    [acc_grad] and [world_size], [shuffle = True], a non-negative
    [seed + epoch], well-formed partitions) and every epoch: construction
    succeeds on every rank [r] with [0 <= r < world_size], with the same
    [total_size], a multiple of [world_size], and
    [num_samples = total_size / world_size]; every rank computes the same
    global sequence [indices], of [total_size] indices; the un-resumed
    iteration ([start_iter = 0]) of rank [r] yields the [r]-th of
    [world_size] shares, of exactly [num_samples] indices; and the shares
    of all the ranks together are a rearrangement of [indices] with no
    index repeated, so no index is on two ranks or twice on one rank and
    their union has exactly [total_size] distinct indices. *)
Theorem rank_shares_partition (G : Generator) (ds : Dataset) (ws mbs acc sd e : Z)
    (lc mixed : bool) :
  lawful G ->
  0 < mbs -> 0 < acc -> 0 < ws -> 0 <= sd + e ->
  forallb valid_meta (meta_list ds) = true ->
  exists (total : Z) (indices : list Z) (shares : list (list Z)),
    length shares = Z.to_nat ws /\
    total mod ws = 0 /\
    (forall r, 0 <= r < ws ->
       exists s,
         LuminaPickleSampler_init {| world_size := ws; local_rank := r |} ds
           (Some mbs) (Some acc) true sd lc mixed = Ok s /\
         total_size s = total /\
         num_samples s = total / ws /\
         global_indices G (set_epoch s e 0) = Ok indices /\
         LuminaPickleSampler_iter G (set_epoch s e 0) = Ok (nth (Z.to_nat r) shares []) /\
         Py.len (nth (Z.to_nat r) shares []) = num_samples s) /\
    Py.len indices = total /\
    Permutation (concat shares) indices /\
    NoDup (concat shares) /\
    Py.len (concat shares) = total.
Proof.
  intros HG Hmbs Hacc Hws Hseed Hv.
  set (gpc := fun r => {| world_size := ws; local_rank := r |}).
  destruct (init_valid (gpc 0) ds mbs acc true sd lc mixed Hmbs Hacc Hws Hv)
    as (gl & B & Hgl & HB & _).
  cbn [world_size gpc] in Hgl, HB.
  set (total := Py.sum (values gl)) in *.
  set (s := fun r =>
              {| dataset := ds; num_replicas := ws; rank := r; shuffle := true;
                 seed := sd; micro_batch_size := mbs; acc_grad := acc;
                 length_clustering := lc; allow_mixed_task_among_acc := mixed;
                 epoch := 0; start_iter := 0; total_size := total;
                 num_samples := total / ws |}).
  assert (Hinit : forall r, LuminaPickleSampler_init (gpc r) ds (Some mbs) (Some acc)
                              true sd lc mixed = Ok (s r)).
  { intros r.
    destruct (init_valid (gpc r) ds mbs acc true sd lc mixed Hmbs Hacc Hws Hv)
      as (gl' & B' & Hgl' & _ & Hi).
    cbn [world_size gpc] in Hgl'. rewrite Hgl in Hgl'. inversion Hgl'. subst gl'.
    exact Hi. }
  assert (Hshare : forall r, 0 <= r < ws ->
            exists indices U,
              global_indices G (set_epoch (s r) e 0) = Ok indices /\
              Py.len indices = total /\ NoDup indices /\
              length indices = (U * Z.to_nat acc * Z.to_nat (ws * mbs))%nat /\
              unresumed G (set_epoch (s r) e 0)
              = Ok (concat (map (fun j => piece mbs ws indices j (Z.to_nat r))
                                (seq 0 (U * Z.to_nat acc)))) /\
              Py.len (concat (map (fun j => piece mbs ws indices j (Z.to_nat r))
                                  (seq 0 (U * Z.to_nat acc)))) = total / ws).
  { intros r Hr.
    destruct (share_spec G HG (set_epoch (s r) e 0) gl)
      as (indices & U & H1 & H2 & H3 & H4 & H5 & H6 & _); auto.
    exists indices, U. repeat split; assumption. }
  destruct (Hshare 0 ltac:(lia)) as (indices & U & Hgi & Hlen & Hnd & HU & _).
  set (share := fun r => concat (map (fun j => piece mbs ws indices j r)
                                     (seq 0 (U * Z.to_nat acc)))).
  assert (Hpos : (0 < Z.to_nat acc * Z.to_nat (ws * mbs))%nat) by nia.
  assert (Hperm : Permutation (concat (map share (seq 0 (Z.to_nat ws)))) indices).
  { apply (shares_permutation mbs ws Hmbs Hws indices (U * Z.to_nat acc)). lia. }
  exists total, indices, (map share (seq 0 (Z.to_nat ws))).
  split; [now rewrite length_map, length_seq|].
  split; [rewrite HB; replace (B * (mbs * ws * acc)) with (B * mbs * acc * ws) by lia;
          apply Z.mod_mul; lia|].
  split; [|split; [exact Hlen|split; [exact Hperm|split]]].
  - intros r Hr. exists (s r). split; [apply Hinit|].
    split; [reflexivity|]. split; [reflexivity|].
    destruct (Hshare r Hr) as (indices' & U' & Hgi' & _ & _ & HU' & Hun & Hlen').
    assert (Heq : indices' = indices).
    { change (global_indices G (set_epoch (s r) e 0))
        with (global_indices G (set_epoch (s 0) e 0)) in Hgi'.
      rewrite Hgi in Hgi'. now inversion Hgi'. }
    subst indices'.
    assert (U' = U) by nia. subst U'.
    rewrite nth_indep with (d' := share 0%nat) by (rewrite length_map, length_seq; lia).
    rewrite map_nth, seq_nth by lia. cbn [Nat.add].
    split; [exact Hgi|]. split; [rewrite iter_start_0; exact Hun | exact Hlen'].
  - apply (Permutation_NoDup (Permutation_sym Hperm)). exact Hnd.
  - rewrite <- Hlen. unfold Py.len. now rewrite (Permutation_length Hperm).
Qed.

Lemma rank_shares_partition_witness :
  exists (total : Z) (indices : list Z) (shares : list (list Z)),
    length shares = Z.to_nat 2 /\
    total mod 2 = 0 /\
    (forall r, 0 <= r < 2 ->
       exists s,
         LuminaPickleSampler_init {| world_size := 2; local_rank := r |} Example.ds
           (Some 2) (Some 1) true 0 true false = Ok s /\
         total_size s = total /\
         num_samples s = total / 2 /\
         global_indices lcg (set_epoch s 0 0) = Ok indices /\
         LuminaPickleSampler_iter lcg (set_epoch s 0 0) = Ok (nth (Z.to_nat r) shares []) /\
         Py.len (nth (Z.to_nat r) shares []) = num_samples s) /\
    Py.len indices = total /\
    Permutation (concat shares) indices /\
    NoDup (concat shares) /\
    Py.len (concat shares) = total.
Proof.
  apply (rank_shares_partition lcg Example.ds 2 2 1 0 0 true false);
    [exact lcg_lawful | lia | lia | lia | lia | vm_compute; reflexivity].
Defined.

(** ** Homogeneity *)

Section Homogeneous.
Variable label : Z -> option string.
Variables (indices : list Z) (units : list (list Z)).
Variables (m a w W r : nat).
Hypothesis Hm : (0 < m)%nat.
Hypothesis HW : W = (w * m)%nat.
Hypothesis Hr : (r < w)%nat.
Hypothesis Hcat : indices = concat units.
Hypothesis Hunits : Forall (unit_of label (a * W)) units.

Lemma units_length : length indices = (length units * a * W)%nat.
Proof.
  rewrite Hcat, (concat_length_exact (a * W)); [lia|].
  eapply Forall_impl; [|exact Hunits]. intros u [Hu _]. exact Hu.
Qed.

Lemma rank_rows_length :
  Forall (fun b => length b = m) (rank_rows indices units m a W r).
Proof.
  unfold rank_rows. apply Forall_map, Forall_forall. intros j Hj.
  apply in_seq in Hj. apply sub_length. rewrite units_length. nia.
Qed.

Lemma row_in_unit (u j : nat) :
  (u < length units)%nat -> (u * a <= j)%nat -> (j < u * a + a)%nat ->
  incl (sub indices (j * W + r * m) m) (nth u units []).
Proof.
  intros Hu Hlo Hhi.
  rewrite <- (sub_concat (a * W) units u), <- Hcat; auto.
  - apply sub_within; nia.
  - eapply Forall_impl; [|exact Hunits]. intros x [Hx _]. exact Hx.
Qed.

(** A run of whole rows inside one accumulation unit carries one
    label. *)
Lemma rows_span (u i n : nat) :
  (u < length units)%nat -> (u * a <= i)%nat -> (i + n <= u * a + a)%nat ->
  length (sub (concat (rank_rows indices units m a W r)) (i * m) (n * m)) = (n * m)%nat /\
  exists g, Forall (fun x => label x = Some g)
              (sub (concat (rank_rows indices units m a W r)) (i * m) (n * m)).
Proof.
  intros Hu Hlo Hhi.
  assert (Hin : (i + n <= length units * a)%nat).
  { assert ((u + 1) * a <= length units * a)%nat by (apply Nat.mul_le_mono_r; lia).
    lia. }
  split.
  - apply sub_length. rewrite (concat_length_exact m) by apply rank_rows_length.
    unfold rank_rows. rewrite length_map, length_seq.
    rewrite <- Nat.mul_add_distr_r. now apply Nat.mul_le_mono_r.
  - rewrite (sub_concat_rows m) by apply rank_rows_length.
    unfold rank_rows. rewrite sub_map_seq by exact Hin.
    assert (Hg : exists g, Forall (fun x => label x = Some g) (nth u units [])).
    { rewrite Forall_forall in Hunits. apply Hunits, nth_In. exact Hu. }
    destruct Hg as [g Hg]. exists g.
    apply Forall_concat, Forall_map, Forall_forall. intros j Hj.
    apply in_seq in Hj. apply Forall_forall. intros x Hx.
    rewrite Forall_forall in Hg. apply Hg.
    apply (row_in_unit u j); auto; lia.
Qed.
End Homogeneous.

Lemma iter_resumed (G : Generator) (s : LuminaPickleSampler) (e k : Z) :
  0 < micro_batch_size s -> 0 <= k ->
  LuminaPickleSampler_iter G (set_epoch s e k)
  = result_map (skipn (Z.to_nat (k * micro_batch_size s)))
               (unresumed G (set_epoch s e 0)).
Proof.
  intros Hm Hk. rewrite iter_unresumed, unresumed_set_epoch.
  destruct (unresumed G (set_epoch s e 0)) as [own|]; [|reflexivity].
  cbn [result_map]. f_equal. unfold resume.
  cbn [start_iter set_epoch micro_batch_size].
  destruct (Z.ltb_spec (Py.len own) (k * micro_batch_size s)) as [E|E].
  - symmetry. apply skipn_all2. unfold Py.len in E. lia.
  - apply slice_from_nonneg. nia.
Qed.

(** C4, as stated, fails once the iteration is resumed inside an
    accumulation unit.  Two text and two image samples on one process
    with [micro_batch_size = 1] and [acc_grad = 2]: the un-resumed share
    is a text unit followed by an image unit; with [start_iter = 1] the
    stream starts at the second micro-batch of the first unit, and the
    first [acc_grad] consecutive micro-batches that are yielded hold a
    text index and an image index. *)
Lemma accumulation_unit_split_by_resume :
  exists s stream,
    LuminaPickleSampler_init Example.solo Example.two_by_two (Some 1) (Some 2)
      true 0 true false = Ok s /\
    allow_mixed_task_among_acc s = false /\
    LuminaPickleSampler_iter lcg (set_epoch s 0 1) = Ok stream /\
    2 * 1 <= Py.len stream /\
    ~ exists g, of_group (meta_list Example.two_by_two) g
                  (Py.slice stream (Some 0) (Some (2 * 1))).
Proof.
  exists {| dataset := Example.two_by_two; num_replicas := 1; rank := 0;
            shuffle := true; seed := 0; micro_batch_size := 1; acc_grad := 2;
            length_clustering := true; allow_mixed_task_among_acc := false;
            epoch := 0; start_iter := 0; total_size := 4; num_samples := 4 |},
         [1; 2; 3].
  split; [vm_compute; reflexivity|]. split; [reflexivity|].
  split; [vm_compute; reflexivity|]. split; [vm_compute; discriminate|].
  intros [g Hg]. unfold of_group in Hg.
  change (Py.slice [1; 2; 3] (Some 0) (Some (2 * 1))) with [1; 2] in Hg.
  inversion Hg as [|x l H1 Hrest]; subst.
  inversion Hrest as [|y l' H2 _]; subst.
  vm_compute in H1, H2. congruence.
Qed.

(** C4, amended.  For a valid configuration with
    [allow_mixed_task_among_acc = False], on any rank: the un-resumed
    share splits exactly into accumulation units of
    [micro_batch_size * acc_grad] consecutive indices ([acc_grad]
    consecutive micro-batches), and all the indices of a unit belong to
    one group; and for every [start_iter = k >= 0], every micro-batch of
    [micro_batch_size] consecutive indices of the stream that is yielded
    has its indices in one group, and so has every run of [acc_grad]
    consecutive micro-batches of the stream that starts at a micro-batch
    [j] with [k + j] a multiple of [acc_grad], that is, every
    accumulation unit of the share that the stream still holds whole
    (all the runs at multiples of [acc_grad] when [k] is one).  The group
    of an index is the [type] of the partition whose range of global
    indices holds it. *)
Theorem batches_homogeneous (G : Generator) (gpc : ParallelContext) (ds : Dataset)
    (mbs acc sd e : Z) (lc : bool) :
  lawful G ->
  0 < mbs -> 0 < acc -> 0 <= local_rank gpc < world_size gpc -> 0 <= sd + e ->
  forallb valid_meta (meta_list ds) = true ->
  exists s share,
    LuminaPickleSampler_init gpc ds (Some mbs) (Some acc) true sd lc false = Ok s /\
    LuminaPickleSampler_iter G (set_epoch s e 0) = Ok share /\
    Py.len share = num_samples s /\
    num_samples s mod (mbs * acc) = 0 /\
    (forall u, 0 <= u < num_samples s / (mbs * acc) ->
       Py.len (Py.slice share (Some (u * (mbs * acc))) (Some ((u + 1) * (mbs * acc))))
       = mbs * acc /\
       exists g, of_group (meta_list ds) g
                   (Py.slice share (Some (u * (mbs * acc)))
                                   (Some ((u + 1) * (mbs * acc))))) /\
    (forall k, 0 <= k ->
       exists stream,
         LuminaPickleSampler_iter G (set_epoch s e k) = Ok stream /\
         (forall j, 0 <= j < Py.len stream / mbs ->
            Py.len (Py.slice stream (Some (j * mbs)) (Some ((j + 1) * mbs))) = mbs /\
            exists g, of_group (meta_list ds) g
                        (Py.slice stream (Some (j * mbs)) (Some ((j + 1) * mbs)))) /\
         (forall j, 0 <= j -> (k + j) mod acc = 0 ->
            (j + acc) * mbs <= Py.len stream ->
            Py.len (Py.slice stream (Some (j * mbs)) (Some ((j + acc) * mbs)))
            = acc * mbs /\
            exists g, of_group (meta_list ds) g
                        (Py.slice stream (Some (j * mbs)) (Some ((j + acc) * mbs))))).
Proof.
  intros HG Hmbs Hacc Hrank Hseed Hv.
  assert (Hws : 0 < world_size gpc) by lia.
  destruct (init_valid gpc ds mbs acc true sd lc false Hmbs Hacc Hws Hv)
    as (gl & B & Hgl & HB & Hinit).
  set (s := Build_LuminaPickleSampler _ _ _ _ _ _ _ _ _ _ _ _ _) in Hinit.
  destruct (share_spec G HG (set_epoch s e 0) gl)
    as (indices & U & Hgi & Hlen & Hnd & HU & Hun & Hown & Hunits); auto.
  destruct (Hunits eq_refl) as (units & Hcat & HlenU & Hall).
  cbn [set_epoch micro_batch_size num_replicas acc_grad rank dataset s num_samples]
    in Hun, Hown, Hall, HU.
  set (m := Z.to_nat mbs) in *. set (a := Z.to_nat acc) in *.
  set (W := Z.to_nat (world_size gpc * mbs)) in *.
  set (r := Z.to_nat (local_rank gpc)) in *.
  set (label := type_of_index (meta_list ds) 0) in *.
  assert (Hm : (0 < m)%nat) by (unfold m; lia).
  assert (Ha : (0 < a)%nat) by (unfold a; lia).
  assert (HW : W = (Z.to_nat (world_size gpc) * m)%nat) by (unfold W, m; nia).
  assert (Hr : (r < Z.to_nat (world_size gpc))%nat) by (unfold r; lia).
  set (share := concat (rank_rows indices units m a W r)).
  assert (Hshare : concat (map (fun j => piece mbs (world_size gpc) indices j r)
                               (seq 0 (U * a))) = share).
  { unfold share, rank_rows, piece. rewrite HlenU. reflexivity. }
  rewrite Hshare in Hun, Hown.
  assert (Hsl : length share = (U * a * m)%nat).
  { unfold share. rewrite (concat_length_exact m).
    - unfold rank_rows. rewrite length_map, length_seq, HlenU. reflexivity.
    - exact (rank_rows_length label indices units m a (Z.to_nat (world_size gpc))
               W r Hm HW Hr Hcat Hall). }
  assert (Hspan : forall u i n,
            (u < U)%nat -> (u * a <= i)%nat -> (i + n <= u * a + a)%nat ->
            length (sub share (i * m) (n * m)) = (n * m)%nat /\
            exists g, Forall (fun x => label x = Some g) (sub share (i * m) (n * m))).
  { intros u i n Hu. rewrite <- HlenU in Hu.
    exact (rows_span label indices units m a (Z.to_nat (world_size gpc))
             W r Hm HW Hr Hcat Hall u i n Hu). }
  assert (Hns : num_samples s = Z.of_nat U * (mbs * acc)).
  { transitivity (Py.len share); [symmetry; exact Hown|].
    unfold Py.len. rewrite Hsl. unfold a, m. nia. }
  exists s, share. split; [exact Hinit|].
  split; [rewrite iter_start_0; exact Hun|]. split; [exact Hown|].
  split; [rewrite Hns; apply Z.mod_mul; nia|]. split.
  - intros u Hu. rewrite Hns, Z.div_mul in Hu by nia.
    replace ((u + 1) * (mbs * acc)) with (u * (mbs * acc) + mbs * acc) by lia.
    rewrite slice_sub by nia.
    replace (Z.to_nat (u * (mbs * acc))) with (Z.to_nat u * a * m)%nat
      by (unfold a, m; nia).
    replace (Z.to_nat (mbs * acc)) with (a * m)%nat by (unfold a, m; nia).
    destruct (Hspan (Z.to_nat u) (Z.to_nat u * a)%nat a) as [Hl Hg]; try lia.
    split; [|exact Hg]. unfold Py.len. rewrite Hl. unfold a, m. nia.
  - intros k Hk. exists (skipn (Z.to_nat k * m) share).
    assert (Hsub : forall j n,
              sub (skipn (Z.to_nat k * m) share) (j * m) (n * m)
              = sub share ((j + Z.to_nat k) * m) (n * m)).
    { intros j n. unfold sub. rewrite skipn_skipn. do 2 f_equal. lia. }
    split; [|split].
    + rewrite iter_resumed by assumption. rewrite Hun. cbn [result_map].
      do 2 f_equal. cbn [micro_batch_size s]. unfold m. nia.
    + intros j Hj.
      assert (Hjk : (Z.to_nat j + Z.to_nat k < U * a)%nat).
      { unfold Py.len in Hj. rewrite length_skipn, Hsl in Hj.
        destruct (Nat.le_gt_cases (U * a) (Z.to_nat k)) as [Hge|Hlt].
        - replace (U * a * m - Z.to_nat k * m)%nat with 0%nat in Hj by nia.
          rewrite Z.div_0_l in Hj by lia. lia.
        - replace (Z.of_nat (U * a * m - Z.to_nat k * m))
            with (Z.of_nat (U * a - Z.to_nat k) * mbs) in Hj by (unfold m; nia).
          rewrite Z.div_mul in Hj by lia. lia. }
      replace ((j + 1) * mbs) with (j * mbs + mbs) by lia.
      rewrite slice_sub by nia.
      replace (Z.to_nat (j * mbs)) with (Z.to_nat j * m)%nat by (unfold m; nia).
      replace (Z.to_nat mbs) with (1 * m)%nat by (unfold m; lia).
      rewrite Hsub.
      pose proof (Nat.div_mod_eq (Z.to_nat j + Z.to_nat k) a) as Hdm.
      pose proof (Nat.mod_upper_bound (Z.to_nat j + Z.to_nat k) a ltac:(lia)) as Hmod.
      destruct (Hspan ((Z.to_nat j + Z.to_nat k) / a)%nat
                      (Z.to_nat j + Z.to_nat k)%nat 1%nat) as [Hl Hg]; try nia.
      split; [|exact Hg]. unfold Py.len. rewrite Hl. unfold m. lia.
    + intros j Hj Hmod Hfit.
      apply Z.mod_divide in Hmod; [|lia]. destruct Hmod as [q Hq].
      assert (Hq0 : 0 <= q) by nia.
      assert (Hqa : (Z.to_nat j + Z.to_nat k = Z.to_nat q * a)%nat) by (unfold a; nia).
      assert (HqU : (Z.to_nat q < U)%nat).
      { unfold Py.len in Hfit. rewrite length_skipn, Hsl in Hfit.
        assert (Hfit' : (Z.to_nat j * m + a * m <= U * a * m - Z.to_nat k * m)%nat)
          by (unfold a, m; nia).
        nia. }
      replace ((j + acc) * mbs) with (j * mbs + acc * mbs) by lia.
      rewrite slice_sub by nia.
      replace (Z.to_nat (j * mbs)) with (Z.to_nat j * m)%nat by (unfold m; nia).
      replace (Z.to_nat (acc * mbs)) with (a * m)%nat by (unfold a, m; nia).
      rewrite Hsub, Hqa.
      destruct (Hspan (Z.to_nat q) (Z.to_nat q * a)%nat a) as [Hl Hg]; try lia.
      split; [|exact Hg]. unfold Py.len. rewrite Hl. unfold a, m. nia.
Qed.

Lemma batches_homogeneous_witness :
  exists s share,
    LuminaPickleSampler_init Example.solo Example.ds (Some 2) (Some 2) true 0 true false
    = Ok s /\
    total_size s = 24 /\
    LuminaPickleSampler_iter lcg (set_epoch s 0 0) = Ok share /\
    (forall u, 0 <= u < num_samples s / (2 * 2) ->
       exists g, of_group (meta_list Example.ds) g
                   (Py.slice share (Some (u * (2 * 2))) (Some ((u + 1) * (2 * 2))))) /\
    exists stream,
      LuminaPickleSampler_iter lcg (set_epoch s 0 3) = Ok stream /\
      forall j, 0 <= j -> (3 + j) mod 2 = 0 -> (j + 2) * 2 <= Py.len stream ->
        exists g, of_group (meta_list Example.ds) g
                    (Py.slice stream (Some (j * 2)) (Some ((j + 2) * 2))).
Proof.
  destruct (batches_homogeneous lcg Example.solo Example.ds 2 2 0 0 true)
    as (s & share & Hinit & Hiter & _ & _ & Hunits & Hresumed);
    [exact lcg_lawful | lia | lia | simpl; lia | lia | vm_compute; reflexivity |].
  exists s, share. split; [exact Hinit|]. split.
  { assert (Hi : LuminaPickleSampler_init Example.solo Example.ds (Some 2) (Some 2)
                   true 0 true false
                 = Ok {| dataset := Example.ds; num_replicas := 1; rank := 0;
                         shuffle := true; seed := 0; micro_batch_size := 2;
                         acc_grad := 2; length_clustering := true;
                         allow_mixed_task_among_acc := false; epoch := 0;
                         start_iter := 0; total_size := 24; num_samples := 24 |})
      by (vm_compute; reflexivity).
    rewrite Hinit in Hi. injection Hi as ->. reflexivity. }
  split; [exact Hiter|]. split.
  - intros u Hu. now destruct (Hunits u Hu).
  - destruct (Hresumed 3 ltac:(lia)) as (stream & Hs & _ & Hu).
    exists stream. split; [exact Hs|].
    intros j Hj Hmod Hfit. now destruct (Hu j Hj Hmod Hfit).
Defined.

(** ** The unsupported non-shuffled path *)

(** C8.  With [shuffle = False] iterating the sampler always raises and
    yields no index; and whenever what precedes the shuffle test succeeds
    (a non-negative [seed + epoch], well-formed partitions, a non-zero
    [micro_batch_size * world_size * acc_grad]) the exception is
    [NotImplementedError], also through the batch wrapper, which yields
    no batch. *)
Theorem shuffle_false_unsupported (G : Generator) (s : LuminaPickleSampler) :
  shuffle s = false ->
  (exists err, LuminaPickleSampler_iter G s = Raise err) /\
  (lawful G ->
   0 <= seed s + epoch s ->
   forallb valid_meta (meta_list (dataset s)) = true ->
   micro_batch_size s * num_replicas s * acc_grad s <> 0 ->
   LuminaPickleSampler_iter G s = Raise NotImplementedError /\
   forall n mbs,
     LuminaPickleBatchSampler_iter G
       {| single_sampler := s; num_batches := n; batch_micro_batch_size := mbs |}
     = ([], Some NotImplementedError)).
Proof.
  intros Hsh. split.
  - unfold LuminaPickleSampler_iter, global_indices. rewrite Hsh.
    destruct (default_rng G (seed s + epoch s)) as [rng|err]; cbn [bind]; eauto.
    destruct (gather_groups G _ 0 rng []) as [[groups rng1]|err]; cbn [bind]; eauto.
    destruct (truncate_groups _ groups) as [tg|err]; cbn [bind]; eauto.
  - intros HG Hseed Hv HA.
    assert (Hiter : LuminaPickleSampler_iter G s = Raise NotImplementedError).
    { unfold LuminaPickleSampler_iter, global_indices, default_rng. rewrite Hsh.
      destruct (Z.ltb_spec (seed s + epoch s) 0); [lia|]. cbn [bind].
      destruct (gather_groups_spec G HG (type_of_index (meta_list (dataset s)) 0)
                  (meta_list (dataset s)) 0 (seed_rng G (seed s + epoch s)) [] Hv)
        as (groups & rng1 & _ & _ & Hg & _).
      { intros i _. reflexivity. }
      { repeat split; constructor. }
      rewrite Hg. cbn [bind]. rewrite truncate_groups_ok by assumption.
      reflexivity. }
    split; [exact Hiter|]. intros n mbs.
    unfold LuminaPickleBatchSampler_iter. cbn [single_sampler].
    rewrite Hiter. reflexivity.
Qed.

Lemma shuffle_false_unsupported_witness :
  LuminaPickleSampler_iter lcg Example.unshuffled = Raise NotImplementedError.
Proof.
  refine (proj1 (proj2 (shuffle_false_unsupported lcg Example.unshuffled eq_refl)
                  lcg_lawful _ _ _)).
  - simpl; lia.
  - vm_compute; reflexivity.
  - simpl; lia.
Defined.

(** ** Determinism *)




(** ** The batch wrapper *)

(** C1, evaluated where it fails.  Seven samples on one rank with
    [micro_batch_size = 2] and [acc_grad = 2]: the alignment keeps
    [total_size = 4], so the rank has [num_samples = 4] indices, two
    micro-batches; the wrapper, counting from the raw dataset length,
    reports [7 // 2 // 1 = 3], yields two micro-batches and then ends in
    [RuntimeError] when its third round finds the inner iterator
    exhausted. *)
Theorem batch_sampler_counts_raw_length :
  exists b,
    LuminaPickleBatchSampler_init {| world_size := 1; local_rank := 0 |} Example.seven
      2 (Some 2) true 0 true false = Ok b /\
    total_size (single_sampler b) = 4 /\
    num_samples (single_sampler b) / 2 = 2 /\
    LuminaPickleBatchSampler_len b = 3 /\
    LuminaPickleBatchSampler_iter lcg b = ([[2; 3]; [0; 1]], Some RuntimeError).
Proof.
  exists {| single_sampler :=
              {| dataset := Example.seven; num_replicas := 1; rank := 0;
                 shuffle := true; seed := 0; micro_batch_size := 2; acc_grad := 2;
                 length_clustering := true; allow_mixed_task_among_acc := false;
                 epoch := 0; start_iter := 0; total_size := 4; num_samples := 4 |};
            num_batches := 3; batch_micro_batch_size := 2 |}.
  split; [vm_compute; reflexivity|].
  split; [reflexivity|]. split; [reflexivity|]. split; [reflexivity|].
  vm_compute. reflexivity.
Qed.

(** * Further properties of the samplers *)

(** ** The sequential sampler's state *)

(** X1.  Snapshot and restore round-trip: loading the [state_dict] of a
    sampler [s] into any sampler [t] succeeds and gives [t]'s dataset and
    micro-count with [s]'s two counters; taking the [state_dict] again
    gives back the same snapshot; and [copy()], which goes through a fresh
    sampler with zeroed counters, returns a sampler equal to [s] in every
    field. *)
Theorem mocked_state_round_trip (s t : MockedSequentialBatchSampler) :
  MockedSequentialBatchSampler_load_state_dict t (MockedSequentialBatchSampler_state_dict s)
  = Loaded {| train_ds := train_ds t; micro_num := micro_num t;
              batch_count := batch_count s;
              num_consumed_samples_in_epoch := num_consumed_samples_in_epoch s |}
  /\ MockedSequentialBatchSampler_state_dict
       {| train_ds := train_ds t; micro_num := micro_num t;
          batch_count := batch_count s;
          num_consumed_samples_in_epoch := num_consumed_samples_in_epoch s |}
     = MockedSequentialBatchSampler_state_dict s
  /\ MockedSequentialBatchSampler_copy s = Loaded s.
Proof.
  split; [reflexivity|]. split; [reflexivity|].
  destruct s as [ds m bc n]. reflexivity.
Qed.

Lemma dict_get_Some_In {V} (k : string) (d : dict V) (v : V) :
  dict_get k d = Some v -> In k (keys d).
Proof.
  intros H. destruct (in_dec string_dec k (keys d)) as [Hin|Hout]; [exact Hin|].
  apply dict_get_None in Hout. congruence.
Qed.

(** X2.  Restoring from an arbitrary dictionary: the call ends normally
    exactly when both keys are present, and then the counters are the two
    values read (other keys are ignored); it never changes the dataset or
    the micro-count; when ["batch_count"] is missing the sampler is left
    untouched; and when only ["num_consumed_samples_in_epoch"] is missing
    the [KeyError] leaves a sampler whose [batch_count] is already
    overwritten while the other counter is the old one. *)
Theorem mocked_load_state_dict_cases (s : MockedSequentialBatchSampler)
    (states : dict Z) :
  let after := match MockedSequentialBatchSampler_load_state_dict s states with
               | Loaded s' | KeyError _ s' => s'
               end in
  train_ds after = train_ds s /\ micro_num after = micro_num s /\
  ((exists s', MockedSequentialBatchSampler_load_state_dict s states = Loaded s')
   <-> In "batch_count"%string (keys states)
       /\ In "num_consumed_samples_in_epoch"%string (keys states)) /\
  (forall bc n,
     dict_get "batch_count" states = Some bc ->
     dict_get "num_consumed_samples_in_epoch" states = Some n ->
     batch_count after = bc /\ num_consumed_samples_in_epoch after = n) /\
  (~ In "batch_count"%string (keys states) ->
   MockedSequentialBatchSampler_load_state_dict s states = KeyError "batch_count" s) /\
  (forall bc,
     dict_get "batch_count" states = Some bc ->
     ~ In "num_consumed_samples_in_epoch"%string (keys states) ->
     MockedSequentialBatchSampler_load_state_dict s states
     = KeyError "num_consumed_samples_in_epoch"
         {| train_ds := train_ds s; micro_num := micro_num s; batch_count := bc;
            num_consumed_samples_in_epoch := num_consumed_samples_in_epoch s |}).
Proof.
  unfold MockedSequentialBatchSampler_load_state_dict.
  destruct (dict_get "batch_count" states) as [bc|] eqn:Hbc;
    [destruct (dict_get "num_consumed_samples_in_epoch" states) as [n|] eqn:Hn|];
    cbn zeta; cbn [train_ds micro_num batch_count num_consumed_samples_in_epoch].
  - split; [reflexivity|]. split; [reflexivity|]. split; [|split; [|split]].
    + split; [intros _|eauto]. split; eapply dict_get_Some_In; eauto.
    + intros bc' n' H1 H2. inversion H1; inversion H2. auto.
    + intros H. apply dict_get_None in H. congruence.
    + intros bc' _ H. apply dict_get_None in H. congruence.
  - split; [reflexivity|]. split; [reflexivity|]. split; [|split; [|split]].
    + split; [intros [s' H]; discriminate|]. intros [_ H].
      apply dict_get_None in Hn. contradiction.
    + intros bc' n' _ H. discriminate.
    + intros H. apply dict_get_None in H. congruence.
    + intros bc' H _. inversion H. reflexivity.
  - split; [reflexivity|]. split; [reflexivity|]. split; [|split; [|split]].
    + split; [intros [s' H]; discriminate|]. intros [H _].
      apply dict_get_None in Hbc. contradiction.
    + intros bc' n' H. discriminate.
    + reflexivity.
    + intros bc' H. discriminate.
Qed.

(** ** The sequential sampler's iteration *)

Lemma mocked_iter_run (s : MockedSequentialBatchSampler) :
  0 <= dataset_len (train_ds s) -> 0 < micro_num s ->
  MockedSequentialBatchSampler_iter s
  = Ok (map (mocked_batch (dataset_len (train_ds s)) (micro_num s))
            (seq 0 (Z.to_nat ((dataset_len (train_ds s) + micro_num s - 1)
                              / micro_num s))),
        {| train_ds := train_ds s; micro_num := micro_num s;
           batch_count :=
             batch_count s
             + (dataset_len (train_ds s) + micro_num s - 1) / micro_num s;
           num_consumed_samples_in_epoch :=
             num_consumed_samples_in_epoch s + dataset_len (train_ds s) |}).
Proof.
  intros HN Hm.
  set (N := dataset_len (train_ds s)) in *. set (m := micro_num s) in *.
  set (c := Z.to_nat ((N + m - 1) / m)).
  pose proof (ceil_div_bounds N m Hm) as Hc.
  assert (Hc0 : 0 <= (N + m - 1) / m) by (apply Z.div_pos; lia).
  assert (Hlt : Forall (fun i => Z.of_nat i * m < N) (seq 0 c)).
  { apply Forall_forall. intros i Hi. apply in_seq in Hi. nia. }
  destruct (mocked_loop_spec N m (seq 0 c) s eq_refl eq_refl Hm Hlt)
    as (s' & Hloop & Hds & Hmn & Hbc & Hnc).
  unfold MockedSequentialBatchSampler_iter, Py.range3. fold N m.
  destruct (Z.eqb_spec m 0); [lia|]. cbn [bind].
  rewrite range_list_0 by lia. fold c. rewrite Hloop. do 2 f_equal.
  rewrite mocked_consumed_sum in Hnc by lia.
  unfold Py.len in Hbc. rewrite length_seq in Hbc.
  destruct s' as [ds' m' bc' n']. cbn in Hds, Hmn, Hbc, Hnc. subst.
  f_equal; lia.
Qed.

(** X3.  The sampler can be iterated again and again: on a dataset of
    [N >= 0] samples with [micro_num > 0] a second full iteration yields
    the same batches as the first, the counters go on accumulating (after
    two iterations they have advanced by twice the batch count and by
    [2 * N]; nothing resets them), and the batches do not depend on the
    counters at all: any sampler on that dataset with that micro-count,
    whatever state was loaded into it, yields them from index 0. *)
Theorem mocked_iteration_restarts (s : MockedSequentialBatchSampler) :
  0 <= dataset_len (train_ds s) -> 0 < micro_num s ->
  exists batches s1 s2,
    MockedSequentialBatchSampler_iter s = Ok (batches, s1) /\
    MockedSequentialBatchSampler_iter s1 = Ok (batches, s2) /\
    batch_count s2 = batch_count s + 2 * Py.len batches /\
    num_consumed_samples_in_epoch s2
    = num_consumed_samples_in_epoch s + 2 * dataset_len (train_ds s) /\
    (forall t, train_ds t = train_ds s -> micro_num t = micro_num s ->
       exists t', MockedSequentialBatchSampler_iter t = Ok (batches, t')).
Proof.
  intros HN Hm. pose proof (mocked_iter_run s HN Hm) as H1.
  set (N := dataset_len (train_ds s)) in *. set (m := micro_num s) in *.
  set (s1 := Build_MockedSequentialBatchSampler _ _ _ _) in H1.
  pose proof (mocked_iter_run s1 HN Hm) as H2.
  cbn [s1 train_ds micro_num batch_count num_consumed_samples_in_epoch] in H2.
  set (s2 := Build_MockedSequentialBatchSampler _ _ _ _) in H2.
  assert (Hc0 : 0 <= (N + m - 1) / m) by (apply Z.div_pos; lia).
  eexists _, s1, s2. split; [exact H1|]. split; [exact H2|].
  split; [|split].
  - unfold Py.len. rewrite length_map, length_seq.
    subst s2 N m. cbn [batch_count]. lia.
  - subst s2 N m. cbn [num_consumed_samples_in_epoch]. lia.
  - intros t Hds Hmn.
    assert (HN' : 0 <= dataset_len (train_ds t)) by (rewrite Hds; exact HN).
    assert (Hm' : 0 < micro_num t) by (rewrite Hmn; exact Hm).
    pose proof (mocked_iter_run t HN' Hm') as Ht.
    rewrite Hds, Hmn in Ht. eexists. exact Ht.
Qed.

Lemma mocked_iteration_restarts_witness :
  exists batches s1 s2,
    MockedSequentialBatchSampler_iter (MockedSequentialBatchSampler_init Example.mocked_ds 4)
    = Ok (batches, s1) /\
    MockedSequentialBatchSampler_iter s1 = Ok (batches, s2) /\
    batch_count s2 = 0 + 2 * Py.len batches.
Proof.
  destruct (mocked_iteration_restarts (MockedSequentialBatchSampler_init Example.mocked_ds 4))
    as (batches & s1 & s2 & H1 & H2 & H3 & _); [simpl; lia | simpl; lia |].
  exists batches, s1, s2. split; [exact H1|]. split; [exact H2 | exact H3].
Defined.

(** X4.  A micro-count that is not positive: with [micro_num = 0] the
    iteration raises [ValueError] (the zero [range] step) and [__len__]
    raises [ZeroDivisionError]; with [micro_num < 0] the iteration of a
    dataset of [N >= 0] samples yields no batch at all and leaves the
    counters as they were. *)
Theorem mocked_nonpositive_micro_num (s : MockedSequentialBatchSampler) :
  (micro_num s = 0 ->
   MockedSequentialBatchSampler_iter s = Raise ValueError /\
   MockedSequentialBatchSampler_len s = Raise ZeroDivisionError) /\
  (micro_num s < 0 -> 0 <= dataset_len (train_ds s) ->
   MockedSequentialBatchSampler_iter s = Ok ([], s)).
Proof.
  unfold MockedSequentialBatchSampler_iter, MockedSequentialBatchSampler_len,
    Py.range3, Py.floordiv.
  split.
  - intros ->. split; reflexivity.
  - intros Hm HN. destruct (Z.eqb_spec (micro_num s) 0); [lia|]. cbn [bind].
    unfold Py.range_list, Py.range_len.
    destruct (Z.ltb_spec 0 (micro_num s)); [lia|].
    destruct (Z.ltb_spec (micro_num s) 0); [|lia].
    destruct (Z.ltb_spec (dataset_len (train_ds s)) 0); [lia|]. reflexivity.
Qed.

Lemma mocked_nonpositive_micro_num_witness :
  MockedSequentialBatchSampler_iter (MockedSequentialBatchSampler_init Example.mocked_ds 0)
  = Raise ValueError /\
  MockedSequentialBatchSampler_iter (MockedSequentialBatchSampler_init Example.mocked_ds (-3))
  = Ok ([], MockedSequentialBatchSampler_init Example.mocked_ds (-3)).
Proof.
  split.
  - apply (proj1 (mocked_nonpositive_micro_num
                    (MockedSequentialBatchSampler_init Example.mocked_ds 0))).
    reflexivity.
  - apply (proj2 (mocked_nonpositive_micro_num
                    (MockedSequentialBatchSampler_init Example.mocked_ds (-3))));
      simpl; lia.
Defined.

(** X5.  Batch sizes: on a dataset of [N >= 0] samples with
    [micro_num > 0] no batch is empty and none has more than [micro_num]
    indices; the [i]-th batch has [min micro_num (N - i * micro_num)] of
    them, so every batch but the last has exactly [micro_num]. *)
Theorem mocked_batch_sizes (s : MockedSequentialBatchSampler)
    (batches : list (list Z)) (s' : MockedSequentialBatchSampler) :
  0 <= dataset_len (train_ds s) -> 0 < micro_num s ->
  MockedSequentialBatchSampler_iter s = Ok (batches, s') ->
  forall i, (i < length batches)%nat ->
    Py.len (nth i batches [])
    = Z.min (micro_num s) (dataset_len (train_ds s) - Z.of_nat i * micro_num s) /\
    1 <= Py.len (nth i batches []) <= micro_num s /\
    ((S i < length batches)%nat -> Py.len (nth i batches []) = micro_num s).
Proof.
  intros HN Hm Hiter i Hi. rewrite (mocked_iter_run s HN Hm) in Hiter.
  injection Hiter as Hb _. subst batches.
  set (N := dataset_len (train_ds s)) in *. set (m := micro_num s) in *.
  pose proof (ceil_div_bounds N m Hm) as Hc.
  assert (Hc0 : 0 <= (N + m - 1) / m) by (apply Z.div_pos; lia).
  rewrite length_map, length_seq in Hi |- *.
  rewrite nth_indep with (d' := mocked_batch N m 0%nat)
    by (rewrite length_map, length_seq; lia).
  rewrite map_nth, seq_nth by lia. cbn [Nat.add].
  unfold mocked_batch, Py.len. rewrite range2_length.
  assert (Hi' : Z.of_nat i * m < N) by nia.
  split; [lia|]. split; [lia|]. intros Hnext.
  assert ((Z.of_nat i + 1) * m < N) by nia. lia.
Qed.

Lemma mocked_batch_sizes_witness :
  Py.len (nth 2 [[0; 1; 2; 3]; [4; 5; 6; 7]; [8; 9]] [])
  = Z.min 4 (10 - Z.of_nat 2 * 4).
Proof.
  refine (proj1 (mocked_batch_sizes (MockedSequentialBatchSampler_init Example.mocked_ds 4)
                   [[0; 1; 2; 3]; [4; 5; 6; 7]; [8; 9]] _ _ _ _ 2%nat _)).
  - simpl; lia.
  - simpl; lia.
  - vm_compute. reflexivity.
  - simpl; lia.
Defined.

(** ** Construction *)

Lemma scaled_len_errors (meta : GroupMeta) (e : py_error) :
  scaled_len meta = Raise e -> e = OverflowError \/ e = ValueError.
Proof.
  unfold scaled_len, Py.float_of_int, Py.int_of_float.
  destruct (is_infinity _); cbn [bind]; [intros H; inversion H; auto|].
  destruct (Prim2SF _); intros H; inversion H; auto.
Qed.

Lemma count_groups_errors (metas : list GroupMeta) :
  forall d e, count_groups metas d = Raise e -> e = OverflowError \/ e = ValueError.
Proof.
  induction metas as [|meta metas IH]; intros d e H; [discriminate|].
  cbn [count_groups] in H. destruct (scaled_len meta) as [c|e'] eqn:Hc.
  - cbn [bind] in H. eauto.
  - cbn [bind] in H. inversion H; subst. eapply scaled_len_errors; eauto.
Qed.

Lemma align_groups_cases (A : Z) (d : dict Z) :
  align_groups A d
  = if (A =? 0) && negb (Nat.eqb (length d) 0) then Raise ZeroDivisionError
    else Ok (map_values (fun v => v / A * A) d).
Proof.
  destruct (Z.eqb_spec A 0) as [->|HA]; cbn [andb].
  - destruct d as [|[k v] d]; reflexivity.
  - now apply align_groups_nonzero.
Qed.

(** X6.  The divisibility check of [__init__] (line 96) can never fail:
    whenever the per-group lengths have been computed, [total_size] is a
    multiple of [micro_batch_size * world_size * acc_grad]; so with both
    sizes given construction never raises [AssertionError], and as soon
    as the group lengths are computed and [world_size] is not zero it
    succeeds, with [num_samples * world_size = total_size]. *)
Theorem init_divisibility_never_fails (gpc : ParallelContext) (ds : Dataset)
    (mbs acc : Z) (sh : bool) (sd : Z) (lc mixed : bool) :
  LuminaPickleSampler_init gpc ds (Some mbs) (Some acc) sh sd lc mixed
  <> Raise AssertionError /\
  (forall group_len,
     aligned_group_len (world_size gpc) (meta_list ds) mbs acc = Ok group_len ->
     (exists B, Py.sum (values group_len) = B * (mbs * world_size gpc * acc)) /\
     (world_size gpc <> 0 ->
      exists s,
        LuminaPickleSampler_init gpc ds (Some mbs) (Some acc) sh sd lc mixed = Ok s /\
        total_size s = Py.sum (values group_len) /\
        num_samples s * world_size gpc = total_size s)).
Proof.
  assert (Hmain : forall gl,
            aligned_group_len (world_size gpc) (meta_list ds) mbs acc = Ok gl ->
            exists B, Py.sum (values gl) = B * (mbs * world_size gpc * acc)).
  { intros gl H. unfold aligned_group_len in H.
    apply bind_ok in H. destruct H as (cg & _ & H). apply align_groups_ok in H.
    subst gl. rewrite values_map_values. apply sum_aligned. }
  assert (Hmod : forall gl,
            aligned_group_len (world_size gpc) (meta_list ds) mbs acc = Ok gl ->
            world_size gpc <> 0 ->
            Py.sum (values gl) mod world_size gpc = 0).
  { intros gl H Hw. destruct (Hmain gl H) as [B ->].
    replace (B * (mbs * world_size gpc * acc)) with (B * mbs * acc * world_size gpc) by lia.
    now apply Z.mod_mul. }
  split.
  - unfold LuminaPickleSampler_init.
    destruct (aligned_group_len (world_size gpc) (meta_list ds) mbs acc)
      as [gl|e] eqn:Hgl; cbn [bind].
    + unfold Py.modulo, Py.floordiv.
      destruct (Z.eqb_spec (world_size gpc) 0) as [|Hw]; [discriminate|].
      cbn [bind]. rewrite (Hmod gl eq_refl Hw). discriminate.
    + unfold aligned_group_len in Hgl.
      destruct (count_groups (meta_list ds) []) as [cg|e'] eqn:Hcg; cbn [bind] in Hgl.
      * rewrite align_groups_cases in Hgl.
        destruct ((_ =? 0) && _); inversion Hgl. discriminate.
      * inversion Hgl; subst. apply count_groups_errors in Hcg.
        destruct Hcg as [-> | ->]; discriminate.
  - intros gl Hgl. split; [now apply Hmain|]. intros Hw.
    unfold LuminaPickleSampler_init. rewrite Hgl. cbn [bind].
    unfold Py.modulo, Py.floordiv.
    destruct (Z.eqb_spec (world_size gpc) 0); [contradiction|]. cbn [bind].
    rewrite (Hmod gl Hgl Hw). cbn [Z.eqb py_assert bind].
    eexists. split; [reflexivity|]. cbn [total_size num_samples].
    split; [reflexivity|].
    pose proof (Z.div_mod (Py.sum (values gl)) (world_size gpc) Hw) as Hd.
    rewrite (Hmod gl Hgl Hw) in Hd. lia.
Qed.

(** X7.  A zero [micro_batch_size * world_size * acc_grad]: when the
    per-partition counts can be computed, construction raises
    [ZeroDivisionError] in every case but one, the dataset without
    partitions on a non-zero [world_size], where it succeeds with
    [total_size = 0] and [num_samples = 0]. *)
Theorem init_zero_batch (gpc : ParallelContext) (ds : Dataset) (mbs acc : Z)
    (sh : bool) (sd : Z) (lc mixed : bool) (counts : list Z) :
  mbs * world_size gpc * acc = 0 ->
  Forall2 (fun meta c => scaled_len meta = Ok c) (meta_list ds) counts ->
  (meta_list ds <> [] \/ world_size gpc = 0 ->
   LuminaPickleSampler_init gpc ds (Some mbs) (Some acc) sh sd lc mixed
   = Raise ZeroDivisionError) /\
  (meta_list ds = [] -> world_size gpc <> 0 ->
   exists s,
     LuminaPickleSampler_init gpc ds (Some mbs) (Some acc) sh sd lc mixed = Ok s /\
     total_size s = 0 /\ num_samples s = 0).
Proof.
  intros HA Hcounts.
  unfold LuminaPickleSampler_init, aligned_group_len.
  rewrite (count_groups_tally _ _ Hcounts). cbn [bind].
  rewrite align_groups_cases, HA. cbn [Z.eqb andb].
  destruct (meta_list ds) as [|meta metas] eqn:Hm.
  - inversion Hcounts; subst. cbn. split.
    + intros [H|H]; [contradiction|]. unfold Py.modulo. rewrite H. reflexivity.
    + intros _ Hw. unfold Py.modulo, Py.floordiv.
      destruct (Z.eqb_spec (world_size gpc) 0); [contradiction|].
      cbn. eexists. split; [reflexivity|]. cbn. split; reflexivity.
  - inversion Hcounts as [|? c ? counts' Hc Hrest]; subst.
    assert (Hne : length (tally (combine (map meta_type (meta :: metas)) (c :: counts')) [])
                  <> 0%nat).
    { assert (Hin : In (meta_type meta)
                       (keys (tally (combine (map meta_type (meta :: metas)) (c :: counts')) []))).
      { apply keys_tally_In. right. cbn. now left. }
      destruct (tally _ _); [contradiction|]. cbn. lia. }
    apply Nat.eqb_neq in Hne. rewrite Hne. cbn. split; [reflexivity|].
    intros H. discriminate.
Qed.

Lemma init_zero_batch_witness :
  LuminaPickleSampler_init (Example.gpc 0) Example.ds (Some 2) (Some 0) true 0 true false
  = Raise ZeroDivisionError.
Proof.
  refine (proj1 (init_zero_batch (Example.gpc 0) Example.ds 2 0 true 0 true false
                   [13; 5; 7] _ _) _).
  - reflexivity.
  - repeat constructor.
  - left. discriminate.
Defined.

Lemma init_divisibility_never_fails_witness :
  exists s,
    LuminaPickleSampler_init (Example.gpc 0) Example.ds (Some 2) (Some 1) true 0 true false
    = Ok s /\
    total_size s = 24 /\ num_samples s * 2 = total_size s.
Proof.
  refine (proj2 (proj2 (init_divisibility_never_fails (Example.gpc 0) Example.ds 2 1
                          true 0 true false)
                   [("text"%string, 20); ("image"%string, 4)] _) _).
  - vm_compute. reflexivity.
  - simpl; lia.
Defined.

Lemma sum_values_upd (k : string) (c : Z) (d : dict Z) :
  Py.sum (values (dict_upd k (fun v => v + c) 0 d)) = Py.sum (values d) + c.
Proof.
  induction d as [|[k' v] d IH]; cbn [dict_upd].
  - cbn [values map snd]. rewrite sum_cons. unfold Py.sum. cbn. lia.
  - unfold values in *.
    destruct (String.eqb k k'); cbn [map snd fst]; rewrite !sum_cons;
      [|rewrite IH]; lia.
Qed.

Lemma sum_values_tally (tc : list (string * Z)) :
  forall d, Py.sum (values (tally tc d)) = Py.sum (values d) + Py.sum (map snd tc).
Proof.
  induction tc as [|[k c] tc IH]; intros d.
  - cbn [tally fold_left map]. change (Py.sum []) with 0. lia.
  - change (tally ((k, c) :: tc) d)
      with (tally tc (dict_upd k (fun v => v + c) 0 d)).
    rewrite IH, sum_values_upd. cbn [map snd]. rewrite sum_cons. lia.
Qed.

Lemma snd_combine {A B} (xs : list A) (ys : list B) :
  length xs = length ys -> map snd (combine xs ys) = ys.
Proof.
  revert ys. induction xs as [|x xs IH]; intros [|y ys] H; simpl in *;
    try discriminate; auto.
  f_equal. apply IH. lia.
Qed.

Lemma sum_alignment_loss (A : Z) (l : list Z) :
  0 < A ->
  0 <= Py.sum l - Py.sum (map (fun v => v / A * A) l) <= (A - 1) * Py.len l.
Proof.
  intros HA. induction l as [|v l IH].
  - cbn. lia.
  - cbn [map]. rewrite !sum_cons. unfold Py.len in *. cbn [length].
    pose proof (Z.mod_pos_bound v A HA) as Hm.
    pose proof (Z.div_mod v A ltac:(lia)) as Hd. nia.
Qed.

(** X8.  What alignment costs: with
    [A = micro_batch_size * world_size * acc_grad > 0] and [c_i] the
    per-partition counts [int(len_i * ratio_i)], every aligned group
    length is a multiple of [A] that falls short of the group's counted
    samples by less than [A], and [total_size] falls short of the sum of
    all the counts by at most [A - 1] per group; it never exceeds it. *)
Theorem alignment_loss_bound (gpc : ParallelContext) (ds : Dataset) (mbs acc : Z)
    (sh : bool) (sd : Z) (lc mixed : bool) (s : LuminaPickleSampler) :
  0 < mbs * world_size gpc * acc ->
  LuminaPickleSampler_init gpc ds (Some mbs) (Some acc) sh sd lc mixed = Ok s ->
  exists counts group_len,
    Forall2 (fun meta c => scaled_len meta = Ok c) (meta_list ds) counts /\
    aligned_group_len (world_size gpc) (meta_list ds) mbs acc = Ok group_len /\
    (forall g v, dict_get g group_len = Some v ->
       v mod (mbs * world_size gpc * acc) = 0 /\
       v <= group_sum g (combine (map meta_type (meta_list ds)) counts)
         < v + mbs * world_size gpc * acc) /\
    0 <= Py.sum counts - total_size s
      <= (mbs * world_size gpc * acc - 1) * Py.len group_len.
Proof.
  intros HA H. apply init_ok in H.
  destruct H as (m & a & gl & Hm & Ha & Hgl & _ & _ & Hs).
  inversion Hm; inversion Ha; subst m a. clear Hm Ha.
  set (A := mbs * world_size gpc * acc) in *.
  pose proof Hgl as Hgl'. unfold aligned_group_len in Hgl'.
  apply bind_ok in Hgl'. destruct Hgl' as (cg & Hcg & Hal).
  destruct (count_groups_ok _ _ _ Hcg) as (counts & Hcounts).
  rewrite (count_groups_tally _ _ Hcounts) in Hcg. inversion Hcg as [Hcg'].
  fold A in Hal. apply align_groups_ok in Hal.
  assert (Hlen : length (map meta_type (meta_list ds)) = length counts).
  { rewrite length_map. eapply Forall2_length; eauto. }
  exists counts, gl. split; [exact Hcounts|]. split; [exact Hgl|]. split.
  - intros g v Hv. rewrite Hal, dict_get_map_values, <- Hcg', dict_get_tally in Hv.
    replace (dict_get g []) with (@None Z) in Hv by reflexivity.
    rewrite fst_combine in Hv by assumption.
    destruct (existsb _ _); [|discriminate]. cbn in Hv. inversion Hv as [Hv'].
    set (raw := group_sum g (combine (map meta_type (meta_list ds)) counts)).
    pose proof (Z.mod_pos_bound raw A HA) as Hb.
    pose proof (Z.div_mod raw A ltac:(lia)) as Hd.
    split; [apply Z.mod_mul; lia | lia].
  - rewrite Hs. cbn [total_size]. rewrite Hal, values_map_values.
    pose proof (sum_alignment_loss A (values cg) HA) as Hloss.
    assert (Hsum : Py.sum (values cg) = Py.sum counts).
    { rewrite <- Hcg', sum_values_tally, snd_combine by assumption.
      change (Py.sum (values [])) with 0. lia. }
    rewrite Hsum in Hloss.
    replace (Py.len (map_values (fun v => v / A * A) cg)) with (Py.len (values cg)).
    + exact Hloss.
    + unfold Py.len, values, map_values. now rewrite !length_map.
Qed.

Lemma alignment_loss_bound_witness :
  exists counts group_len,
    Forall2 (fun meta c => scaled_len meta = Ok c) (meta_list Example.ds) counts /\
    aligned_group_len 2 (meta_list Example.ds) 2 1 = Ok group_len /\
    0 <= Py.sum counts - 24 <= (2 * 2 * 1 - 1) * Py.len group_len.
Proof.
  destruct (alignment_loss_bound (Example.gpc 0) Example.ds 2 1 true 0 true false
              (Example.sampler 0))
    as (counts & gl & Hc & Hgl & _ & Hloss); [simpl; lia | reflexivity |].
  exists counts, gl. split; [exact Hc|]. split; [exact Hgl | exact Hloss].
Defined.

(** ** Seed, epoch and resume *)

(** X9.  The seed and the epoch enter [__iter__] only through their sum
    (line 102): two samplers constructed alike but for their seeds, and
    set to epochs with [seed1 + epoch1 = seed2 + epoch2], compute the same
    global sequence and yield the same indices (seed 1 at epoch 0 is seed
    0 at epoch 1); and when the sum is negative the iteration raises
    [ValueError]. *)
Theorem seed_epoch_only_through_sum (G : Generator) (gpc : ParallelContext)
    (ds : Dataset) (mbs acc : option Z) (sh : bool) (sd1 sd2 : Z) (lc mixed : bool)
    (s1 s2 : LuminaPickleSampler) (e1 e2 k : Z) :
  LuminaPickleSampler_init gpc ds mbs acc sh sd1 lc mixed = Ok s1 ->
  LuminaPickleSampler_init gpc ds mbs acc sh sd2 lc mixed = Ok s2 ->
  sd1 + e1 = sd2 + e2 ->
  global_indices G (set_epoch s1 e1 k) = global_indices G (set_epoch s2 e2 k) /\
  LuminaPickleSampler_iter G (set_epoch s1 e1 k)
  = LuminaPickleSampler_iter G (set_epoch s2 e2 k) /\
  (sd1 + e1 < 0 -> LuminaPickleSampler_iter G (set_epoch s1 e1 k) = Raise ValueError).
Proof.
  intros H1 H2 Hsum.
  apply init_ok in H1. destruct H1 as (m1 & a1 & gl1 & Hm1 & Ha1 & Hgl1 & _ & _ & Hs1).
  apply init_ok in H2. destruct H2 as (m2 & a2 & gl2 & Hm2 & Ha2 & Hgl2 & _ & _ & Hs2).
  rewrite Hm1 in Hm2. inversion Hm2. subst m2.
  rewrite Ha1 in Ha2. inversion Ha2. subst a2.
  rewrite Hgl2 in Hgl1. inversion Hgl1. subst gl2.
  assert (Hglobal : global_indices G (set_epoch s1 e1 k)
                    = global_indices G (set_epoch s2 e2 k)).
  { subst s1 s2. unfold global_indices.
    cbn [set_epoch dataset seed epoch micro_batch_size num_replicas acc_grad
         shuffle allow_mixed_task_among_acc total_size].
    rewrite Hsum. reflexivity. }
  split; [exact Hglobal|]. split.
  - unfold LuminaPickleSampler_iter. rewrite Hglobal. subst s1 s2. reflexivity.
  - intros Hneg. unfold LuminaPickleSampler_iter, global_indices, default_rng.
    subst s1. cbn [set_epoch seed epoch].
    destruct (Z.ltb_spec (sd1 + e1) 0); [reflexivity|lia].
Qed.

Lemma seed_epoch_only_through_sum_witness :
  LuminaPickleSampler_iter lcg (set_epoch (Example.sampler 1) 1 0)
  = LuminaPickleSampler_iter lcg
      (set_epoch {| dataset := Example.ds; num_replicas := 2; rank := 1;
                    shuffle := true; seed := 1; micro_batch_size := 2; acc_grad := 1;
                    length_clustering := true; allow_mixed_task_among_acc := false;
                    epoch := 0; start_iter := 0; total_size := 24;
                    num_samples := 12 |} 0 0).
Proof.
  assert (H1 : LuminaPickleSampler_init (Example.gpc 1) Example.ds (Some 2) (Some 1)
                 true 0 true false = Ok (Example.sampler 1))
    by (vm_compute; reflexivity).
  assert (H2 : LuminaPickleSampler_init (Example.gpc 1) Example.ds (Some 2) (Some 1)
                 true 1 true false
               = Ok {| dataset := Example.ds; num_replicas := 2; rank := 1;
                       shuffle := true; seed := 1; micro_batch_size := 2;
                       acc_grad := 1; length_clustering := true;
                       allow_mixed_task_among_acc := false; epoch := 0;
                       start_iter := 0; total_size := 24; num_samples := 12 |})
    by (vm_compute; reflexivity).
  exact (proj1 (proj2 (seed_epoch_only_through_sum lcg (Example.gpc 1) Example.ds
                         (Some 2) (Some 1) true 0 1 true false _ _ 1 0 0
                         H1 H2 eq_refl))).
Defined.

(** X10.  What a resumed iterator holds: for a positive micro-batch
    size and [start_iter = k >= 0], an iteration that succeeds yields
    exactly [max 0 (num_samples - k * micro_batch_size)] indices, while
    [__len__] goes on reporting [num_samples], whatever [set_epoch] was
    given. *)
Theorem resumed_stream_length (G : Generator) (s : LuminaPickleSampler) (e k : Z)
    (stream : list Z) :
  0 < micro_batch_size s -> 0 <= k ->
  LuminaPickleSampler_iter G (set_epoch s e k) = Ok stream ->
  Py.len stream = Z.max 0 (num_samples s - k * micro_batch_size s) /\
  LuminaPickleSampler_len (set_epoch s e k) = num_samples s.
Proof.
  intros Hm Hk Hiter. split; [|reflexivity].
  rewrite iter_resumed in Hiter by assumption.
  destruct (unresumed G (set_epoch s e 0)) as [own|] eqn:Hown; [|discriminate].
  apply unresumed_length in Hown. cbn [num_samples set_epoch] in Hown.
  cbn [result_map] in Hiter. inversion Hiter.
  unfold Py.len in *. rewrite length_skipn. lia.
Qed.

Lemma resumed_stream_length_witness :
  Py.len [4; 8; 0; 27; 6; 29; 3; 28] = Z.max 0 (12 - 2 * 2).
Proof.
  refine (proj1 (resumed_stream_length lcg (Example.sampler 0) 0 2
                   [4; 8; 0; 27; 6; 29; 3; 28] _ _ _)).
  - simpl; lia.
  - lia.
  - vm_compute. reflexivity.
Defined.

(** ** The stride of a rank *)

(** X11.  The fixed-stride extraction of lines 180-182, for positive
    [micro_batch_size] and [world_size], [0 <= rank < world_size] and a
    global sequence of [B] global batches ([B * world_size *
    micro_batch_size] indices): the share has [B * micro_batch_size]
    indices, and its [j]-th micro-batch is the [rank]-th micro-batch of
    the [j]-th global batch, that is the slice of the global sequence
    from [j * world_size * micro_batch_size + rank * micro_batch_size]
    on. *)
Theorem own_indices_stride (s : LuminaPickleSampler) (indices : list Z) (B : nat) :
  0 < micro_batch_size s -> 0 < num_replicas s -> 0 <= rank s < num_replicas s ->
  Py.len indices = Z.of_nat B * (num_replicas s * micro_batch_size s) ->
  exists own,
    own_indices s indices = Ok own /\
    Py.len own = Z.of_nat B * micro_batch_size s /\
    forall j, 0 <= j < Z.of_nat B ->
      Py.slice own (Some (j * micro_batch_size s))
                   (Some (j * micro_batch_size s + micro_batch_size s))
      = Py.slice indices
          (Some (j * (num_replicas s * micro_batch_size s)
                 + rank s * micro_batch_size s))
          (Some (j * (num_replicas s * micro_batch_size s)
                 + rank s * micro_batch_size s + micro_batch_size s)).
Proof.
  intros Hm Hw Hr Hlen.
  set (m := micro_batch_size s) in *. set (w := num_replicas s) in *.
  assert (Hlen' : length indices = (B * Z.to_nat (w * m))%nat)
    by (unfold Py.len in Hlen; nia).
  set (row := fun j => piece m w indices j (Z.to_nat (rank s))).
  set (rows := map row (seq 0 B)).
  assert (Hrows : Forall (fun b => length b = Z.to_nat m) rows).
  { unfold rows. apply Forall_map, Forall_forall. intros j Hj. apply in_seq in Hj.
    apply (piece_length m w Hm Hw indices B); [assumption | lia | lia]. }
  exists (concat rows). split; [|split].
  - apply (own_indices_rows m w Hm Hw); auto.
  - unfold Py.len. rewrite (concat_length_exact (Z.to_nat m)) by assumption.
    unfold rows. rewrite length_map, length_seq. lia.
  - intros j Hj. rewrite !slice_sub by nia.
    replace (Z.to_nat (j * m)) with (Z.to_nat j * Z.to_nat m)%nat by nia.
    rewrite (sub_concat (Z.to_nat m) rows (Z.to_nat j) Hrows)
      by (unfold rows; rewrite length_map, length_seq; lia).
    unfold rows. rewrite nth_indep with (d' := row 0%nat)
      by (rewrite length_map, length_seq; lia).
    rewrite map_nth, seq_nth by lia. cbn [Nat.add].
    unfold row, piece. f_equal. nia.
Qed.

Lemma own_indices_stride_witness :
  exists own,
    own_indices (Example.sampler 1) [10; 11; 12; 13; 14; 15; 16; 17] = Ok own /\
    Py.len own = Z.of_nat 2 * 2.
Proof.
  destruct (own_indices_stride (Example.sampler 1) [10; 11; 12; 13; 14; 15; 16; 17] 2)
    as (own & Hown & Hlen & _); [simpl; lia | simpl; lia | simpl; lia | reflexivity |].
  exists own. split; [exact Hown | exact Hlen].
Defined.

(** X12.  On a single replica ([world_size = 1], rank 0) with a positive
    micro-batch size the extraction of lines 180-182 keeps everything:
    the share is the global sequence itself, in order, whatever its
    length. *)
Theorem own_indices_single_replica (s : LuminaPickleSampler) (indices : list Z) :
  0 < micro_batch_size s -> num_replicas s = 1 -> rank s = 0 ->
  own_indices s indices = Ok indices.
Proof.
  intros Hm Hw Hr. unfold own_indices. rewrite Hw, Hr, Z.mul_0_l, Z.mul_1_l.
  destruct (range3_slices indices (micro_batch_size s) Hm) as (positions & Hp & Hcat).
  rewrite Hp. cbn [bind]. rewrite fold_left_app_concat. cbn [app].
  now rewrite Hcat.
Qed.

Lemma own_indices_single_replica_witness :
  own_indices
    {| dataset := Example.seven; num_replicas := 1; rank := 0; shuffle := true;
       seed := 0; micro_batch_size := 2; acc_grad := 2; length_clustering := true;
       allow_mixed_task_among_acc := false; epoch := 0; start_iter := 0;
       total_size := 4; num_samples := 4 |} [5; 3; 1]
  = Ok [5; 3; 1].
Proof.
  apply own_indices_single_replica; [simpl; lia | reflexivity | reflexivity].
Defined.

(** ** The batch wrapper's loop *)

Lemma take_next_spec (n : nat) (it : list Z) :
  take_next n it
  = if (n <=? length it)%nat then Some (firstn n it, skipn n it) else None.
Proof.
  revert it. induction n as [|n IH]; intros it; [reflexivity|].
  destruct it as [|x it]; [reflexivity|].
  cbn [take_next length firstn skipn]. rewrite IH.
  change (S n <=? S (length it))%nat with (n <=? length it)%nat.
  destruct (n <=? length it)%nat; reflexivity.
Qed.

Lemma chunks_shift {A} (n c : nat) (l : list A) :
  chunks n (S c) l = firstn n l :: chunks n c (skipn n l).
Proof.
  unfold chunks. cbn [seq map]. f_equal.
  rewrite <- seq_shift, map_map. apply map_ext. intros i.
  unfold sub. rewrite skipn_skipn. do 2 f_equal. lia.
Qed.

Lemma batch_loop_spec (mbs : Z) (count : nat) :
  0 < mbs ->
  forall it,
    batch_loop count mbs it
    = if (count * Z.to_nat mbs <=? length it)%nat
      then (chunks (Z.to_nat mbs) count it, None)
      else (chunks (Z.to_nat mbs) (length it / Z.to_nat mbs) it, Some RuntimeError).
Proof.
  intros Hm. set (m := Z.to_nat mbs). assert (Hm' : (0 < m)%nat) by (unfold m; lia).
  induction count as [|count IH]; intros it; [reflexivity|].
  cbn [batch_loop]. fold m. rewrite take_next_spec.
  destruct (Nat.leb_spec m (length it)) as [Hle|Hgt].
  - rewrite IH, length_skipn.
    assert (Hdiv : (length it / m = S ((length it - m) / m))%nat).
    { replace (length it) with (length it - m + 1 * m)%nat at 1 by lia.
      rewrite Nat.div_add by lia. lia. }
    destruct (Nat.leb_spec (count * m) (length it - m));
      destruct (Nat.leb_spec (S count * m) (length it)); try lia.
    + now rewrite chunks_shift.
    + now rewrite Hdiv, chunks_shift.
  - destruct (Nat.leb_spec (S count * m) (length it)); [lia|].
    now rewrite Nat.div_small.
Qed.

(** X13.  What the wrapper's generator does with the stream of the inner
    sampler (lines 31-35), for a positive micro-batch size: it cuts the
    stream into consecutive runs of [micro_batch_size] indices; when the
    stream holds [num_batches] full runs it yields exactly [num_batches]
    of them and ends normally, leaving any rest of the stream unread;
    otherwise it yields the full runs the stream holds and then ends in
    [RuntimeError].  Every batch yielded has exactly [micro_batch_size]
    indices. *)
Theorem batch_wrapper_outcome (G : Generator) (b : LuminaPickleBatchSampler)
    (stream : list Z) :
  0 < batch_micro_batch_size b ->
  LuminaPickleSampler_iter G (single_sampler b) = Ok stream ->
  (Z.of_nat (Z.to_nat (num_batches b)) * batch_micro_batch_size b <= Py.len stream ->
   LuminaPickleBatchSampler_iter G b
   = (chunks (Z.to_nat (batch_micro_batch_size b)) (Z.to_nat (num_batches b)) stream,
      None)) /\
  (Py.len stream < Z.of_nat (Z.to_nat (num_batches b)) * batch_micro_batch_size b ->
   LuminaPickleBatchSampler_iter G b
   = (chunks (Z.to_nat (batch_micro_batch_size b))
             (Z.to_nat (Py.len stream / batch_micro_batch_size b)) stream,
      Some RuntimeError)) /\
  Forall (fun batch => Py.len batch = batch_micro_batch_size b)
         (fst (LuminaPickleBatchSampler_iter G b)).
Proof.
  intros Hm Hiter. unfold LuminaPickleBatchSampler_iter. rewrite Hiter.
  rewrite batch_loop_spec by assumption.
  set (m := Z.to_nat (batch_micro_batch_size b)).
  set (n := Z.to_nat (num_batches b)).
  assert (Hm' : (0 < m)%nat) by (unfold m; lia).
  assert (Hdiv : Z.to_nat (Py.len stream / batch_micro_batch_size b)
                 = (length stream / m)%nat).
  { unfold Py.len, m. rewrite <- (Z2Nat.id (batch_micro_batch_size b)) at 1 by lia.
    rewrite <- Nat2Z.inj_div. lia. }
  assert (Hfull : forall c, (c * m <= length stream)%nat ->
            Forall (fun batch => Py.len batch = batch_micro_batch_size b)
                   (chunks m c stream)).
  { intros c Hc. unfold chunks. apply Forall_map, Forall_forall. intros i Hi.
    apply in_seq in Hi. unfold Py.len. rewrite sub_length by nia. unfold m. lia. }
  destruct (Nat.leb_spec (n * m) (length stream)) as [Hle|Hgt].
  - split; [intros _; reflexivity|]. split.
    + intros H. unfold Py.len in H. unfold n, m in Hle. nia.
    + cbn [fst]. now apply Hfull.
  - split; [intros H; unfold Py.len in H; unfold n, m in Hgt; nia|]. split.
    + intros _. now rewrite Hdiv.
    + cbn [fst]. apply Hfull.
      pose proof (Nat.div_mod_eq (length stream) m). nia.
Qed.

Lemma batch_wrapper_outcome_witness :
  LuminaPickleBatchSampler_iter lcg
    {| single_sampler := Example.sampler 0; num_batches := 7;
       batch_micro_batch_size := 2 |}
  = (chunks 2 6 [17; 21; 23; 12; 4; 8; 0; 27; 6; 29; 3; 28], Some RuntimeError).
Proof.
  refine (proj1 (proj2 (batch_wrapper_outcome lcg
                          {| single_sampler := Example.sampler 0; num_batches := 7;
                             batch_micro_batch_size := 2 |}
                          [17; 21; 23; 12; 4; 8; 0; 27; 6; 29; 3; 28] _ _)) _).
  - simpl; lia.
  - vm_compute. reflexivity.
  - vm_compute. reflexivity.
Defined.

(** ** Mixed accumulation units (lines 155-160) *)

Lemma mixed_batches_units (label : Z -> option string) (gbs acc : Z)
    (group_indices : dict (list Z)) :
  0 < gbs ->
  Forall (batchable label gbs acc) group_indices ->
  exists batches,
    mixed_batches gbs group_indices = Ok batches /\
    concat batches = concat (values group_indices) /\
    Forall (unit_of label (Z.to_nat gbs)) batches.
Proof.
  intros Hgbs.
  induction 1 as [|[k indices] rest [[q Hq] Hlab] _ (r & Hr & Hcat & Hunits)].
  - exists []. repeat split; constructor.
  - cbn [fst snd] in *.
    assert (Hlen : length indices = ((q * Z.to_nat acc) * Z.to_nat gbs)%nat) by lia.
    exists (chunks (Z.to_nat gbs) (q * Z.to_nat acc) indices ++ r).
    split; [|split].
    + cbn [mixed_batches]. rewrite (batched_exact indices gbs _ Hgbs Hlen), Hr.
      reflexivity.
    + rewrite concat_app, Hcat. cbn [values map snd concat]. f_equal.
      apply concat_chunks_all. lia.
    + apply Forall_app. split; [|exact Hunits].
      pose proof (chunks_exact (Z.to_nat gbs) (q * Z.to_nat acc) indices) as Hex.
      pose proof (chunks_incl (Z.to_nat gbs) (q * Z.to_nat acc) indices) as Hin.
      rewrite Forall_forall in *. intros b Hb. split.
      * apply Hex; [lia | exact Hb].
      * exists k. apply Forall_forall. intros i Hi. apply Hlab.
        apply (Hin b Hb). exact Hi.
Qed.

Lemma global_indices_mixed (G : Generator) (HG : lawful G) (s : LuminaPickleSampler)
    (group_len : dict Z) :
  shuffle s = true ->
  0 < micro_batch_size s -> 0 < num_replicas s -> 0 < acc_grad s ->
  0 <= seed s + epoch s ->
  forallb valid_meta (meta_list (dataset s)) = true ->
  aligned_group_len (num_replicas s) (meta_list (dataset s))
                    (micro_batch_size s) (acc_grad s) = Ok group_len ->
  total_size s = Py.sum (values group_len) ->
  allow_mixed_task_among_acc s = true ->
  exists batches,
    global_indices G s = Ok (concat batches) /\
    Forall (unit_of (type_of_index (meta_list (dataset s)) 0)
                    (Z.to_nat (micro_batch_size s * num_replicas s)))
           batches.
Proof.
  intros Hsh Hmbs Hws Hacc Hseed Hv Hgl Htot Hmixed.
  destruct (ordered_groups_exist G HG s group_len Hmbs Hws Hacc Hseed Hv Hgl)
    as (rng0 & groups & rng1 & og & rng2 & Hrng & Hgather & Horder & Hnd & Hbat & Hlens).
  assert (Hgbs : 0 < micro_batch_size s * num_replicas s) by nia.
  destruct (mixed_batches_units _ _ _ og Hgbs Hbat) as (b & Hb & Hcat & Hunits).
  pose proof (rng_shuffle_perm G HG rng2 b) as Hfinal.
  destruct (rng_shuffle rng2 b) as [shuffled rng3] eqn:Hshuf.
  cbn [fst] in Hfinal.
  assert (Hlen : Py.len (concat shuffled) = total_size s).
  { unfold Py.len. rewrite (Permutation_length (Permutation_concat _ _ Hfinal)), Hcat.
    fold (Py.len (concat (values og))).
    rewrite len_concat, Htot, <- Hlens, values_map_values. reflexivity. }
  exists shuffled. split.
  - unfold global_indices.
    rewrite Hrng. cbn [bind]. rewrite Hgather. cbn [bind].
    rewrite truncate_groups_ok by nia. cbn [bind]. rewrite Hsh, Horder.
    cbn [bind]. rewrite Hmixed, Hb. cbn [bind]. rewrite Hshuf. cbn [bind].
    rewrite Hlen, Z.eqb_refl. reflexivity.
  - apply (Permutation_Forall (Permutation_sym Hfinal)). exact Hunits.
Qed.

(** X14.  With [allow_mixed_task_among_acc = True] the micro-batches stay
    homogeneous: for a valid configuration, on any rank and for every
    [start_iter = k >= 0], the stream is produced and every run of
    [micro_batch_size] consecutive indices of it that is cut at a
    multiple of [micro_batch_size] has its indices in one group. *)
Theorem mixed_micro_batches_homogeneous (G : Generator) (gpc : ParallelContext)
    (ds : Dataset) (mbs acc sd e : Z) (lc : bool) :
  lawful G ->
  0 < mbs -> 0 < acc -> 0 <= local_rank gpc < world_size gpc -> 0 <= sd + e ->
  forallb valid_meta (meta_list ds) = true ->
  exists s,
    LuminaPickleSampler_init gpc ds (Some mbs) (Some acc) true sd lc true = Ok s /\
    forall k, 0 <= k ->
      exists stream,
        LuminaPickleSampler_iter G (set_epoch s e k) = Ok stream /\
        forall j, 0 <= j < Py.len stream / mbs ->
          Py.len (Py.slice stream (Some (j * mbs)) (Some ((j + 1) * mbs))) = mbs /\
          exists g, of_group (meta_list ds) g
                      (Py.slice stream (Some (j * mbs)) (Some ((j + 1) * mbs))).
Proof.
  intros HG Hmbs Hacc Hrank Hseed Hv.
  assert (Hws : 0 < world_size gpc) by lia.
  destruct (init_valid gpc ds mbs acc true sd lc true Hmbs Hacc Hws Hv)
    as (gl & B & Hgl & HB & Hinit).
  set (s := Build_LuminaPickleSampler _ _ _ _ _ _ _ _ _ _ _ _ _) in Hinit.
  destruct (share_spec G HG (set_epoch s e 0) gl)
    as (indices & U & Hgi & Hlen & Hnd & HU & Hun & Hown & _); auto.
  destruct (global_indices_mixed G HG (set_epoch s e 0) gl)
    as (batches & Hgb & Hall); auto.
  rewrite Hgi in Hgb. injection Hgb as Hcat.
  cbn [set_epoch micro_batch_size num_replicas acc_grad rank dataset s num_samples]
    in Hun, Hown, Hall, HU.
  rewrite (Z.mul_comm mbs) in Hall.
  set (m := Z.to_nat mbs) in *. set (a := Z.to_nat acc) in *.
  set (W := Z.to_nat (world_size gpc * mbs)) in *.
  set (r := Z.to_nat (local_rank gpc)) in *.
  set (label := type_of_index (meta_list ds) 0) in *.
  assert (Hm : (0 < m)%nat) by (unfold m; lia).
  assert (Ha : (0 < a)%nat) by (unfold a; lia).
  assert (HW : W = (Z.to_nat (world_size gpc) * m)%nat) by (unfold W, m; nia).
  assert (Hr : (r < Z.to_nat (world_size gpc))%nat) by (unfold r; lia).
  assert (Hall1 : Forall (unit_of label (1 * W)) batches).
  { now rewrite Nat.mul_1_l. }
  assert (HlenB : length batches = (U * a)%nat).
  { pose proof (units_length label indices batches m 1 (Z.to_nat (world_size gpc)) W r
                             Hm HW Hr Hcat Hall1) as Hl.
    assert (0 < W)%nat by nia. nia. }
  set (share := concat (rank_rows indices batches m 1 W r)).
  assert (Hshare : concat (map (fun j => piece mbs (world_size gpc) indices j r)
                               (seq 0 (U * a))) = share).
  { unfold share, rank_rows, piece. rewrite HlenB, Nat.mul_1_r. reflexivity. }
  rewrite Hshare in Hun, Hown.
  assert (Hsl : length share = (U * a * m)%nat).
  { unfold share. rewrite (concat_length_exact m).
    - unfold rank_rows. rewrite length_map, length_seq, HlenB. lia.
    - exact (rank_rows_length label indices batches m 1 (Z.to_nat (world_size gpc))
               W r Hm HW Hr Hcat Hall1). }
  exists s. split; [exact Hinit|].
  intros k Hk. exists (skipn (Z.to_nat k * m) share). split.
  - rewrite iter_resumed by assumption. rewrite Hun. cbn [result_map].
    do 2 f_equal. cbn [micro_batch_size s]. unfold m. nia.
  - intros j Hj.
    assert (Hjk : (Z.to_nat j + Z.to_nat k < U * a)%nat).
    { unfold Py.len in Hj. rewrite length_skipn, Hsl in Hj.
      destruct (Nat.le_gt_cases (U * a) (Z.to_nat k)) as [Hge|Hlt].
      - replace (U * a * m - Z.to_nat k * m)%nat with 0%nat in Hj by nia.
        rewrite Z.div_0_l in Hj by lia. lia.
      - replace (Z.of_nat (U * a * m - Z.to_nat k * m))
          with (Z.of_nat (U * a - Z.to_nat k) * mbs) in Hj by (unfold m; nia).
        rewrite Z.div_mul in Hj by lia. lia. }
    replace ((j + 1) * mbs) with (j * mbs + mbs) by lia.
    rewrite slice_sub by nia.
    replace (Z.to_nat (j * mbs)) with (Z.to_nat j * m)%nat by (unfold m; nia).
    assert (Hsub : sub (skipn (Z.to_nat k * m) share) (Z.to_nat j * m) (Z.to_nat mbs)
                   = sub share ((Z.to_nat j + Z.to_nat k) * m) (1 * m)).
    { unfold sub. rewrite skipn_skipn. fold m.
      replace (1 * m)%nat with m by lia. do 2 f_equal. lia. }
    rewrite Hsub.
    destruct (rows_span label indices batches m 1 (Z.to_nat (world_size gpc))
                W r Hm HW Hr Hcat Hall1
                (Z.to_nat j + Z.to_nat k)%nat (Z.to_nat j + Z.to_nat k)%nat 1%nat)
      as [Hl Hg]; try lia.
    split; [|exact Hg]. fold share in Hl. unfold Py.len. rewrite Hl. unfold m. lia.
Qed.

Lemma mixed_micro_batches_homogeneous_witness :
  exists s,
    LuminaPickleSampler_init Example.solo Example.ds (Some 2) (Some 2) true 0 true true
    = Ok s /\
    total_size s = 24 /\
    LuminaPickleSampler_iter lcg (set_epoch s 0 0)
    = Ok [14; 16; 6; 29; 17; 21; 4; 8; 3; 28; 0; 27; 2; 7; 25; 26; 10; 24;
          11; 1; 9; 5; 23; 12] /\
    forall k, 0 <= k ->
      exists stream,
        LuminaPickleSampler_iter lcg (set_epoch s 0 k) = Ok stream /\
        forall j, 0 <= j < Py.len stream / 2 ->
          exists g, of_group (meta_list Example.ds) g
                      (Py.slice stream (Some (j * 2)) (Some ((j + 1) * 2))).
Proof.
  destruct (mixed_micro_batches_homogeneous lcg Example.solo Example.ds 2 2 0 0 true)
    as (s & Hinit & Hiter);
    [exact lcg_lawful | lia | lia | simpl; lia | lia | vm_compute; reflexivity |].
  assert (Hs : s = {| dataset := Example.ds; num_replicas := 1; rank := 0;
                      shuffle := true; seed := 0; micro_batch_size := 2;
                      acc_grad := 2; length_clustering := true;
                      allow_mixed_task_among_acc := true; epoch := 0;
                      start_iter := 0; total_size := 24; num_samples := 24 |}).
  { assert (Hi : LuminaPickleSampler_init Example.solo Example.ds (Some 2) (Some 2)
                   true 0 true true
                 = Ok {| dataset := Example.ds; num_replicas := 1; rank := 0;
                         shuffle := true; seed := 0; micro_batch_size := 2;
                         acc_grad := 2; length_clustering := true;
                         allow_mixed_task_among_acc := true; epoch := 0;
                         start_iter := 0; total_size := 24; num_samples := 24 |})
      by (vm_compute; reflexivity).
    rewrite Hinit in Hi. now injection Hi. }
  exists s. split; [exact Hinit|]. split; [now rewrite Hs|].
  split; [rewrite Hs; vm_compute; reflexivity|].
  intros k Hk. destruct (Hiter k Hk) as (stream & Hst & Hb).
  exists stream. split; [exact Hst|].
  intros j Hj. now destruct (Hb j Hj).
Defined.

(** ** The indices that are yielded *)

Lemma type_of_index_bounds (metas : list GroupMeta) :
  Forall (fun meta => 0 <= meta_len meta) metas ->
  forall start_idx i g,
    type_of_index metas start_idx i = Some g ->
    start_idx <= i < start_idx + Py.sum (map meta_len metas) /\
    In g (map meta_type metas).
Proof.
  induction 1 as [|meta metas Hlen Hall IH]; intros start_idx i g Hg.
  - discriminate.
  - cbn [type_of_index] in Hg. cbn [map]. rewrite sum_cons.
    assert (Hsum : 0 <= Py.sum (map meta_len metas)).
    { clear - Hall. induction Hall as [|x l Hx _ IHl]; [reflexivity|].
      cbn [map]. rewrite sum_cons. lia. }
    destruct (Z.leb_spec start_idx i) as [Hlo|Hlo];
      destruct (Z.ltb_spec i (start_idx + meta_len meta)) as [Hhi|Hhi];
      cbn [andb] in Hg.
    1: { injection Hg as <-. split; [lia | now left]. }
    all: destruct (IH _ _ _ Hg) as [Hb Hin]; split; [lia | now right].
Qed.

Lemma valid_metas_nonneg (metas : list GroupMeta) :
  forallb valid_meta metas = true ->
  Forall (fun meta => 0 <= meta_len meta) metas.
Proof.
  intros Hv. apply Forall_forall. intros meta Hin.
  rewrite forallb_forall in Hv. destruct (valid_meta_inv meta (Hv meta Hin)) as [Hl _].
  rewrite <- Hl. unfold Py.len. lia.
Qed.

Lemma sub_NoDup {A} (l : list A) (a n : nat) : NoDup l -> NoDup (sub l a n).
Proof.
  intros H. unfold sub.
  rewrite <- (firstn_skipn a l) in H. apply NoDup_app_remove_l in H.
  rewrite <- (firstn_skipn n (skipn a l)) in H. now apply NoDup_app_remove_r in H.
Qed.

Lemma resume_part (s : LuminaPickleSampler) (own : list Z) :
  incl (resume s own) own /\ (NoDup own -> NoDup (resume s own)).
Proof.
  unfold resume. destruct (Py.len own <? start_iter s * micro_batch_size s).
  - split; [intros x [] | constructor].
  - unfold Py.slice. split; [apply sub_incl | apply sub_NoDup].
Qed.

Lemma NoDup_concat_part {A} (ls : list (list A)) (l : list A) :
  NoDup (concat ls) -> In l ls -> NoDup l.
Proof.
  induction ls as [|x ls IH]; intros Hnd Hin; [destruct Hin|].
  destruct Hin as [Heq|Hin].
  - subst x. cbn [concat] in Hnd. now apply NoDup_app_remove_r in Hnd.
  - cbn [concat] in Hnd. apply NoDup_app_remove_l in Hnd. auto.
Qed.

(** X15.  For a valid configuration, in either batching mode, on any
    rank, for every epoch and every [start_iter] (negative ones
    included): iteration succeeds, no index is yielded twice, and every
    index yielded is the global index of a sample of the dataset, that
    is, it lies in [0, sum of the partitions' len) and it belongs to the
    range of a partition. *)
Theorem yielded_indices_in_range (G : Generator) (gpc : ParallelContext)
    (ds : Dataset) (mbs acc sd e k : Z) (lc mixed : bool) :
  lawful G ->
  0 < mbs -> 0 < acc -> 0 <= local_rank gpc < world_size gpc -> 0 <= sd + e ->
  forallb valid_meta (meta_list ds) = true ->
  exists s stream,
    LuminaPickleSampler_init gpc ds (Some mbs) (Some acc) true sd lc mixed = Ok s /\
    LuminaPickleSampler_iter G (set_epoch s e k) = Ok stream /\
    NoDup stream /\
    Forall (fun i => 0 <= i < Py.sum (map meta_len (meta_list ds)) /\
                     exists g, type_of_index (meta_list ds) 0 i = Some g /\
                               In g (map meta_type (meta_list ds)))
           stream.
Proof.
  intros HG Hmbs Hacc Hrank Hseed Hv.
  assert (Hws : 0 < world_size gpc) by lia.
  destruct (init_valid gpc ds mbs acc true sd lc mixed Hmbs Hacc Hws Hv)
    as (gl & B & Hgl & HB & Hinit).
  set (s := Build_LuminaPickleSampler _ _ _ _ _ _ _ _ _ _ _ _ _) in Hinit.
  destruct (share_spec G HG (set_epoch s e 0) gl)
    as (indices & U & Hgi & Hlen & Hnd & HU & Hun & Hown & Hunits); auto.
  set (label := type_of_index (meta_list ds) 0).
  assert (Hlab : Forall (fun i => exists g, label i = Some g) indices).
  { assert (Hfrom : forall n (units : list (list Z)),
              Forall (unit_of label n) units ->
              Forall (fun i => exists g, label i = Some g) (concat units)).
    { intros n units Hall. apply Forall_concat.
      eapply Forall_impl; [|exact Hall]. intros u [_ [g Hg]].
      eapply Forall_impl; [|exact Hg]. intros i Hi. now exists g. }
    destruct mixed.
    - destruct (global_indices_mixed G HG (set_epoch s e 0) gl)
        as (batches & Hgb & Hall); auto.
      rewrite Hgi in Hgb. injection Hgb as ->. exact (Hfrom _ _ Hall).
    - destruct (Hunits eq_refl) as (units & -> & _ & Hall). exact (Hfrom _ _ Hall). }
  cbn [set_epoch micro_batch_size num_replicas acc_grad rank dataset s num_samples]
    in Hun, HU.
  set (share := concat (map (fun j => piece mbs (world_size gpc) indices j
                                            (Z.to_nat (local_rank gpc)))
                            (seq 0 (U * Z.to_nat acc)))) in *.
  assert (Hincl : incl share indices).
  { unfold share. intros x Hx. apply in_concat in Hx. destruct Hx as (p & Hp & Hx).
    apply in_map_iff in Hp. destruct Hp as (j & <- & _).
    exact (sub_incl _ _ _ _ Hx). }
  assert (Hnds : NoDup share).
  { pose proof (shares_permutation mbs (world_size gpc) Hmbs Hws indices
                  (U * Z.to_nat acc) ltac:(lia)) as Hperm.
    apply (NoDup_concat_part _ share (Permutation_NoDup (Permutation_sym Hperm) Hnd)).
    apply in_map_iff. exists (Z.to_nat (local_rank gpc)). split; [reflexivity|].
    apply in_seq. lia. }
  destruct (resume_part (set_epoch s e k) share) as [Hri Hrn].
  exists s, (resume (set_epoch s e k) share).
  split; [exact Hinit|]. split; [|split; [exact (Hrn Hnds)|]].
  - rewrite iter_unresumed, unresumed_set_epoch, Hun. reflexivity.
  - apply Forall_forall. intros i Hi. apply Hri, Hincl in Hi.
    rewrite Forall_forall in Hlab. destruct (Hlab i Hi) as [g Hg].
    destruct (type_of_index_bounds _ (valid_metas_nonneg _ Hv) 0 i g Hg) as [Hb Hin].
    split; [lia|]. now exists g.
Qed.

Lemma yielded_indices_in_range_witness :
  exists s stream,
    LuminaPickleSampler_init (Example.gpc 1) Example.ds (Some 2) (Some 1) true 0 true true
    = Ok s /\
    LuminaPickleSampler_iter lcg (set_epoch s 3 (-2)) = Ok stream /\
    NoDup stream /\
    Forall (fun i => 0 <= i < 30) stream.
Proof.
  destruct (yielded_indices_in_range lcg (Example.gpc 1) Example.ds 2 1 0 3 (-2) true true)
    as (s & stream & Hinit & Hiter & Hnd & Hall);
    [exact lcg_lawful | lia | lia | simpl; lia | lia | vm_compute; reflexivity |].
  exists s, stream. split; [exact Hinit|]. split; [exact Hiter|]. split; [exact Hnd|].
  eapply Forall_impl; [|exact Hall]. intros i [Hi _]. exact Hi.
Defined.

(** ** The batch wrapper over a valid configuration *)

(** X16.  For a valid configuration the wrapper is built, reports
    [len(dataset) // micro_batch_size // world_size] as its length, and
    its generator ends normally exactly when that count does not exceed
    the [num_samples // micro_batch_size] micro-batches the inner sampler
    has: then it yields that many of the share's consecutive
    micro-batches.  When the count is larger it yields all the
    micro-batches of the share, which together are the whole share, and
    then ends in [RuntimeError]. *)
Theorem batch_wrapper_end (G : Generator) (gpc : ParallelContext) (ds : Dataset)
    (mbs acc sd : Z) (lc mixed : bool) :
  lawful G ->
  0 < mbs -> 0 < acc -> 0 <= local_rank gpc < world_size gpc -> 0 <= sd ->
  forallb valid_meta (meta_list ds) = true ->
  exists b share,
    LuminaPickleBatchSampler_init gpc ds mbs (Some acc) true sd lc mixed = Ok b /\
    LuminaPickleBatchSampler_len b = dataset_len ds / mbs / world_size gpc /\
    LuminaPickleSampler_iter G (single_sampler b) = Ok share /\
    Py.len share = num_samples (single_sampler b) /\
    (LuminaPickleBatchSampler_len b <= num_samples (single_sampler b) / mbs ->
     LuminaPickleBatchSampler_iter G b
     = (chunks (Z.to_nat mbs) (Z.to_nat (LuminaPickleBatchSampler_len b)) share, None)) /\
    (num_samples (single_sampler b) / mbs < LuminaPickleBatchSampler_len b ->
     LuminaPickleBatchSampler_iter G b
     = (chunks (Z.to_nat mbs) (Z.to_nat (num_samples (single_sampler b) / mbs)) share,
        Some RuntimeError) /\
     concat (chunks (Z.to_nat mbs) (Z.to_nat (num_samples (single_sampler b) / mbs)) share)
     = share).
Proof.
  intros HG Hmbs Hacc Hrank Hseed Hv.
  assert (Hws : 0 < world_size gpc) by lia.
  destruct (init_valid gpc ds mbs acc true sd lc mixed Hmbs Hacc Hws Hv)
    as (gl & B & Hgl & HB & Hinit).
  set (s := Build_LuminaPickleSampler _ _ _ _ _ _ _ _ _ _ _ _ _) in Hinit.
  destruct (share_spec G HG s gl)
    as (indices & U & _ & _ & _ & _ & Hun & Hown & _); auto;
    [cbn [seed epoch s]; lia|].
  set (share := concat _) in Hun, Hown.
  assert (Hiter : LuminaPickleSampler_iter G s = Ok share).
  { pose proof (iter_start_0 G s 0) as H0.
    change (set_epoch s 0 0) with s in H0. now rewrite H0. }
  set (nb := dataset_len ds / mbs / world_size gpc).
  set (b := {| single_sampler := s; num_batches := nb; batch_micro_batch_size := mbs |}).
  assert (Hns : num_samples s = B * acc * mbs).
  { cbn [num_samples s]. rewrite HB.
    replace (B * (mbs * world_size gpc * acc)) with (B * acc * mbs * world_size gpc) by lia.
    apply Z.div_mul. lia. }
  assert (Hq : num_samples s / mbs = B * acc) by (rewrite Hns; apply Z.div_mul; lia).
  assert (HBnn : 0 <= B * acc).
  { rewrite Hns in Hown. unfold Py.len in Hown. nia. }
  assert (Hlen : length share = (Z.to_nat (B * acc) * Z.to_nat mbs)%nat).
  { rewrite Hns in Hown. unfold Py.len in Hown. nia. }
  exists b, share. split; [|split; [reflexivity|split; [exact Hiter|split; [exact Hown|]]]].
  - unfold LuminaPickleBatchSampler_init. rewrite Hinit. cbn [bind].
    unfold Py.floordiv.
    destruct (Z.eqb_spec mbs 0); [lia|]. cbn [bind].
    destruct (Z.eqb_spec (world_size gpc) 0); [lia|]. reflexivity.
  - cbn [single_sampler b LuminaPickleBatchSampler_len num_batches].
    unfold LuminaPickleBatchSampler_iter. cbn [single_sampler b num_batches
                                                 batch_micro_batch_size].
    rewrite Hiter, batch_loop_spec by assumption. rewrite Hq, Hlen.
    destruct (Nat.leb_spec (Z.to_nat nb * Z.to_nat mbs)
                           (Z.to_nat (B * acc) * Z.to_nat mbs)) as [Hle|Hgt].
    + split; [reflexivity|]. intros Hlt. nia.
    + split; [intros Hle; nia|]. intros _.
      rewrite Nat.div_mul by lia. split; [reflexivity|].
      apply concat_chunks_all. lia.
Qed.

Lemma batch_wrapper_end_witness :
  exists b share,
    LuminaPickleBatchSampler_init (Example.gpc 0) Example.ds 2 (Some 1) true 0 true false
    = Ok b /\
    LuminaPickleBatchSampler_len b = 7 /\
    Py.len share = 12 /\
    LuminaPickleBatchSampler_iter lcg b = (chunks 2 6 share, Some RuntimeError).
Proof.
  destruct (batch_wrapper_end lcg (Example.gpc 0) Example.ds 2 1 0 true false)
    as (b & share & Hinit & Hlen & Hiter & Hshare & _ & Herr);
    [exact lcg_lawful | lia | lia | simpl; lia | lia | vm_compute; reflexivity |].
  assert (Hb : b = {| single_sampler := Example.sampler 0; num_batches := 7;
                      batch_micro_batch_size := 2 |}).
  { assert (Hi : LuminaPickleBatchSampler_init (Example.gpc 0) Example.ds 2 (Some 1)
                   true 0 true false
                 = Ok {| single_sampler := Example.sampler 0; num_batches := 7;
                         batch_micro_batch_size := 2 |}) by (vm_compute; reflexivity).
    rewrite Hinit in Hi. now injection Hi. }
  exists b, share. split; [exact Hinit|]. subst b.
  split; [reflexivity|]. split; [exact Hshare|].
  apply Herr. vm_compute. reflexivity.
Defined.

(** ** Length clustering (lines 131-143) *)

Lemma insert_by_len_In (x y : Z * Z) (l : list (Z * Z)) :
  In y (insert_by_len x l) -> y = x \/ In y l.
Proof.
  induction l as [|z l IH]; cbn [insert_by_len].
  - intros [<-|[]]. now left.
  - destruct (snd x <=? snd z).
    + intros [<-|H]; [now left | now right].
    + intros [<-|H]; [right; now left|].
      destruct (IH H) as [->|Hin]; [now left | right; now right].
Qed.

Lemma insert_by_len_sorted (x : Z * Z) (l : list (Z * Z)) :
  StronglySorted (fun p q => snd p <= snd q) l ->
  StronglySorted (fun p q => snd p <= snd q) (insert_by_len x l).
Proof.
  induction 1 as [|y l Hl IH Hy]; cbn [insert_by_len].
  - constructor; constructor.
  - destruct (Z.leb_spec (snd x) (snd y)) as [Hle|Hgt].
    + constructor; [now constructor|].
      constructor; [exact Hle|].
      eapply Forall_impl; [|exact Hy]. cbn beta. intros q Hq. lia.
    + constructor; [exact IH|].
      apply Forall_forall. intros q Hq.
      destruct (insert_by_len_In _ _ _ Hq) as [->|Hin]; [lia|].
      rewrite Forall_forall in Hy. now apply Hy.
Qed.

Lemma insert_by_len_filter (v : Z) (x : Z * Z) (l : list (Z * Z)) :
  filter (fun p => snd p =? v) (insert_by_len x l)
  = filter (fun p => snd p =? v) (x :: l).
Proof.
  induction l as [|y l IH]; cbn [insert_by_len]; [reflexivity|].
  destruct (Z.leb_spec (snd x) (snd y)) as [Hle|Hgt]; [reflexivity|].
  cbn [filter] in *. rewrite IH.
  destruct (Z.eqb_spec (snd x) v), (Z.eqb_spec (snd y) v); try reflexivity. lia.
Qed.

(** X17.  The sort of line 133 orders the (index, length) pairs of a
    group by ascending length and is stable: the result is a
    rearrangement of the group, its lengths never decrease, and the pairs
    of any one length keep the order they had before the sort. *)
Theorem sort_by_len_stable (l : list (Z * Z)) :
  Permutation (sort_by_len l) l /\
  StronglySorted (fun p q => snd p <= snd q) (sort_by_len l) /\
  forall v, filter (fun p => snd p =? v) (sort_by_len l)
            = filter (fun p => snd p =? v) l.
Proof.
  split; [apply sort_by_len_perm|]. split.
  - induction l as [|x l IH]; [constructor|].
    cbn [sort_by_len fold_right]. apply insert_by_len_sorted. exact IH.
  - intros v. induction l as [|x l IH]; [reflexivity|].
    change (sort_by_len (x :: l)) with (insert_by_len x (sort_by_len l)).
    rewrite insert_by_len_filter. cbn [filter]. now rewrite IH.
Qed.

Lemma shuffle_blocks_concat (G : Generator) (HG : lawful G) (indices : list Z)
    (block : Z) (positions : list Z) :
  forall rng result, exists blocks,
    fst (shuffle_blocks G rng indices block positions result) = result ++ concat blocks /\
    Forall2 (@Permutation Z) blocks
            (map (fun pos => Py.slice indices (Some pos) (Some (pos + block)))
                 positions).
Proof.
  induction positions as [|pos positions IH]; intros rng result.
  - exists []. cbn. split; [now rewrite app_nil_r | constructor].
  - cbn [shuffle_blocks].
    pose proof (rng_shuffle_perm G HG rng
                  (Py.slice indices (Some pos) (Some (pos + block)))) as Hs.
    destruct (rng_shuffle rng (Py.slice indices (Some pos) (Some (pos + block))))
      as [sublist rng1]. cbn [fst] in Hs.
    destruct (IH rng1 (result ++ sublist)) as (blocks & Heq & Hall).
    exists (sublist :: blocks). split.
    + rewrite Heq. cbn [concat]. now rewrite app_assoc.
    + cbn [map]. constructor; assumption.
Qed.

Lemma chunks_nil_blocks {A} (n c : nat) (blocks : list (list A)) :
  Forall2 (@Permutation A) blocks (chunks n c []) -> concat blocks = [].
Proof.
  revert blocks. induction c as [|c IH]; intros blocks H.
  - inversion H. reflexivity.
  - rewrite chunks_shift, firstn_nil, skipn_nil in H.
    inversion H as [|x y xs ys Hx Hxs]; subst.
    apply Permutation_sym, Permutation_nil in Hx. subst x.
    cbn [concat app]. now apply IH.
Qed.

(** Block by block, rearranged blocks hold what the list holds at the
    positions of the block. *)
Lemma blocks_positions {A} (n : nat) :
  (0 < n)%nat ->
  forall c (l : list A) blocks,
    Forall2 (@Permutation A) blocks (chunks n c l) ->
    forall b, (b < c)%nat ->
      Permutation (sub (concat blocks) (b * n) n) (sub l (b * n) n).
Proof.
  intros Hn. induction c as [|c IH]; intros l blocks H b Hb; [lia|].
  rewrite chunks_shift in H.
  inversion H as [|x y xs ys Hx Hxs]; subst. cbn [concat].
  pose proof (Permutation_length Hx) as Hlen. rewrite length_firstn in Hlen.
  destruct (Nat.le_gt_cases n (length l)) as [Hfull|Hshort].
  - assert (Hlx : length x = n) by lia.
    destruct b as [|b].
    + unfold sub. cbn [Nat.mul skipn]. rewrite firstn_app, firstn_all2 by lia.
      replace (n - length x)%nat with 0%nat by lia.
      rewrite firstn_O, app_nil_r. exact Hx.
    + unfold sub. rewrite skipn_app, skipn_all2 by (cbn [Nat.mul]; lia).
      cbn [app]. replace (S b * n - length x)%nat with (b * n)%nat by (cbn [Nat.mul]; lia).
      replace (S b * n)%nat with (b * n + n)%nat by (cbn [Nat.mul]; lia).
      rewrite <- skipn_skipn.
      apply (IH (skipn n l) xs Hxs b). lia.
  - rewrite skipn_all2 in Hxs by lia.
    rewrite (chunks_nil_blocks _ _ _ Hxs), app_nil_r.
    rewrite firstn_all2 in Hx by lia.
    destruct b as [|b].
    + unfold sub. cbn [Nat.mul skipn]. rewrite !firstn_all2 by lia. exact Hx.
    + unfold sub. rewrite !skipn_all2 by (cbn [Nat.mul]; lia). reflexivity.
Qed.

(** X18.  The neighbourhood shuffle of lines 137-143 moves an index only
    inside its own block: for a positive block size, the result is the
    concatenation, block after block, of a rearrangement of each of the
    consecutive blocks [indices[i : i + block]] for
    [i in range(0, len(indices), block)]; so what the result holds at
    the positions of a block is what [indices] holds there. *)
Theorem shuffle_blocks_local (G : Generator) (rng : rng_state G) (indices : list Z)
    (block : Z) :
  lawful G -> 0 < block ->
  exists slices blocks,
    batched indices block = Ok slices /\
    concat slices = indices /\
    fst (shuffle_blocks G rng indices block
           (Py.range_list 0 (Py.len indices) block) []) = concat blocks /\
    Forall2 (@Permutation Z) blocks slices /\
    forall b, (b < length slices)%nat ->
      Permutation
        (sub (concat blocks) (b * Z.to_nat block) (Z.to_nat block))
        (sub indices (b * Z.to_nat block) (Z.to_nat block)).
Proof.
  intros HG Hblock.
  destruct (shuffle_blocks_concat G HG indices block
              (Py.range_list 0 (Py.len indices) block) rng [])
    as (blocks & Heq & Hall).
  cbn [app] in Heq.
  set (c := Z.to_nat ((Py.len indices + block - 1) / block)).
  assert (Hslices : map (fun pos => Py.slice indices (Some pos) (Some (pos + block)))
                        (Py.range_list 0 (Py.len indices) block)
                    = chunks (Z.to_nat block) c indices).
  { rewrite range_list_0 by (unfold Py.len; lia).
    unfold chunks. rewrite map_map. apply map_ext. intros i.
    rewrite slice_sub by lia. f_equal. nia. }
  rewrite Hslices in Hall.
  exists (chunks (Z.to_nat block) c indices), blocks.
  split; [now apply batched_chunks|]. split.
  - apply concat_chunks_all.
    pose proof (ceil_div_bounds (Py.len indices) block Hblock) as Hc.
    unfold c, Py.len in *. nia.
  - split; [exact Heq|]. split; [exact Hall|].
    intros b Hb. rewrite chunks_length in Hb.
    apply (blocks_positions (Z.to_nat block) ltac:(lia) c indices blocks Hall b Hb).
Qed.

Lemma shuffle_blocks_local_witness :
  exists slices blocks,
    batched [10; 11; 12; 13; 14; 15; 16] 3 = Ok slices /\
    fst (shuffle_blocks lcg (seed_rng lcg 5) [10; 11; 12; 13; 14; 15; 16] 3
           (Py.range_list 0 7 3) []) = concat blocks /\
    Forall2 (@Permutation Z) blocks slices.
Proof.
  destruct (shuffle_blocks_local lcg (seed_rng lcg 5) [10; 11; 12; 13; 14; 15; 16] 3)
    as (slices & blocks & Hb & _ & Hs & Hall & _); [exact lcg_lawful | lia |].
  exists slices, blocks. split; [exact Hb|]. split; [exact Hs | exact Hall].
Defined.

(** ** Faults the constructor lets through *)

Lemma gather_groups_app (G : Generator) (pre rest : list GroupMeta) :
  forall start_idx rng groups,
    gather_groups G (pre ++ rest) start_idx rng groups
    = match gather_groups G pre start_idx rng groups with
      | Ok (g, r) => gather_groups G rest (start_idx + Py.sum (map meta_len pre)) r g
      | Raise e => Raise e
      end.
Proof.
  induction pre as [|meta pre IH]; intros start_idx rng groups.
  - cbn [app gather_groups map]. now rewrite Z.add_0_r.
  - cbn [app gather_groups map].
    destruct (partition_pairs G rng start_idx meta) as [[pairs rng1]|e];
      cbn [bind]; [|reflexivity].
    rewrite IH, sum_cons, Z.add_assoc. reflexivity.
Qed.

Lemma iter_bad_partition (G : Generator) (s : LuminaPickleSampler)
    (pre post : list GroupMeta) (bad : GroupMeta) (e : py_error) :
  lawful G ->
  0 <= seed s + epoch s ->
  meta_list (dataset s) = pre ++ bad :: post ->
  forallb valid_meta pre = true ->
  (forall rng start_idx, partition_pairs G rng start_idx bad = Raise e) ->
  LuminaPickleSampler_iter G s = Raise e.
Proof.
  intros HG Hseed Hmetas Hpre Hbad.
  destruct (gather_groups_spec G HG (type_of_index pre 0) pre 0
              (seed_rng G (seed s + epoch s)) [] Hpre)
    as (groups & rng1 & cg & stop & Hgather & _).
  { intros i _. reflexivity. }
  { split; [|split]; constructor. }
  unfold LuminaPickleSampler_iter, global_indices, default_rng.
  destruct (Z.ltb_spec (seed s + epoch s) 0); [lia|]. cbn [bind].
  rewrite Hmetas, gather_groups_app, Hgather.
  cbn [gather_groups]. rewrite Hbad. reflexivity.
Qed.

(** X19.  The check of [item_len_list] is made by the iteration (line
    114), against the number of indices of
    [range(start_idx, start_idx + len)], which is [max(0, len)].  When
    the partitions before it are well-formed and [seed + epoch] is not
    negative, a partition whose [item_len_list] has another number of
    entries than [max(0, len)] makes every iteration raise
    [AssertionError] before any index is yielded, also through the batch
    wrapper, which yields no batch. *)
Theorem item_len_list_checked_at_iteration (G : Generator) (s : LuminaPickleSampler)
    (pre post : list GroupMeta) (bad : GroupMeta) :
  lawful G ->
  0 <= seed s + epoch s ->
  meta_list (dataset s) = pre ++ bad :: post ->
  forallb valid_meta pre = true ->
  Z.max 0 (meta_len bad) <> Py.len (meta_item_len_list bad) ->
  LuminaPickleSampler_iter G s = Raise AssertionError /\
  forall n mbs,
    LuminaPickleBatchSampler_iter G
      {| single_sampler := s; num_batches := n; batch_micro_batch_size := mbs |}
    = ([], Some AssertionError).
Proof.
  intros HG Hseed Hmetas Hpre Hlen.
  assert (Hiter : LuminaPickleSampler_iter G s = Raise AssertionError).
  { apply (iter_bad_partition G s pre post bad); auto.
    intros rng start_idx. unfold partition_pairs.
    unfold Py.len at 1. rewrite range2_length.
    destruct (Z.eqb_spec (Z.of_nat (Z.to_nat (start_idx + meta_len bad - start_idx)))
                         (Py.len (meta_item_len_list bad))) as [E|E]; [|reflexivity].
    exfalso. apply Hlen. rewrite <- E. lia. }
  split; [exact Hiter|]. intros n mbs.
  unfold LuminaPickleBatchSampler_iter. cbn [single_sampler]. now rewrite Hiter.
Qed.

Lemma item_len_list_checked_at_iteration_witness :
  LuminaPickleSampler_init Faulty.gpc (Faulty.ds Faulty.short_lengths)
    (Some 2) (Some 1) true 0 true false
  = Ok (Faulty.sampler Faulty.short_lengths 16) /\
  LuminaPickleSampler_iter lcg (Faulty.sampler Faulty.short_lengths 16)
  = Raise AssertionError.
Proof.
  split; [vm_compute; reflexivity|].
  refine (proj1 (item_len_list_checked_at_iteration lcg
                   (Faulty.sampler Faulty.short_lengths 16)
                   [Faulty.sound] [Faulty.sound] Faulty.short_lengths
                   lcg_lawful _ _ _ _)).
  - simpl; lia.
  - reflexivity.
  - vm_compute; reflexivity.
  - vm_compute; discriminate.
Defined.

(** X20.  A ratio that asks for more samples than a partition has, or
    for a negative number of them, is refused by the iteration (line 117,
    [replace=False]).  When the partitions before it are well-formed and
    [seed + epoch] is not negative, a partition with the right
    [item_len_list], a ratio other than 1.0 and [int(len * ratio)]
    negative or above [len] makes every iteration raise [ValueError]
    before any index is yielded, also through the batch wrapper. *)
Theorem ratio_checked_at_iteration (G : Generator) (s : LuminaPickleSampler)
    (pre post : list GroupMeta) (bad : GroupMeta) (k : Z) :
  lawful G ->
  0 <= seed s + epoch s ->
  meta_list (dataset s) = pre ++ bad :: post ->
  forallb valid_meta pre = true ->
  Py.len (meta_item_len_list bad) = Z.max 0 (meta_len bad) ->
  PrimFloat.eqb (ratio_of bad) 1%float = false ->
  scaled_len bad = Ok k ->
  k < 0 \/ Z.max 0 (meta_len bad) < k ->
  LuminaPickleSampler_iter G s = Raise ValueError /\
  forall n mbs,
    LuminaPickleBatchSampler_iter G
      {| single_sampler := s; num_batches := n; batch_micro_batch_size := mbs |}
    = ([], Some ValueError).
Proof.
  intros HG Hseed Hmetas Hpre Hlen Hratio Hk Hout.
  assert (Hiter : LuminaPickleSampler_iter G s = Raise ValueError).
  { apply (iter_bad_partition G s pre post bad); auto.
    intros rng start_idx. unfold partition_pairs.
    assert (Hr : Py.len (Py.range2 start_idx (start_idx + meta_len bad))
                 = Py.len (meta_item_len_list bad)).
    { unfold Py.len at 1. rewrite range2_length, Hlen. lia. }
    rewrite Hr, Z.eqb_refl. cbn [py_assert bind]. rewrite Hratio. cbn [negb].
    rewrite Hk. cbn [bind]. unfold rng_choice.
    assert (Hc : Py.len (combine (Py.range2 start_idx (start_idx + meta_len bad))
                                 (meta_item_len_list bad))
                 = Z.max 0 (meta_len bad)).
    { unfold Py.len in *. rewrite length_combine. lia. }
    rewrite Hc.
    destruct (Z.ltb_spec k 0); [reflexivity|].
    destruct (Z.ltb_spec (Z.max 0 (meta_len bad)) k); [reflexivity | lia]. }
  split; [exact Hiter|]. intros n mbs.
  unfold LuminaPickleBatchSampler_iter. cbn [single_sampler]. now rewrite Hiter.
Qed.

Lemma ratio_checked_at_iteration_witness :
  (LuminaPickleSampler_init Faulty.gpc (Faulty.ds Faulty.oversampled)
     (Some 2) (Some 1) true 0 true false
   = Ok (Faulty.sampler Faulty.oversampled 20) /\
   LuminaPickleSampler_iter lcg (Faulty.sampler Faulty.oversampled 20)
   = Raise ValueError) /\
  (LuminaPickleSampler_init Faulty.gpc (Faulty.ds Faulty.negative_ratio)
     (Some 2) (Some 1) true 0 true false
   = Ok (Faulty.sampler Faulty.negative_ratio 12) /\
   LuminaPickleSampler_iter lcg (Faulty.sampler Faulty.negative_ratio 12)
   = Raise ValueError).
Proof.
  split; (split; [vm_compute; reflexivity|]).
  - refine (proj1 (ratio_checked_at_iteration lcg
                     (Faulty.sampler Faulty.oversampled 20)
                     [Faulty.sound] [Faulty.sound] Faulty.oversampled 6
                     lcg_lawful _ _ _ _ _ _ _)).
    + simpl; lia.
    + reflexivity.
    + vm_compute; reflexivity.
    + vm_compute; reflexivity.
    + vm_compute; reflexivity.
    + vm_compute; reflexivity.
    + right. simpl. lia.
  - refine (proj1 (ratio_checked_at_iteration lcg
                     (Faulty.sampler Faulty.negative_ratio 12)
                     [Faulty.sound] [Faulty.sound] Faulty.negative_ratio (-2)
                     lcg_lawful _ _ _ _ _ _ _)).
    + simpl; lia.
    + reflexivity.
    + vm_compute; reflexivity.
    + vm_compute; reflexivity.
    + vm_compute; reflexivity.
    + vm_compute; reflexivity.
    + left. lia.
Defined.

Lemma count_groups_same (metas metas' : list GroupMeta) :
  Forall2 (fun m m' => meta_type m = meta_type m' /\ meta_len m = meta_len m' /\
                       meta_ratio m = meta_ratio m') metas metas' ->
  forall d, count_groups metas d = count_groups metas' d.
Proof.
  induction 1 as [|m m' metas metas' (Ht & Hl & Hr) _ IH]; intros d; [reflexivity|].
  cbn [count_groups]. unfold scaled_len, ratio_of. rewrite Ht, Hl, Hr.
  destruct (Py.float_of_int (meta_len m')) as [f|e]; cbn [bind]; [|reflexivity].
  destruct (Py.int_of_float _) as [c|e]; cbn [bind]; [apply IH | reflexivity].
Qed.

(** X21.  What the constructor computes depends on the dataset only
    through the [type], [len] and [ratio] of its partitions, and on the
    parallel context only through the world size: two constructions that
    agree on these, on [micro_batch_size] and on [acc_grad] either both
    raise the same exception or succeed with the same [total_size] and
    [num_samples], whatever [len(dataset)], the [item_len_list]s, the
    rank, the seed and the flags are. *)
Theorem init_reads_type_len_ratio (gpc gpc' : ParallelContext) (ds ds' : Dataset)
    (mbs acc : option Z) (sh sh' : bool) (sd sd' : Z) (lc lc' mixed mixed' : bool) :
  world_size gpc = world_size gpc' ->
  Forall2 (fun m m' => meta_type m = meta_type m' /\ meta_len m = meta_len m' /\
                       meta_ratio m = meta_ratio m')
          (meta_list ds) (meta_list ds') ->
  result_map (fun s => (total_size s, num_samples s))
             (LuminaPickleSampler_init gpc ds mbs acc sh sd lc mixed)
  = result_map (fun s => (total_size s, num_samples s))
               (LuminaPickleSampler_init gpc' ds' mbs acc sh' sd' lc' mixed').
Proof.
  intros Hws Hmetas. unfold LuminaPickleSampler_init.
  destruct mbs as [mbs|], acc as [acc|]; try reflexivity.
  unfold aligned_group_len. rewrite <- Hws, (count_groups_same _ _ Hmetas).
  destruct (count_groups (meta_list ds') []) as [counts|e]; cbn [bind]; [|reflexivity].
  destruct (align_groups _ counts) as [gl|e]; cbn [bind]; [|reflexivity].
  destruct (Py.modulo _ _) as [r|e]; cbn [bind]; [|reflexivity].
  destruct (r =? 0); cbn [py_assert bind]; [|reflexivity].
  destruct (Py.floordiv _ _) as [q|e]; reflexivity.
Qed.

Lemma init_reads_type_len_ratio_witness :
  result_map (fun s => (total_size s, num_samples s))
             (LuminaPickleSampler_init (Example.gpc 0) Example.ds
                (Some 2) (Some 1) true 0 true false)
  = result_map (fun s => (total_size s, num_samples s))
               (LuminaPickleSampler_init (Example.gpc 1) Example.ds_relabelled
                  (Some 2) (Some 1) true 7 false true).
Proof.
  apply init_reads_type_len_ratio; [reflexivity|].
  simpl. repeat constructor.
Defined.

(** ** What an epoch covers *)

Lemma global_indices_content (G : Generator) (HG : lawful G) (s : LuminaPickleSampler)
    (group_len : dict Z) :
  shuffle s = true ->
  0 < micro_batch_size s -> 0 < num_replicas s -> 0 < acc_grad s ->
  0 <= seed s + epoch s ->
  forallb valid_meta (meta_list (dataset s)) = true ->
  aligned_group_len (num_replicas s) (meta_list (dataset s))
                    (micro_batch_size s) (acc_grad s) = Ok group_len ->
  total_size s = Py.sum (values group_len) ->
  exists groups rng1 indices,
    gather_groups G (meta_list (dataset s)) 0 (seed_rng G (seed s + epoch s)) []
    = Ok (groups, rng1) /\
    global_indices G s = Ok indices /\
    Permutation indices
      (map fst (concat (values (map_values
         (truncated (micro_batch_size s * num_replicas s * acc_grad s)) groups)))).
Proof.
  intros Hsh Hmbs Hws Hacc Hseed Hv Hgl Htot.
  destruct (ordered_groups_exist G HG s group_len Hmbs Hws Hacc Hseed Hv Hgl)
    as (rng0 & groups & rng1 & og & rng2 & Hrng & Hgather & Horder & Hnd & Hbat & Hlens).
  set (label := type_of_index (meta_list (dataset s)) 0) in *.
  set (gbs := micro_batch_size s * num_replicas s) in *.
  set (A := gbs * acc_grad s) in *.
  assert (Hgbs : 0 < gbs) by (unfold gbs; nia).
  assert (Hrng0 : rng0 = seed_rng G (seed s + epoch s)).
  { unfold default_rng in Hrng.
    destruct (Z.ltb_spec (seed s + epoch s) 0); [lia|]. now injection Hrng. }
  subst rng0.
  destruct (order_groups_spec G HG s (map_values (truncated A) groups) Hgbs rng1)
    as (og' & rng2' & Horder' & Hre).
  rewrite Horder in Horder'. injection Horder' as <- <-.
  assert (Hbatches :
            exists batches rng3,
              (if allow_mixed_task_among_acc s
               then b <- mixed_batches gbs og ;; Ok (b, rng2)
               else grouped_batches G gbs (acc_grad s) rng2 og [])
              = Ok (batches, rng3) /\
              Permutation (concat batches) (concat (values og))).
  { destruct (allow_mixed_task_among_acc s).
    - destruct (mixed_batches_spec gbs Hgbs og) as (b & Hb & Hcat).
      exists b, rng2. rewrite Hb. cbn [bind]. split; [reflexivity | now rewrite Hcat].
    - destruct (grouped_batches_spec G HG label gbs (acc_grad s) Hgbs Hacc og Hbat rng2 [])
        as (units & rng3 & Hu & Hperm & _).
      exists units, rng3. cbn [app] in Hu. auto. }
  destruct Hbatches as (batches & rng3 & Hb & Hperm).
  pose proof (rng_shuffle_perm G HG rng3 batches) as Hfinal.
  destruct (rng_shuffle rng3 batches) as [shuffled rng4] eqn:Hshuf.
  cbn [fst] in Hfinal.
  assert (Hall : Permutation (concat shuffled) (concat (values og))).
  { rewrite (Permutation_concat _ _ Hfinal). exact Hperm. }
  assert (Hlen : Py.len (concat shuffled) = total_size s).
  { unfold Py.len. rewrite (Permutation_length Hall).
    fold (Py.len (concat (values og))).
    rewrite len_concat, Htot, <- Hlens, values_map_values. reflexivity. }
  exists groups, rng1, (concat shuffled). split; [exact Hgather|]. split.
  - unfold global_indices. fold gbs. fold A.
    unfold default_rng. destruct (Z.ltb_spec (seed s + epoch s) 0); [lia|].
    cbn [bind]. rewrite Hgather. cbn [bind].
    rewrite truncate_groups_ok by (unfold A; nia). cbn [bind]. rewrite Hsh, Horder.
    cbn [bind]. rewrite Hb. cbn [bind]. rewrite Hshuf. cbn [bind].
    rewrite Hlen, Z.eqb_refl. reflexivity.
  - rewrite Hall. apply reordered_concat. exact Hre.
Qed.

Lemma gather_groups_plain (G : Generator) (metas : list GroupMeta) :
  forallb valid_meta metas = true ->
  forallb (fun meta => PrimFloat.eqb (ratio_of meta) 1%float) metas = true ->
  forall start_idx groups, exists groups',
    forall rng, gather_groups G metas start_idx rng groups = Ok (groups', rng).
Proof.
  induction metas as [|meta metas IH]; intros Hv Hr start_idx groups.
  - exists groups. reflexivity.
  - cbn [forallb] in Hv, Hr.
    apply andb_true_iff in Hv. destruct Hv as [Hv Hvs].
    apply andb_true_iff in Hr. destruct Hr as [Hr Hrs].
    destruct (valid_meta_inv meta Hv) as [Hlen _].
    destruct (IH Hvs Hrs (start_idx + meta_len meta)
                (dict_upd (meta_type meta)
                   (fun v => v ++ combine (Py.range2 start_idx (start_idx + meta_len meta))
                                          (meta_item_len_list meta))
                   [] groups)) as (groups' & Hg).
    exists groups'. intros rng. cbn [gather_groups]. unfold partition_pairs.
    assert (Hl : Py.len (Py.range2 start_idx (start_idx + meta_len meta))
                 = Py.len (meta_item_len_list meta)).
    { unfold Py.len at 1. rewrite range2_length, Hlen. unfold Py.len in Hlen. lia. }
    rewrite Hl, Z.eqb_refl. cbn [py_assert bind]. rewrite Hr. cbn [negb bind].
    apply Hg.
Qed.

(** X22.  When no partition is subsampled (every ratio is 1.0 or
    absent), every epoch covers the same samples: for a valid
    configuration there is one list [kept] of [total_size] indices such
    that the global sequence of every epoch is a rearrangement of it.
    The samples that the alignment of lines 124-127 cuts off are cut
    before any shuffling, so they are the same in every epoch and are
    never yielded. *)
Theorem epoch_invariant_coverage (G : Generator) (gpc : ParallelContext) (ds : Dataset)
    (mbs acc sd : Z) (lc mixed : bool) :
  lawful G ->
  0 < mbs -> 0 < acc -> 0 < world_size gpc ->
  forallb valid_meta (meta_list ds) = true ->
  forallb (fun meta => PrimFloat.eqb (ratio_of meta) 1%float) (meta_list ds) = true ->
  exists s kept,
    LuminaPickleSampler_init gpc ds (Some mbs) (Some acc) true sd lc mixed = Ok s /\
    Py.len kept = total_size s /\
    forall e, 0 <= sd + e ->
      exists indices,
        global_indices G (set_epoch s e 0) = Ok indices /\
        Permutation indices kept.
Proof.
  intros HG Hmbs Hacc Hws Hv Hr.
  destruct (init_valid gpc ds mbs acc true sd lc mixed Hmbs Hacc Hws Hv)
    as (gl & B & Hgl & HB & Hinit).
  set (s := Build_LuminaPickleSampler _ _ _ _ _ _ _ _ _ _ _ _ _) in Hinit.
  destruct (gather_groups_plain G (meta_list ds) Hv Hr 0 []) as (groups & Hplain).
  set (kept := map fst (concat (values (map_values
                 (truncated (mbs * world_size gpc * acc)) groups)))).
  assert (Hepoch : forall e, 0 <= sd + e ->
            exists indices,
              global_indices G (set_epoch s e 0) = Ok indices /\
              Py.len indices = total_size s /\
              Permutation indices kept).
  { intros e He.
    destruct (global_indices_content G HG (set_epoch s e 0) gl)
      as (groups' & rng1 & indices & Hgather & Hgi & Hperm); auto.
    destruct (global_indices_spec G HG (set_epoch s e 0) gl)
      as (indices' & Hgi' & Hlen & _); auto.
    rewrite Hgi in Hgi'. injection Hgi' as <-.
    cbn [set_epoch dataset s seed epoch micro_batch_size num_replicas acc_grad]
      in Hgather, Hperm.
    rewrite Hplain in Hgather. injection Hgather as <- _.
    exists indices. split; [exact Hgi|]. split; [exact Hlen | exact Hperm]. }
  exists s, kept. split; [exact Hinit|]. split.
  - destruct (Hepoch (- sd) ltac:(lia)) as (indices & _ & Hlen & Hperm).
    rewrite <- Hlen. unfold Py.len. now rewrite (Permutation_length Hperm).
  - intros e He. destruct (Hepoch e He) as (indices & Hgi & _ & Hperm).
    exists indices. split; assumption.
Qed.

Lemma epoch_invariant_coverage_witness :
  exists s kept,
    LuminaPickleSampler_init {| world_size := 1; local_rank := 0 |} Example.seven
      (Some 2) (Some 2) true 0 true false = Ok s /\
    Py.len kept = total_size s /\
    forall e, 0 <= 0 + e ->
      exists indices,
        global_indices lcg (set_epoch s e 0) = Ok indices /\
        Permutation indices kept.
Proof.
  apply (epoch_invariant_coverage lcg {| world_size := 1; local_rank := 0 |}
           Example.seven 2 2 0 true false);
    [exact lcg_lawful | lia | lia | simpl; lia
     | vm_compute; reflexivity | vm_compute; reflexivity].
Defined.
